(** * Sorveteria: the in-memory record store and its domain service

    A shallow embedding of
      - [backend/src/instances] (class [SorveteriaStore]),
      - [backend/src/services/sorveteria/sorveteriaValidation.ts] (the zod schemas),
      - [backend/src/services/sorveteria/sorveteriaService.ts] (the service functions),
      - [constants/sorveteria/sorveteriaDefaults] (limits and enumerations),
      - [backend/src/api/internal/sorveteria/controller.ts] (the status of
        the responses) and the state logic of two page components
        ([GaleriaFotos], [DepoimentosSection]),
    followed by the properties of the specification proved about them and by
    further properties of the code.

    Conventions.  A JavaScript string is a [string] whose characters are its
    UTF-16 code units; the embedding covers the code units below 256
    (Latin-1), which is enough for the Portuguese keywords the service looks
    for.  Integers are [Z], array lengths and indices are [nat].  The wall
    clock ([new Date()]) is an explicit argument of every operation that reads
    it.  The store is a value threaded through the operations; a thrown
    [ServiceError] is the [Err] case of a result. *)

From Stdlib Require Import ZArith List String Ascii Bool Lia.
From Stdlib Require Import DecimalString.
From Stdlib.Floats Require Import SpecFloat.
Import ListNotations.

Local Open Scope string_scope.
Local Open Scope Z_scope.

(** ** JavaScript built-ins used by the code *)

Module Js.

(** [String.prototype.toLowerCase], one code unit: A-Z, and the Latin-1
    capitals U+00C0..U+00DE except the multiplication sign U+00D7. *)
Definition toLowerCase_unit (c : ascii) : ascii :=
  let n := N_of_ascii c in
  if (((65 <=? n) && (n <=? 90)) ||
      ((192 <=? n) && (n <=? 222) && negb (n =? 215)))%N
  then ascii_of_N (n + 32) else c.

Fixpoint toLowerCase (s : string) : string :=
  match s with
  | EmptyString => EmptyString
  | String c s' => String (toLowerCase_unit c) (toLowerCase s')
  end.

(** [s.includes(el)] *)
Fixpoint includes (s el : string) : bool :=
  String.prefix el s ||
  match s with
  | EmptyString => false
  | String _ s' => includes s' el
  end.

(** [l.join(sep)] on an array of strings *)
Definition join (l : list string) (sep : string) : string :=
  String.concat sep l.

(** [String(n)] for a non-negative integer *)
Definition String_of_nat (n : nat) : string :=
  NilEmpty.string_of_uint (Nat.to_uint n).

Fixpoint repeat_unit (c : ascii) (n : nat) : string :=
  match n with
  | O => EmptyString
  | S n' => String c (repeat_unit c n')
  end.

(** [s.padStart(len, c)] with a one-character filler *)
Definition padStart (s : string) (len : nat) (c : ascii) : string :=
  repeat_unit c (len - String.length s) ++ s.

(** [s.split(c)[0]]: the part before the first occurrence of [c] *)
Fixpoint split_first (s : string) (c : ascii) : string :=
  match s with
  | EmptyString => EmptyString
  | String d s' => if Ascii.eqb d c then EmptyString else String d (split_first s' c)
  end.

(** String relational operators: comparison of code units, left to right *)
Definition lt (a b : string) : bool := String.ltb a b.
Definition ge (a b : string) : bool := negb (String.ltb a b).

(** Truthiness of [string | null] *)
Definition truthy (o : option string) : bool :=
  match o with
  | Some s => negb (String.eqb s "")
  | None => false
  end.

(** [a || null] on [string | null | undefined] *)
Definition or_null (o : option string) : option string :=
  if truthy o then o else None.

End Js.

(** ** Regular expressions of the validation schemas

    The patterns are all anchored ([^...$]) and use only character ranges,
    sequence, alternation and [?], so [test] is a full match, decided here
    with derivatives. *)

Module Re.

Inductive regex : Type :=
| Void
| Eps
| Range (lo hi : ascii)
| Seq (r1 r2 : regex)
| Alt (r1 r2 : regex).

Definition Chr (c : ascii) : regex := Range c c.
Definition Opt (r : regex) : regex := Alt r Eps.
Definition digit : regex := Range "0" "9".

Fixpoint nullable (r : regex) : bool :=
  match r with
  | Void => false
  | Eps => true
  | Range _ _ => false
  | Seq r1 r2 => nullable r1 && nullable r2
  | Alt r1 r2 => nullable r1 || nullable r2
  end.

Definition in_range (lo hi c : ascii) : bool :=
  ((N_of_ascii lo <=? N_of_ascii c) && (N_of_ascii c <=? N_of_ascii hi))%N.

Fixpoint deriv (c : ascii) (r : regex) : regex :=
  match r with
  | Void => Void
  | Eps => Void
  | Range lo hi => if in_range lo hi c then Eps else Void
  | Seq r1 r2 =>
      if nullable r1 then Alt (Seq (deriv c r1) r2) (deriv c r2)
      else Seq (deriv c r1) r2
  | Alt r1 r2 => Alt (deriv c r1) (deriv c r2)
  end.

Fixpoint test (r : regex) (s : string) : bool :=
  match s with
  | EmptyString => nullable r
  | String c s' => test (deriv c r) s'
  end.

(** [/^([0-1]?[0-9]|2[0-3]):[0-5][0-9]$/] *)
Definition hora : regex :=
  Seq (Alt (Seq (Opt (Range "0" "1")) digit) (Seq (Chr "2") (Range "0" "3")))
      (Seq (Chr ":") (Seq (Range "0" "5") digit)).

(** [/^\d{4}-\d{2}-\d{2}$/] *)
Definition data : regex :=
  Seq digit (Seq digit (Seq digit (Seq digit
  (Seq (Chr "-") (Seq digit (Seq digit
  (Seq (Chr "-") (Seq digit digit)))))))).

End Re.

(** ** Numbers: the average rating

    [soma / aprovados.length] is an IEEE 754 binary64 division, taken here
    from the specification of floating-point arithmetic of the Standard
    Library; [toFixed(1)] picks the integer [n] for which [n / 10] is closest
    to the double, the larger one on a tie; [parseFloat] reads the decimal
    back.  The stored number is kept as that decimal. *)

Module Number.

Definition prec : Z := 53.
Definition emax : Z := 1024.

(** An integer as a Number (exact below [2^53]) *)
Definition of_Z (z : Z) : spec_float := binary_normalize prec emax z 0 false.

(** [x / y] *)
Definition div (x y : spec_float) : spec_float := SFdiv prec emax x y.

(** A Number printed with one decimal and parsed again *)
Inductive Decimal1 : Type :=
| Tenths (n : Z)
| NotANumber
| Infinite (neg : bool).

(** [floor (10 * m * 2^e + 1/2)] for [m >= 0] *)
Definition round_tenths (m e : Z) : Z :=
  match e with
  | Zneg p => (20 * m + 2 ^ Zpos p) / 2 ^ (Zpos p + 1)
  | _ => 10 * m * 2 ^ e
  end.

(** [parseFloat(x.toFixed(1))] *)
Definition toFixed1 (x : spec_float) : Decimal1 :=
  match x with
  | S754_zero _ => Tenths 0
  | S754_finite s m e => Tenths (cond_Zopp s (round_tenths (Zpos m) e))
  | S754_infinity s => Infinite s
  | S754_nan => NotANumber
  end.

End Number.

(** ** Constants ([constants/sorveteria/sorveteriaDefaults]) *)

Module SORVETERIA_LIMITS.
Definition NOME_MIN_LENGTH : nat := 1.
Definition NOME_MAX_LENGTH : nat := 200.
Definition SLOGAN_MAX_LENGTH : nat := 50.
Definition HISTORIA_MIN_LENGTH : nat := 200.
Definition HISTORIA_MAX_LENGTH : nat := 800.
Definition FUNDADORES_MAX_LENGTH : nat := 200.
Definition DIFERENCIAL_MAX_LENGTH : nat := 100.
Definition MIN_DIFERENCIAIS : nat := 3.
Definition MAX_DIFERENCIAIS : nat := 6.
Definition MAX_FOTOS_AMBIENTE : nat := 12.
Definition FOTO_DESCRICAO_MAX_LENGTH : nat := 150.
Definition DEPOIMENTO_MAX_LENGTH : nat := 300.
Definition MAX_PROMOCOES : nat := 3.
Definition MISSAO_MAX_LENGTH : nat := 200.
Definition VISAO_MAX_LENGTH : nat := 200.
Definition MAX_VALORES : nat := 5.
Definition VALOR_MAX_LENGTH : nat := 50.
End SORVETERIA_LIMITS.

Inductive FotoCategory : Type := BALCAO | ATENDIMENTO | EXTERNO | GERAL.
Inductive StatusModeracao : Type := PENDENTE | APROVADO | REJEITADO.
Inductive TipoPromocao : Type := DESCONTO | COMBO | BRINDE | ESPECIAL.

Definition StatusModeracao_eqb (a b : StatusModeracao) : bool :=
  match a, b with
  | PENDENTE, PENDENTE | APROVADO, APROVADO | REJEITADO, REJEITADO => true
  | _, _ => false
  end.

(** ** Types ([sorveteriaTypes.ts]) *)

(** ['aberto' | 'fechado' | 'abrindo_em_breve'] *)
Inductive StatusFuncionamento : Type := aberto | fechado | abrindo_em_breve.

Module HorarioDia.
Record t : Type := mk { abertura : string; fechamento : string; fechado : bool }.
End HorarioDia.

(** The value of [Date.prototype.getDay()], 0 to 6, named by the array the
    status recompute indexes with it:
    [['domingo','segunda','terca','quarta','quinta','sexta','sabado']]. *)
Inductive DiaSemana : Type :=
  Domingo | Segunda | Terca | Quarta | Quinta | Sexta | Sabado.

Module HorarioSemana.
Record t : Type := mk {
  segunda : HorarioDia.t;
  terca : HorarioDia.t;
  quarta : HorarioDia.t;
  quinta : HorarioDia.t;
  sexta : HorarioDia.t;
  sabado : HorarioDia.t;
  domingo : HorarioDia.t
}.

(** [horariosSemana[diaSemana]] *)
Definition get (h : t) (d : DiaSemana) : HorarioDia.t :=
  match d with
  | Domingo => domingo h
  | Segunda => segunda h
  | Terca => terca h
  | Quarta => quarta h
  | Quinta => quinta h
  | Sexta => sexta h
  | Sabado => sabado h
  end.
End HorarioSemana.

Module HorarioEspecial.
Record t : Type := mk {
  data : string;
  descricao : string;
  abertura : option string;
  fechamento : option string;
  fechado : bool
}.
End HorarioEspecial.

Module FotoAmbiente.
Record t : Type := mk {
  id : Z;
  url : string;
  descricao : option string;
  categoria : FotoCategory;
  ordem : Z
}.
End FotoAmbiente.

Module Depoimento.
Record t : Type := mk {
  id : Z;
  nomeCliente : string;
  texto : string;
  avaliacao : Z;
  statusModeracao : StatusModeracao;
  dataCriacao : string
}.

(** [depoimento.statusModeracao = status] *)
Definition set_statusModeracao (status : StatusModeracao) (d : t) : t :=
  mk (id d) (nomeCliente d) (texto d) (avaliacao d) status (dataCriacao d).
End Depoimento.

Module Promocao.
Record t : Type := mk {
  id : Z;
  titulo : string;
  descricao : string;
  dataValidade : string;
  prioridade : Z;
  tipo : TipoPromocao;
  ativa : bool
}.
End Promocao.

(** [Omit<SorveteriaEntity, 'id' | 'dateCreated' | 'dateModified'>] *)
Module SorveteriaData.
Record t : Type := mk {
  nomeSorveteria : string;
  logotipo : string;
  slogan : option string;
  historiaSorveteria : string;
  anoFundacao : Z;
  diferenciais : list string;
  fundadores : string;
  horariosSemana : HorarioSemana.t;
  horariosEspeciais : list HorarioEspecial.t;
  statusFuncionamento : StatusFuncionamento;
  fotosAmbiente : list FotoAmbiente.t;
  depoimentos : list Depoimento.t;
  avaliacaoMedia : option Number.Decimal1;
  totalAvaliacoes : Z;
  promocoesAtivas : list Promocao.t;
  missao : option string;
  visao : option string;
  valores : list string
}.
End SorveteriaData.

Module SorveteriaEntity.
Record t : Type := mk {
  id : Z;
  nomeSorveteria : string;
  logotipo : string;
  slogan : option string;
  historiaSorveteria : string;
  anoFundacao : Z;
  diferenciais : list string;
  fundadores : string;
  horariosSemana : HorarioSemana.t;
  horariosEspeciais : list HorarioEspecial.t;
  statusFuncionamento : StatusFuncionamento;
  fotosAmbiente : list FotoAmbiente.t;
  depoimentos : list Depoimento.t;
  avaliacaoMedia : option Number.Decimal1;
  totalAvaliacoes : Z;
  promocoesAtivas : list Promocao.t;
  missao : option string;
  visao : option string;
  valores : list string;
  dateCreated : string;
  dateModified : string
}.

(** Assignments to one property of the record *)
Definition set_statusFuncionamento (v : StatusFuncionamento) (e : t) : t :=
  mk (id e) (nomeSorveteria e) (logotipo e) (slogan e) (historiaSorveteria e)
     (anoFundacao e) (diferenciais e) (fundadores e) (horariosSemana e)
     (horariosEspeciais e) v (fotosAmbiente e) (depoimentos e)
     (avaliacaoMedia e) (totalAvaliacoes e) (promocoesAtivas e) (missao e)
     (visao e) (valores e) (dateCreated e) (dateModified e).

Definition set_fotosAmbiente (v : list FotoAmbiente.t) (e : t) : t :=
  mk (id e) (nomeSorveteria e) (logotipo e) (slogan e) (historiaSorveteria e)
     (anoFundacao e) (diferenciais e) (fundadores e) (horariosSemana e)
     (horariosEspeciais e) (statusFuncionamento e) v (depoimentos e)
     (avaliacaoMedia e) (totalAvaliacoes e) (promocoesAtivas e) (missao e)
     (visao e) (valores e) (dateCreated e) (dateModified e).

Definition set_depoimentos (v : list Depoimento.t) (e : t) : t :=
  mk (id e) (nomeSorveteria e) (logotipo e) (slogan e) (historiaSorveteria e)
     (anoFundacao e) (diferenciais e) (fundadores e) (horariosSemana e)
     (horariosEspeciais e) (statusFuncionamento e) (fotosAmbiente e) v
     (avaliacaoMedia e) (totalAvaliacoes e) (promocoesAtivas e) (missao e)
     (visao e) (valores e) (dateCreated e) (dateModified e).

Definition set_avaliacaoMedia (v : option Number.Decimal1) (e : t) : t :=
  mk (id e) (nomeSorveteria e) (logotipo e) (slogan e) (historiaSorveteria e)
     (anoFundacao e) (diferenciais e) (fundadores e) (horariosSemana e)
     (horariosEspeciais e) (statusFuncionamento e) (fotosAmbiente e)
     (depoimentos e) v (totalAvaliacoes e) (promocoesAtivas e) (missao e)
     (visao e) (valores e) (dateCreated e) (dateModified e).

Definition set_totalAvaliacoes (v : Z) (e : t) : t :=
  mk (id e) (nomeSorveteria e) (logotipo e) (slogan e) (historiaSorveteria e)
     (anoFundacao e) (diferenciais e) (fundadores e) (horariosSemana e)
     (horariosEspeciais e) (statusFuncionamento e) (fotosAmbiente e)
     (depoimentos e) (avaliacaoMedia e) v (promocoesAtivas e) (missao e)
     (visao e) (valores e) (dateCreated e) (dateModified e).

Definition set_promocoesAtivas (v : list Promocao.t) (e : t) : t :=
  mk (id e) (nomeSorveteria e) (logotipo e) (slogan e) (historiaSorveteria e)
     (anoFundacao e) (diferenciais e) (fundadores e) (horariosSemana e)
     (horariosEspeciais e) (statusFuncionamento e) (fotosAmbiente e)
     (depoimentos e) (avaliacaoMedia e) (totalAvaliacoes e) v (missao e)
     (visao e) (valores e) (dateCreated e) (dateModified e).

Definition set_dateModified (v : string) (e : t) : t :=
  mk (id e) (nomeSorveteria e) (logotipo e) (slogan e) (historiaSorveteria e)
     (anoFundacao e) (diferenciais e) (fundadores e) (horariosSemana e)
     (horariosEspeciais e) (statusFuncionamento e) (fotosAmbiente e)
     (depoimentos e) (avaliacaoMedia e) (totalAvaliacoes e)
     (promocoesAtivas e) (missao e) (visao e) (valores e) (dateCreated e) v.
End SorveteriaEntity.

(** [Partial<SorveteriaEntity>]: [None] is an absent key *)
Module SorveteriaPartial.
Record t : Type := mk {
  id : option Z;
  nomeSorveteria : option string;
  logotipo : option string;
  slogan : option (option string);
  historiaSorveteria : option string;
  anoFundacao : option Z;
  diferenciais : option (list string);
  fundadores : option string;
  horariosSemana : option HorarioSemana.t;
  horariosEspeciais : option (list HorarioEspecial.t);
  statusFuncionamento : option StatusFuncionamento;
  fotosAmbiente : option (list FotoAmbiente.t);
  depoimentos : option (list Depoimento.t);
  avaliacaoMedia : option (option Number.Decimal1);
  totalAvaliacoes : option Z;
  promocoesAtivas : option (list Promocao.t);
  missao : option (option string);
  visao : option (option string);
  valores : option (list string);
  dateCreated : option string;
  dateModified : option string
}.
End SorveteriaPartial.

(** The instant [new Date()] as the code reads it: local day of week, local
    hours and minutes, and the UTC timestamp of [toISOString()]. *)
Module Date.
Record t : Type := mk {
  getDay : DiaSemana;
  getHours : nat;
  getMinutes : nat;
  toISOString : string
}.
End Date.

(** ** The store ([class SorveteriaStore]) *)

(** Array helpers *)
Section ArrayHelpers.
Context {A : Type}.

(** [l.findIndex(p)], [None] for -1 *)
Fixpoint findIndex (p : A -> bool) (l : list A) : option nat :=
  match l with
  | [] => None
  | x :: l' => if p x then Some O else option_map S (findIndex p l')
  end.

(** [l.splice(i, 1)] *)
Definition splice1 (i : nat) (l : list A) : list A :=
  (firstn i l ++ skipn (S i) l)%list.

(** the element at index [i] replaced by [f] of it: an assignment to a
    property of the object found in the array *)
Fixpoint update_at (i : nat) (f : A -> A) (l : list A) : list A :=
  match l, i with
  | [], _ => []
  | x :: l', O => f x :: l'
  | x :: l', S i' => x :: update_at i' f l'
  end.

(** [l.some(p)] *)
Definition some (p : A -> bool) (l : list A) : bool := existsb p l.
End ArrayHelpers.

(** [Omit<FotoAmbiente, 'id' | 'ordem'>] *)
Module FotoInput.
Record t : Type := mk {
  url : string;
  descricao : option string;
  categoria : FotoCategory
}.
End FotoInput.

(** [Omit<Depoimento, 'id' | 'statusModeracao' | 'dataCriacao'>] *)
Module DepoimentoInput.
Record t : Type := mk {
  nomeCliente : string;
  texto : string;
  avaliacao : Z
}.
End DepoimentoInput.

(** [Omit<Promocao, 'id' | 'ativa'>] *)
Module PromocaoInput.
Record t : Type := mk {
  titulo : string;
  descricao : string;
  dataValidade : string;
  prioridade : Z;
  tipo : TipoPromocao
}.
End PromocaoInput.

Module SorveteriaStore.

Record t : Type := mk {
  sorveteria : option SorveteriaEntity.t;
  fotosCounter : Z;
  depoimentosCounter : Z;
  promocoesCounter : Z
}.

(** A new instance, also the state after [clear()] *)
Definition empty : t := mk None 0 0 0.

Definition clear (st : t) : t := mk None 0 0 0.

Definition with_sorveteria (e : SorveteriaEntity.t) (st : t) : t :=
  mk (Some e) (fotosCounter st) (depoimentosCounter st) (promocoesCounter st).

Definition get (st : t) : option SorveteriaEntity.t := sorveteria st.

(** [set(data)]; [now] is [new Date().toISOString()] *)
Definition set (now : string) (data : SorveteriaData.t) (st : t)
  : SorveteriaEntity.t * t :=
  let e :=
    match sorveteria st with
    | None =>
        SorveteriaEntity.mk 1
          (SorveteriaData.nomeSorveteria data) (SorveteriaData.logotipo data)
          (SorveteriaData.slogan data) (SorveteriaData.historiaSorveteria data)
          (SorveteriaData.anoFundacao data) (SorveteriaData.diferenciais data)
          (SorveteriaData.fundadores data) (SorveteriaData.horariosSemana data)
          (SorveteriaData.horariosEspeciais data)
          (SorveteriaData.statusFuncionamento data)
          (SorveteriaData.fotosAmbiente data) (SorveteriaData.depoimentos data)
          (SorveteriaData.avaliacaoMedia data)
          (SorveteriaData.totalAvaliacoes data)
          (SorveteriaData.promocoesAtivas data) (SorveteriaData.missao data)
          (SorveteriaData.visao data) (SorveteriaData.valores data)
          now now
    | Some old =>
        SorveteriaEntity.mk (SorveteriaEntity.id old)
          (SorveteriaData.nomeSorveteria data) (SorveteriaData.logotipo data)
          (SorveteriaData.slogan data) (SorveteriaData.historiaSorveteria data)
          (SorveteriaData.anoFundacao data) (SorveteriaData.diferenciais data)
          (SorveteriaData.fundadores data) (SorveteriaData.horariosSemana data)
          (SorveteriaData.horariosEspeciais data)
          (SorveteriaData.statusFuncionamento data)
          (SorveteriaData.fotosAmbiente data) (SorveteriaData.depoimentos data)
          (SorveteriaData.avaliacaoMedia data)
          (SorveteriaData.totalAvaliacoes data)
          (SorveteriaData.promocoesAtivas data) (SorveteriaData.missao data)
          (SorveteriaData.visao data) (SorveteriaData.valores data)
          (SorveteriaEntity.dateCreated old) now
    end in
  (e, with_sorveteria e st).

(** [{...old, ...data}], one key *)
Definition spread {A : Type} (old : A) (new : option A) : A :=
  match new with
  | Some v => v
  | None => old
  end.

(** [update(data)] *)
Definition update (now : string) (data : SorveteriaPartial.t) (st : t)
  : option SorveteriaEntity.t * t :=
  match sorveteria st with
  | None => (None, st)
  | Some old =>
      let e :=
        SorveteriaEntity.mk
          (spread (SorveteriaEntity.id old) (SorveteriaPartial.id data))
          (spread (SorveteriaEntity.nomeSorveteria old) (SorveteriaPartial.nomeSorveteria data))
          (spread (SorveteriaEntity.logotipo old) (SorveteriaPartial.logotipo data))
          (spread (SorveteriaEntity.slogan old) (SorveteriaPartial.slogan data))
          (spread (SorveteriaEntity.historiaSorveteria old) (SorveteriaPartial.historiaSorveteria data))
          (spread (SorveteriaEntity.anoFundacao old) (SorveteriaPartial.anoFundacao data))
          (spread (SorveteriaEntity.diferenciais old) (SorveteriaPartial.diferenciais data))
          (spread (SorveteriaEntity.fundadores old) (SorveteriaPartial.fundadores data))
          (spread (SorveteriaEntity.horariosSemana old) (SorveteriaPartial.horariosSemana data))
          (spread (SorveteriaEntity.horariosEspeciais old) (SorveteriaPartial.horariosEspeciais data))
          (spread (SorveteriaEntity.statusFuncionamento old) (SorveteriaPartial.statusFuncionamento data))
          (spread (SorveteriaEntity.fotosAmbiente old) (SorveteriaPartial.fotosAmbiente data))
          (spread (SorveteriaEntity.depoimentos old) (SorveteriaPartial.depoimentos data))
          (spread (SorveteriaEntity.avaliacaoMedia old) (SorveteriaPartial.avaliacaoMedia data))
          (spread (SorveteriaEntity.totalAvaliacoes old) (SorveteriaPartial.totalAvaliacoes data))
          (spread (SorveteriaEntity.promocoesAtivas old) (SorveteriaPartial.promocoesAtivas data))
          (spread (SorveteriaEntity.missao old) (SorveteriaPartial.missao data))
          (spread (SorveteriaEntity.visao old) (SorveteriaPartial.visao data))
          (spread (SorveteriaEntity.valores old) (SorveteriaPartial.valores data))
          (spread (SorveteriaEntity.dateCreated old) (SorveteriaPartial.dateCreated data))
          now in
      (Some e, with_sorveteria e st)
  end.

(** [addFoto(foto)] *)
Definition addFoto (now : string) (foto : FotoInput.t) (st : t)
  : option FotoAmbiente.t * t :=
  match sorveteria st with
  | None => (None, st)
  | Some e =>
      let newFoto :=
        FotoAmbiente.mk (fotosCounter st + 1)
          (FotoInput.url foto) (FotoInput.descricao foto)
          (FotoInput.categoria foto)
          (Z.of_nat (List.length (SorveteriaEntity.fotosAmbiente e)) + 1) in
      let e1 :=
        SorveteriaEntity.set_fotosAmbiente
          (SorveteriaEntity.fotosAmbiente e ++ [newFoto])%list e in
      let e2 := SorveteriaEntity.set_dateModified now e1 in
      (Some newFoto,
       mk (Some e2) (fotosCounter st + 1) (depoimentosCounter st)
          (promocoesCounter st))
  end.

(** [removeFoto(fotoId)] *)
Definition removeFoto (now : string) (fotoId : Z) (st : t) : bool * t :=
  match sorveteria st with
  | None => (false, st)
  | Some e =>
      match findIndex (fun f => FotoAmbiente.id f =? fotoId)
              (SorveteriaEntity.fotosAmbiente e) with
      | None => (false, st)
      | Some index =>
          let e1 :=
            SorveteriaEntity.set_fotosAmbiente
              (splice1 index (SorveteriaEntity.fotosAmbiente e)) e in
          let e2 := SorveteriaEntity.set_dateModified now e1 in
          (true, with_sorveteria e2 st)
      end
  end.

(** [recalcularAvaliacaoMedia()]; the sum of integer ratings is exact in
    binary64 as long as it stays below [2^53] *)
Definition recalcularAvaliacaoMedia (st : t) : t :=
  match sorveteria st with
  | None => st
  | Some e =>
      let aprovados :=
        filter (fun d => StatusModeracao_eqb (Depoimento.statusModeracao d) APROVADO)
          (SorveteriaEntity.depoimentos e) in
      if (List.length aprovados =? 0)%nat then
        with_sorveteria
          (SorveteriaEntity.set_totalAvaliacoes 0
             (SorveteriaEntity.set_avaliacaoMedia None e)) st
      else
        let soma := fold_left (fun acc d => acc + Depoimento.avaliacao d) aprovados 0 in
        let media :=
          Number.toFixed1
            (Number.div (Number.of_Z soma)
               (Number.of_Z (Z.of_nat (List.length aprovados)))) in
        with_sorveteria
          (SorveteriaEntity.set_totalAvaliacoes (Z.of_nat (List.length aprovados))
             (SorveteriaEntity.set_avaliacaoMedia (Some media) e)) st
  end.

(** [addDepoimento(depoimento)] *)
Definition addDepoimento (now : string) (depoimento : DepoimentoInput.t) (st : t)
  : option Depoimento.t * t :=
  match sorveteria st with
  | None => (None, st)
  | Some e =>
      let newDepoimento :=
        Depoimento.mk (depoimentosCounter st + 1)
          (DepoimentoInput.nomeCliente depoimento)
          (DepoimentoInput.texto depoimento)
          (DepoimentoInput.avaliacao depoimento)
          PENDENTE now in
      let e1 :=
        SorveteriaEntity.set_depoimentos
          (SorveteriaEntity.depoimentos e ++ [newDepoimento])%list e in
      (Some newDepoimento,
       recalcularAvaliacaoMedia
         (mk (Some e1) (fotosCounter st) (depoimentosCounter st + 1)
             (promocoesCounter st)))
  end.

(** [updateDepoimentoStatus(depoimentoId, status)]: [find] hands back the
    object stored in the array, so the assignment changes the array's
    element in place. *)
Definition updateDepoimentoStatus (depoimentoId : Z) (status : StatusModeracao)
    (st : t) : option Depoimento.t * t :=
  match sorveteria st with
  | None => (None, st)
  | Some e =>
      match findIndex (fun d => Depoimento.id d =? depoimentoId)
              (SorveteriaEntity.depoimentos e) with
      | None => (None, st)
      | Some index =>
          let depoimentos' :=
            update_at index (Depoimento.set_statusModeracao status)
              (SorveteriaEntity.depoimentos e) in
          let e1 := SorveteriaEntity.set_depoimentos depoimentos' e in
          (nth_error depoimentos' index,
           recalcularAvaliacaoMedia (with_sorveteria e1 st))
      end
  end.

(** [addPromocao(promocao)] *)
Definition addPromocao (now : string) (promocao : PromocaoInput.t) (st : t)
  : option Promocao.t * t :=
  match sorveteria st with
  | None => (None, st)
  | Some e =>
      let newPromocao :=
        Promocao.mk (promocoesCounter st + 1)
          (PromocaoInput.titulo promocao) (PromocaoInput.descricao promocao)
          (PromocaoInput.dataValidade promocao)
          (PromocaoInput.prioridade promocao) (PromocaoInput.tipo promocao)
          true in
      let e1 :=
        SorveteriaEntity.set_promocoesAtivas
          (SorveteriaEntity.promocoesAtivas e ++ [newPromocao])%list e in
      let e2 := SorveteriaEntity.set_dateModified now e1 in
      (Some newPromocao,
       mk (Some e2) (fotosCounter st) (depoimentosCounter st)
          (promocoesCounter st + 1))
  end.

(** [removePromocoesVencidas()]; [agora] is the clock read for [hoje],
    [now] the timestamp read when something was removed *)
Definition removePromocoesVencidas (agora : string) (now : string) (st : t)
  : Z * t :=
  match sorveteria st with
  | None => (0, st)
  | Some e =>
      let hoje := Js.split_first agora "T" in
      let antes := List.length (SorveteriaEntity.promocoesAtivas e) in
      let e1 :=
        SorveteriaEntity.set_promocoesAtivas
          (filter (fun p => Js.ge (Promocao.dataValidade p) hoje)
             (SorveteriaEntity.promocoesAtivas e)) e in
      let removidas :=
        Z.of_nat antes - Z.of_nat (List.length (SorveteriaEntity.promocoesAtivas e1)) in
      let e2 :=
        if removidas >? 0 then SorveteriaEntity.set_dateModified now e1 else e1 in
      (removidas, with_sorveteria e2 st)
  end.

(** the template literal of [horaAtual] *)
Definition horaAtual (agora : Date.t) : string :=
  Js.padStart (Js.String_of_nat (Date.getHours agora)) 2 "0" ++ ":" ++
  Js.padStart (Js.String_of_nat (Date.getMinutes agora)) 2 "0".

(** [updateStatusFuncionamento()] *)
Definition updateStatusFuncionamento (agora : Date.t) (st : t) : t :=
  match sorveteria st with
  | None => st
  | Some e =>
      let diaSemana := Date.getDay agora in
      let horaAtual := horaAtual agora in
      let dataAtual := Js.split_first (Date.toISOString agora) "T" in
      let regular :=
        let horarioDia := HorarioSemana.get (SorveteriaEntity.horariosSemana e) diaSemana in
        if HorarioDia.fechado horarioDia then
          with_sorveteria (SorveteriaEntity.set_statusFuncionamento fechado e) st
        else if Js.ge horaAtual (HorarioDia.abertura horarioDia) &&
                Js.lt horaAtual (HorarioDia.fechamento horarioDia) then
          with_sorveteria (SorveteriaEntity.set_statusFuncionamento aberto e) st
        else
          with_sorveteria (SorveteriaEntity.set_statusFuncionamento fechado e) st in
      match find (fun h => String.eqb (HorarioEspecial.data h) dataAtual)
              (SorveteriaEntity.horariosEspeciais e) with
      | Some horarioEspecial =>
          if HorarioEspecial.fechado horarioEspecial then
            with_sorveteria (SorveteriaEntity.set_statusFuncionamento fechado e) st
          else
            match HorarioEspecial.abertura horarioEspecial,
                  HorarioEspecial.fechamento horarioEspecial with
            | Some abertura, Some fechamento =>
                if negb (String.eqb abertura "") && negb (String.eqb fechamento "") then
                  if Js.ge horaAtual abertura && Js.lt horaAtual fechamento then
                    with_sorveteria (SorveteriaEntity.set_statusFuncionamento aberto e) st
                  else
                    with_sorveteria (SorveteriaEntity.set_statusFuncionamento fechado e) st
                else regular
            | _, _ => regular
            end
      | None => regular
      end
  end.

End SorveteriaStore.

(** ** Request bodies and results of the service *)

(** The body of create-or-update; an optional key that is absent or [null]
    is [None]. *)
Module CreateBody.
Record t : Type := mk {
  nomeSorveteria : string;
  logotipo : string;
  slogan : option string;
  historiaSorveteria : string;
  anoFundacao : Z;
  diferenciais : list string;
  fundadores : string;
  horariosSemana : HorarioSemana.t;
  horariosEspeciais : option (list HorarioEspecial.t);
  missao : option string;
  visao : option string;
  valores : option (list string)
}.
End CreateBody.

(** The body of the partial update: [None] is an absent key, [Some None] an
    explicit [null]. *)
Module UpdateBody.
Record t : Type := mk {
  nomeSorveteria : option string;
  logotipo : option string;
  slogan : option (option string);
  historiaSorveteria : option string;
  anoFundacao : option Z;
  diferenciais : option (list string);
  fundadores : option string;
  horariosSemana : option HorarioSemana.t;
  horariosEspeciais : option (list HorarioEspecial.t);
  missao : option (option string);
  visao : option (option string);
  valores : option (list string)
}.

(** the parsed body seen as a [Partial<SorveteriaEntity>] *)
Definition toPartial (b : t) : SorveteriaPartial.t :=
  SorveteriaPartial.mk None (nomeSorveteria b) (logotipo b) (slogan b)
    (historiaSorveteria b) (anoFundacao b) (diferenciais b) (fundadores b)
    (horariosSemana b) (horariosEspeciais b) None None None None None None
    (missao b) (visao b) (valores b) None None.
End UpdateBody.

Module FotoBody.
Record t : Type := mk {
  url : string;
  descricao : option string;
  categoria : string
}.
End FotoBody.

Module PromocaoBody.
Record t : Type := mk {
  titulo : string;
  descricao : string;
  dataValidade : string;
  prioridade : Z;
  tipo : string
}.
End PromocaoBody.

Inductive ErrorCode : Type :=
  VALIDATION_ERROR | NOT_FOUND | LIMIT_EXCEEDED | PRIORITY_CONFLICT.

(** [new ServiceError(code, message, statusCode)]; the list of zod issues
    attached to a schema failure is left out. *)
Module ServiceError.
Record t : Type := mk { code : ErrorCode; message : string; statusCode : Z }.
End ServiceError.

Inductive Result (A : Type) : Type :=
| Ok (a : A)
| Err (e : ServiceError.t).
Arguments Ok {A} a.
Arguments Err {A} e.

(** Keywords with the code units of c-cedilla (231), a-tilde (227) and
    o-acute (243) *)
Definition tradicao : string := "tradi" ++ String "231" (String "227" "o").
Definition Historia : string := "Hist" ++ String "243" "ria".

(** ** Validation schemas ([sorveteriaValidation.ts]) *)

Definition len_between (lo hi : nat) (s : string) : bool :=
  ((lo <=? String.length s) && (String.length s <=? hi))%nat.

Definition len_max (hi : nat) (s : string) : bool :=
  (String.length s <=? hi)%nat.

(** [.nullable().optional()] around a check *)
Definition optional {A : Type} (check : A -> bool) (o : option A) : bool :=
  match o with
  | Some v => check v
  | None => true
  end.

Definition horarioDiaSchema (h : HorarioDia.t) : bool :=
  Re.test Re.hora (HorarioDia.abertura h) &&
  Re.test Re.hora (HorarioDia.fechamento h).

Definition horariosSemanaSchema (w : HorarioSemana.t) : bool :=
  horarioDiaSchema (HorarioSemana.segunda w) &&
  horarioDiaSchema (HorarioSemana.terca w) &&
  horarioDiaSchema (HorarioSemana.quarta w) &&
  horarioDiaSchema (HorarioSemana.quinta w) &&
  horarioDiaSchema (HorarioSemana.sexta w) &&
  horarioDiaSchema (HorarioSemana.sabado w) &&
  horarioDiaSchema (HorarioSemana.domingo w).

Definition horarioEspecialSchema (h : HorarioEspecial.t) : bool :=
  Re.test Re.data (HorarioEspecial.data h) &&
  len_between 1 200 (HorarioEspecial.descricao h) &&
  optional (Re.test Re.hora) (HorarioEspecial.abertura h) &&
  optional (Re.test Re.hora) (HorarioEspecial.fechamento h).

Definition parse_FotoCategory (s : string) : option FotoCategory :=
  if String.eqb s "balcao" then Some BALCAO
  else if String.eqb s "atendimento" then Some ATENDIMENTO
  else if String.eqb s "externo" then Some EXTERNO
  else if String.eqb s "geral" then Some GERAL
  else None.

Definition parse_StatusModeracao (s : string) : option StatusModeracao :=
  if String.eqb s "pendente" then Some PENDENTE
  else if String.eqb s "aprovado" then Some APROVADO
  else if String.eqb s "rejeitado" then Some REJEITADO
  else None.

Definition parse_TipoPromocao (s : string) : option TipoPromocao :=
  if String.eqb s "desconto" then Some DESCONTO
  else if String.eqb s "combo" then Some COMBO
  else if String.eqb s "brinde" then Some BRINDE
  else if String.eqb s "especial" then Some ESPECIAL
  else None.

(** [depoimentoCreateSchema.safeParse] *)
Definition depoimentoCreateSchema (b : DepoimentoInput.t) : option DepoimentoInput.t :=
  if len_between 1 100 (DepoimentoInput.nomeCliente b) &&
     len_between 1 SORVETERIA_LIMITS.DEPOIMENTO_MAX_LENGTH (DepoimentoInput.texto b) &&
     (1 <=? DepoimentoInput.avaliacao b) && (DepoimentoInput.avaliacao b <=? 5)
  then Some b else None.

(** [promocaoCreateSchema.safeParse] *)
Definition promocaoCreateSchema (b : PromocaoBody.t) : option PromocaoInput.t :=
  if len_between 1 200 (PromocaoBody.titulo b) &&
     len_between 1 500 (PromocaoBody.descricao b) &&
     Re.test Re.data (PromocaoBody.dataValidade b) &&
     (1 <=? PromocaoBody.prioridade b) && (PromocaoBody.prioridade b <=? 5)
  then
    match parse_TipoPromocao (PromocaoBody.tipo b) with
    | Some tipo =>
        Some (PromocaoInput.mk (PromocaoBody.titulo b) (PromocaoBody.descricao b)
                (PromocaoBody.dataValidade b) (PromocaoBody.prioridade b) tipo)
    | None => None
    end
  else None.

(** [paramsSchema.safeParse]: the id, coerced to a number, is a positive
    integer *)
Definition paramsSchema (id : Z) : option Z :=
  if 0 <? id then Some id else None.

Section Service.

(** [z.string().url()]: whether the platform's URL parser accepts the string *)
Variable isUrl : string -> bool.

(** [new Date().getFullYear()] at the time the schemas are built *)
Variable anoAtual : Z.

(** [createSchema.safeParse(body).success]; the parsed data is the body *)
Definition createSchema (b : CreateBody.t) : bool :=
  len_between SORVETERIA_LIMITS.NOME_MIN_LENGTH SORVETERIA_LIMITS.NOME_MAX_LENGTH
    (CreateBody.nomeSorveteria b) &&
  isUrl (CreateBody.logotipo b) &&
  optional (len_max SORVETERIA_LIMITS.SLOGAN_MAX_LENGTH) (CreateBody.slogan b) &&
  len_between SORVETERIA_LIMITS.HISTORIA_MIN_LENGTH SORVETERIA_LIMITS.HISTORIA_MAX_LENGTH
    (CreateBody.historiaSorveteria b) &&
  (1900 <=? CreateBody.anoFundacao b) && (CreateBody.anoFundacao b <=? anoAtual) &&
  forallb (len_max SORVETERIA_LIMITS.DIFERENCIAL_MAX_LENGTH) (CreateBody.diferenciais b) &&
  (SORVETERIA_LIMITS.MIN_DIFERENCIAIS <=? List.length (CreateBody.diferenciais b))%nat &&
  (List.length (CreateBody.diferenciais b) <=? SORVETERIA_LIMITS.MAX_DIFERENCIAIS)%nat &&
  len_max SORVETERIA_LIMITS.FUNDADORES_MAX_LENGTH (CreateBody.fundadores b) &&
  horariosSemanaSchema (CreateBody.horariosSemana b) &&
  optional (forallb horarioEspecialSchema) (CreateBody.horariosEspeciais b) &&
  optional (len_max SORVETERIA_LIMITS.MISSAO_MAX_LENGTH) (CreateBody.missao b) &&
  optional (len_max SORVETERIA_LIMITS.VISAO_MAX_LENGTH) (CreateBody.visao b) &&
  optional (fun l => forallb (len_max SORVETERIA_LIMITS.VALOR_MAX_LENGTH) l &&
                     (List.length l <=? SORVETERIA_LIMITS.MAX_VALORES)%nat)
    (CreateBody.valores b).

(** [updateSchema.safeParse(body).success] *)
Definition updateSchema (b : UpdateBody.t) : bool :=
  optional (len_between SORVETERIA_LIMITS.NOME_MIN_LENGTH SORVETERIA_LIMITS.NOME_MAX_LENGTH)
    (UpdateBody.nomeSorveteria b) &&
  optional isUrl (UpdateBody.logotipo b) &&
  optional (optional (len_max SORVETERIA_LIMITS.SLOGAN_MAX_LENGTH)) (UpdateBody.slogan b) &&
  optional (len_between SORVETERIA_LIMITS.HISTORIA_MIN_LENGTH
              SORVETERIA_LIMITS.HISTORIA_MAX_LENGTH)
    (UpdateBody.historiaSorveteria b) &&
  optional (fun a => (1900 <=? a) && (a <=? anoAtual)) (UpdateBody.anoFundacao b) &&
  optional (fun l => forallb (len_max SORVETERIA_LIMITS.DIFERENCIAL_MAX_LENGTH) l &&
                     (SORVETERIA_LIMITS.MIN_DIFERENCIAIS <=? List.length l)%nat &&
                     (List.length l <=? SORVETERIA_LIMITS.MAX_DIFERENCIAIS)%nat)
    (UpdateBody.diferenciais b) &&
  optional (len_max SORVETERIA_LIMITS.FUNDADORES_MAX_LENGTH) (UpdateBody.fundadores b) &&
  optional horariosSemanaSchema (UpdateBody.horariosSemana b) &&
  optional (forallb horarioEspecialSchema) (UpdateBody.horariosEspeciais b) &&
  optional (optional (len_max SORVETERIA_LIMITS.MISSAO_MAX_LENGTH)) (UpdateBody.missao b) &&
  optional (optional (len_max SORVETERIA_LIMITS.VISAO_MAX_LENGTH)) (UpdateBody.visao b) &&
  optional (fun l => forallb (len_max SORVETERIA_LIMITS.VALOR_MAX_LENGTH) l &&
                     (List.length l <=? SORVETERIA_LIMITS.MAX_VALORES)%nat)
    (UpdateBody.valores b).

(** [fotoCreateSchema.safeParse], with [descricao ?? null] applied *)
Definition fotoCreateSchema (b : FotoBody.t) : option FotoInput.t :=
  if isUrl (FotoBody.url b) &&
     optional (len_max SORVETERIA_LIMITS.FOTO_DESCRICAO_MAX_LENGTH) (FotoBody.descricao b)
  then
    match parse_FotoCategory (FotoBody.categoria b) with
    | Some categoria => Some (FotoInput.mk (FotoBody.url b) (FotoBody.descricao b) categoria)
    | None => None
    end
  else None.

(** ** The service ([sorveteriaService.ts]) *)

Definition error (code : ErrorCode) (message : string) (statusCode : Z)
  : ServiceError.t :=
  ServiceError.mk code message statusCode.

(** [sorveteriaGet()] *)
Definition sorveteriaGet (agora : Date.t) (st : SorveteriaStore.t)
  : Result SorveteriaEntity.t * SorveteriaStore.t :=
  match SorveteriaStore.get st with
  | None => (Err (error NOT_FOUND "Sorveteria information not found" 404), st)
  | Some sorveteria =>
      let st1 := SorveteriaStore.updateStatusFuncionamento agora st in
      (* [sorveteriaStore.get()!] *)
      match SorveteriaStore.get st1 with
      | Some e => (Ok e, st1)
      | None => (Ok sorveteria, st1)
      end
  end.

Definition requiredElements : list string := ["origem"; tradicao; "qualidade"].
Definition requiredDiferenciais : list string := ["qualidade"; tradicao; "atendimento"].

(** [sorveteriaCreateOrUpdate(body)]; [t1] is the clock read by [set], [t2]
    the one read by the status recompute.  The entity returned is the
    object held by the store, so it shows the recomputed status. *)
Definition sorveteriaCreateOrUpdate (t1 t2 : Date.t) (body : CreateBody.t)
    (st : SorveteriaStore.t) : Result SorveteriaEntity.t * SorveteriaStore.t :=
  if negb (createSchema body) then
    (Err (error VALIDATION_ERROR "Validation failed" 400), st)
  else
    let params := body in
    let historiaLower := Js.toLowerCase (CreateBody.historiaSorveteria params) in
    let missingElements :=
      filter (fun el => negb (Js.includes historiaLower el)) requiredElements in
    if (0 <? List.length missingElements)%nat then
      (Err (error VALIDATION_ERROR
              (Historia ++ " deve incluir: " ++ Js.join missingElements ", ") 400), st)
    else
      let diferenciais := map Js.toLowerCase (CreateBody.diferenciais params) in
      let missingDiferenciais :=
        filter (fun req => negb (some (fun d => Js.includes d req) diferenciais))
          requiredDiferenciais in
      if (0 <? List.length missingDiferenciais)%nat then
        (Err (error VALIDATION_ERROR
                ("Diferenciais devem incluir: " ++ Js.join missingDiferenciais ", ") 400),
         st)
      else
        let '(newSorveteria, st1) :=
          SorveteriaStore.set (Date.toISOString t1)
            (SorveteriaData.mk
               (CreateBody.nomeSorveteria params)
               (CreateBody.logotipo params)
               (Js.or_null (CreateBody.slogan params))
               (CreateBody.historiaSorveteria params)
               (CreateBody.anoFundacao params)
               (CreateBody.diferenciais params)
               (CreateBody.fundadores params)
               (CreateBody.horariosSemana params)
               (match CreateBody.horariosEspeciais params with
                | Some l => l
                | None => []
                end)
               fechado
               []
               []
               None
               0
               []
               (Js.or_null (CreateBody.missao params))
               (Js.or_null (CreateBody.visao params))
               (match CreateBody.valores params with
                | Some l => l
                | None => []
                end))
            st in
        let st2 := SorveteriaStore.updateStatusFuncionamento t2 st1 in
        match SorveteriaStore.get st2 with
        | Some e => (Ok e, st2)
        | None => (Ok newSorveteria, st2)
        end.

(** [sorveteriaUpdate(body)] *)
Definition sorveteriaUpdate (t1 t2 : Date.t) (body : UpdateBody.t)
    (st : SorveteriaStore.t) : Result SorveteriaEntity.t * SorveteriaStore.t :=
  if negb (updateSchema body) then
    (Err (error VALIDATION_ERROR "Validation failed" 400), st)
  else
    match SorveteriaStore.get st with
    | None => (Err (error NOT_FOUND "Sorveteria not found" 404), st)
    | Some existing =>
        match SorveteriaStore.update (Date.toISOString t1) (UpdateBody.toPartial body) st with
        | (None, st1) => (Err (error NOT_FOUND "Sorveteria not found" 404), st1)
        | (Some updated, st1) =>
            let st2 := SorveteriaStore.updateStatusFuncionamento t2 st1 in
            match SorveteriaStore.get st2 with
            | Some e => (Ok e, st2)
            | None => (Ok updated, st2)
            end
        end
    end.

(** [sorveteriaAddFoto(body)] *)
Definition sorveteriaAddFoto (agora : Date.t) (body : FotoBody.t)
    (st : SorveteriaStore.t) : Result FotoAmbiente.t * SorveteriaStore.t :=
  match fotoCreateSchema body with
  | None => (Err (error VALIDATION_ERROR "Validation failed" 400), st)
  | Some data =>
      match SorveteriaStore.get st with
      | None => (Err (error NOT_FOUND "Sorveteria not found" 404), st)
      | Some sorveteria =>
          if (SORVETERIA_LIMITS.MAX_FOTOS_AMBIENTE <=?
              List.length (SorveteriaEntity.fotosAmbiente sorveteria))%nat then
            (Err (error LIMIT_EXCEEDED
                    ("Maximum of " ++
                     Js.String_of_nat SORVETERIA_LIMITS.MAX_FOTOS_AMBIENTE ++
                     " photos allowed") 400), st)
          else
            match SorveteriaStore.addFoto (Date.toISOString agora) data st with
            | (None, st1) => (Err (error NOT_FOUND "Sorveteria not found" 404), st1)
            | (Some foto, st1) => (Ok foto, st1)
            end
      end
  end.

(** [sorveteriaRemoveFoto(params)] *)
Definition sorveteriaRemoveFoto (agora : Date.t) (params : Z)
    (st : SorveteriaStore.t) : Result string * SorveteriaStore.t :=
  match paramsSchema params with
  | None => (Err (error VALIDATION_ERROR "Invalid ID" 400), st)
  | Some id =>
      match SorveteriaStore.removeFoto (Date.toISOString agora) id st with
      | (false, st1) => (Err (error NOT_FOUND "Photo not found" 404), st1)
      | (true, st1) => (Ok "Photo removed successfully", st1)
      end
  end.

(** [sorveteriaAddDepoimento(body)] *)
Definition sorveteriaAddDepoimento (agora : Date.t) (body : DepoimentoInput.t)
    (st : SorveteriaStore.t) : Result Depoimento.t * SorveteriaStore.t :=
  match depoimentoCreateSchema body with
  | None => (Err (error VALIDATION_ERROR "Validation failed" 400), st)
  | Some data =>
      match SorveteriaStore.addDepoimento (Date.toISOString agora) data st with
      | (None, st1) => (Err (error NOT_FOUND "Sorveteria not found" 404), st1)
      | (Some depoimento, st1) => (Ok depoimento, st1)
      end
  end.

(** [sorveteriaUpdateDepoimentoStatus(params, body)] *)
Definition sorveteriaUpdateDepoimentoStatus (params : Z) (body : string)
    (st : SorveteriaStore.t) : Result Depoimento.t * SorveteriaStore.t :=
  match paramsSchema params with
  | None => (Err (error VALIDATION_ERROR "Invalid ID" 400), st)
  | Some id =>
      match parse_StatusModeracao body with
      | None => (Err (error VALIDATION_ERROR "Invalid status" 400), st)
      | Some status =>
          match SorveteriaStore.updateDepoimentoStatus id status st with
          | (None, st1) => (Err (error NOT_FOUND "Testimonial not found" 404), st1)
          | (Some depoimento, st1) => (Ok depoimento, st1)
          end
      end
  end.

(** [sorveteriaAddPromocao(body)] *)
Definition sorveteriaAddPromocao (agora : Date.t) (body : PromocaoBody.t)
    (st : SorveteriaStore.t) : Result Promocao.t * SorveteriaStore.t :=
  match promocaoCreateSchema body with
  | None => (Err (error VALIDATION_ERROR "Validation failed" 400), st)
  | Some data =>
      match SorveteriaStore.get st with
      | None => (Err (error NOT_FOUND "Sorveteria not found" 404), st)
      | Some sorveteria =>
          if (SORVETERIA_LIMITS.MAX_PROMOCOES <=?
              List.length (SorveteriaEntity.promocoesAtivas sorveteria))%nat then
            (Err (error LIMIT_EXCEEDED
                    ("Maximum of " ++
                     Js.String_of_nat SORVETERIA_LIMITS.MAX_PROMOCOES ++
                     " active promotions allowed") 400), st)
          else if (PromocaoInput.prioridade data =? 1) &&
                  some (fun p => Promocao.prioridade p =? 1)
                    (SorveteriaEntity.promocoesAtivas sorveteria) then
            (Err (error PRIORITY_CONFLICT "Only one promotion can have priority 1" 400), st)
          else
            match SorveteriaStore.addPromocao (Date.toISOString agora) data st with
            | (None, st1) => (Err (error NOT_FOUND "Sorveteria not found" 404), st1)
            | (Some promocao, st1) => (Ok promocao, st1)
            end
      end
  end.

(** [sorveteriaRemovePromocoesVencidas()]: the number removed *)
Definition sorveteriaRemovePromocoesVencidas (t1 t2 : Date.t)
    (st : SorveteriaStore.t) : Z * SorveteriaStore.t :=
  SorveteriaStore.removePromocoesVencidas (Date.toISOString t1) (Date.toISOString t2) st.

(** [sorveteriaUpdateStatus()]: [None] is the string ['unknown'] *)
Definition sorveteriaUpdateStatus (agora : Date.t) (st : SorveteriaStore.t)
  : option StatusFuncionamento * SorveteriaStore.t :=
  let st1 := SorveteriaStore.updateStatusFuncionamento agora st in
  (option_map SorveteriaEntity.statusFuncionamento (SorveteriaStore.get st1), st1).

(** ** The states the public operations can reach *)

Inductive Request : Type :=
| GetSorveteria (agora : Date.t)
| CreateOrUpdate (t1 t2 : Date.t) (body : CreateBody.t)
| Update (t1 t2 : Date.t) (body : UpdateBody.t)
| AddFoto (agora : Date.t) (body : FotoBody.t)
| RemoveFoto (agora : Date.t) (params : Z)
| AddDepoimento (agora : Date.t) (body : DepoimentoInput.t)
| UpdateDepoimentoStatus (params : Z) (body : string)
| AddPromocao (agora : Date.t) (body : PromocaoBody.t)
| RemovePromocoesVencidas (t1 t2 : Date.t)
| UpdateStatus (agora : Date.t).

(** The store after the service has handled a request *)
Definition handle (r : Request) (st : SorveteriaStore.t) : SorveteriaStore.t :=
  match r with
  | GetSorveteria agora => snd (sorveteriaGet agora st)
  | CreateOrUpdate t1 t2 body => snd (sorveteriaCreateOrUpdate t1 t2 body st)
  | Update t1 t2 body => snd (sorveteriaUpdate t1 t2 body st)
  | AddFoto agora body => snd (sorveteriaAddFoto agora body st)
  | RemoveFoto agora params => snd (sorveteriaRemoveFoto agora params st)
  | AddDepoimento agora body => snd (sorveteriaAddDepoimento agora body st)
  | UpdateDepoimentoStatus params body =>
      snd (sorveteriaUpdateDepoimentoStatus params body st)
  | AddPromocao agora body => snd (sorveteriaAddPromocao agora body st)
  | RemovePromocoesVencidas t1 t2 => snd (sorveteriaRemovePromocoesVencidas t1 t2 st)
  | UpdateStatus agora => snd (sorveteriaUpdateStatus agora st)
  end.

Inductive reachable : SorveteriaStore.t -> Prop :=
| reachable_empty : reachable SorveteriaStore.empty
| reachable_handle : forall r st, reachable st -> reachable (handle r st).

(** The store after a list of requests, oldest first *)
Definition run (rs : list Request) (st : SorveteriaStore.t) : SorveteriaStore.t :=
  fold_left (fun s r => handle r s) rs st.

End Service.

(** * Specification-side definitions *)

(** What the weekly table says for one day, in the words of the
    specification: closed if the closed flag is set, else open exactly when
    the current time is in [[abertura, fechamento)]. *)
Definition weekly_status (hora : string) (h : HorarioDia.t) : StatusFuncionamento :=
  if HorarioDia.fechado h then fechado
  else if Js.ge hora (HorarioDia.abertura h) && Js.lt hora (HorarioDia.fechamento h)
       then aberto else fechado.

(** What the specification says a special-hours entry of today decides:
    closed flag, else the interval when both times are present, else
    closed. *)
Definition special_status_as_specified (hora : string) (h : HorarioEspecial.t)
  : StatusFuncionamento :=
  if HorarioEspecial.fechado h then fechado
  else
    match HorarioEspecial.abertura h, HorarioEspecial.fechamento h with
    | Some a, Some f => if Js.ge hora a && Js.lt hora f then aberto else fechado
    | _, _ => fechado
    end.

(** The first special-hours entry dated today *)
Definition special_today (agora : Date.t) (e : SorveteriaEntity.t)
  : option HorarioEspecial.t :=
  find (fun h => String.eqb (HorarioEspecial.data h)
                   (Js.split_first (Date.toISOString agora) "T"))
    (SorveteriaEntity.horariosEspeciais e).

(** Calendar dates, to read the comparison of date strings *)
Definition digit_value (c : ascii) : Z := Z.of_N (N_of_ascii c) - 48.

Fixpoint number_of (s : string) (acc : Z) : Z :=
  match s with
  | EmptyString => acc
  | String c s' => number_of s' (10 * acc + digit_value c)
  end.

(** Year, month and day of a [YYYY-MM-DD] string *)
Definition ymd (s : string) : Z * Z * Z :=
  (number_of (substring 0 4 s) 0, number_of (substring 5 2 s) 0,
   number_of (substring 8 2 s) 0).

(** The order of the calendar *)
Definition date_le (a b : string) : Prop :=
  let '(y1, m1, d1) := ymd a in
  let '(y2, m2, d2) := ymd b in
  y1 < y2 \/ (y1 = y2 /\ (m1 < m2 \/ (m1 = m2 /\ d1 <= d2))).

(** Minutes since midnight of an [HH:MM] string *)
Definition minutes_of (s : string) : Z :=
  60 * number_of (substring 0 2 s) 0 + number_of (substring 3 2 s) 0.

(** The number of promotions with priority 1 *)
Definition count_prioridade1 (l : list Promocao.t) : nat :=
  List.length (filter (fun p => Promocao.prioridade p =? 1) l).

(** The invariant of the record that the service maintains: the bounds on
    the promotions and the photos, a recomputed status, validated ratings. *)
Definition invariant (e : SorveteriaEntity.t) : Prop :=
  (List.length (SorveteriaEntity.promocoesAtivas e) <= SORVETERIA_LIMITS.MAX_PROMOCOES)%nat /\
  (count_prioridade1 (SorveteriaEntity.promocoesAtivas e) <= 1)%nat /\
  (List.length (SorveteriaEntity.fotosAmbiente e) <= SORVETERIA_LIMITS.MAX_FOTOS_AMBIENTE)%nat /\
  (SorveteriaEntity.statusFuncionamento e = aberto \/
   SorveteriaEntity.statusFuncionamento e = fechado) /\
  Forall (fun d => 1 <= Depoimento.avaliacao d <= 5) (SorveteriaEntity.depoimentos e).

Definition store_invariant (st : SorveteriaStore.t) : Prop :=
  match SorveteriaStore.sorveteria st with
  | Some e => invariant e
  | None => True
  end.

(** The approved testimonials and the sum of their ratings *)
Definition aprovados (l : list Depoimento.t) : list Depoimento.t :=
  filter (fun d => StatusModeracao_eqb (Depoimento.statusModeracao d) APROVADO) l.

Definition soma_avaliacoes (l : list Depoimento.t) : Z :=
  fold_right (fun d acc => Depoimento.avaliacao d + acc) 0 l.

(** Two records that agree on every field except the testimonial list, the
    average rating and the rating count *)
Definition same_outside_depoimentos (e e' : SorveteriaEntity.t) : Prop :=
  SorveteriaEntity.id e' = SorveteriaEntity.id e /\
  SorveteriaEntity.nomeSorveteria e' = SorveteriaEntity.nomeSorveteria e /\
  SorveteriaEntity.logotipo e' = SorveteriaEntity.logotipo e /\
  SorveteriaEntity.slogan e' = SorveteriaEntity.slogan e /\
  SorveteriaEntity.historiaSorveteria e' = SorveteriaEntity.historiaSorveteria e /\
  SorveteriaEntity.anoFundacao e' = SorveteriaEntity.anoFundacao e /\
  SorveteriaEntity.diferenciais e' = SorveteriaEntity.diferenciais e /\
  SorveteriaEntity.fundadores e' = SorveteriaEntity.fundadores e /\
  SorveteriaEntity.horariosSemana e' = SorveteriaEntity.horariosSemana e /\
  SorveteriaEntity.horariosEspeciais e' = SorveteriaEntity.horariosEspeciais e /\
  SorveteriaEntity.statusFuncionamento e' = SorveteriaEntity.statusFuncionamento e /\
  SorveteriaEntity.fotosAmbiente e' = SorveteriaEntity.fotosAmbiente e /\
  SorveteriaEntity.promocoesAtivas e' = SorveteriaEntity.promocoesAtivas e /\
  SorveteriaEntity.missao e' = SorveteriaEntity.missao e /\
  SorveteriaEntity.visao e' = SorveteriaEntity.visao e /\
  SorveteriaEntity.valores e' = SorveteriaEntity.valores e /\
  SorveteriaEntity.dateCreated e' = SorveteriaEntity.dateCreated e /\
  SorveteriaEntity.dateModified e' = SorveteriaEntity.dateModified e.

(** The last-modified timestamp of the stored record *)
Definition dateModified_of (st : SorveteriaStore.t) : option string :=
  option_map SorveteriaEntity.dateModified (SorveteriaStore.sorveteria st).

(** The derived rating fields agree with the approved testimonials: the
    count is their number; the average is [null] when there is none, and
    otherwise a one-decimal number [n / 10] nearest to the exact quotient of
    the sum of their ratings by their number. *)
Definition media_recomputed (e : SorveteriaEntity.t) : Prop :=
  let ap := aprovados (SorveteriaEntity.depoimentos e) in
  SorveteriaEntity.totalAvaliacoes e = Z.of_nat (List.length ap) /\
  match ap with
  | [] => SorveteriaEntity.avaliacaoMedia e = None
  | _ :: _ =>
      exists n,
        SorveteriaEntity.avaliacaoMedia e = Some (Number.Tenths n) /\
        2 * Z.abs (10 * soma_avaliacoes ap - n * Z.of_nat (List.length ap)) <=
        Z.of_nat (List.length ap)
  end.

(** ** Sample data for the worked examples *)

Module Sample.

Definition isUrl (s : string) : bool := String.prefix "https://" s.
Definition anoAtual : Z := 2024.

Definition dia (abertura fechamento : string) : HorarioDia.t :=
  HorarioDia.mk abertura fechamento false.

Definition semana (abertura fechamento : string) : HorarioSemana.t :=
  let d := dia abertura fechamento in HorarioSemana.mk d d d d d d d.

Definition historia : string :=
  "Nossa origem vem de uma pequena cozinha de familia, onde a " ++ tradicao ++
  " de fazer sorvete artesanal passou de pais para filhos, sempre com qualidade" ++
  " nos ingredientes e carinho no preparo de cada receita, dia apos dia, ano apos ano.".

Definition diferenciais : list string :=
  ["Qualidade premium"; "Tradi" ++ String "231" (String "227" "o familiar");
   "Atendimento acolhedor"].

Definition body (w : HorarioSemana.t) (especiais : option (list HorarioEspecial.t))
  : CreateBody.t :=
  CreateBody.mk "Tommasi Sorvetes" "https://tommasi.example/logo.png" None historia
    1990 diferenciais "Familia Tommasi" w especiais None None None.

(** A history of valid length that never says "origem" *)
Definition historia_sem_origem : string :=
  "Tudo vem de uma pequena cozinha de familia, onde a " ++ tradicao ++
  " de fazer sorvete artesanal passou de pais para filhos, sempre com qualidade" ++
  " nos ingredientes e carinho no preparo de cada receita, dia apos dia, ano apos ano.".

Definition body_sem_origem : CreateBody.t :=
  CreateBody.mk "Tommasi Sorvetes" "https://tommasi.example/logo.png" None
    historia_sem_origem 1990 diferenciais "Familia Tommasi" (semana "10:00" "22:00")
    None None None None.

(** Monday 6 May 2024, at the given local time, three hours behind UTC *)
Definition segunda_as (h m : nat) : Date.t :=
  Date.mk Segunda h m
    ("2024-05-06T" ++ Js.padStart (Js.String_of_nat (h + 3)) 2 "0" ++ ":" ++
     Js.padStart (Js.String_of_nat m) 2 "0" ++ ":00.000Z").

Definition criar (w : HorarioSemana.t) (especiais : option (list HorarioEspecial.t))
  : Request :=
  CreateOrUpdate (segunda_as 8 0) (segunda_as 8 0) (body w especiais).

Definition foto : FotoBody.t :=
  FotoBody.mk "https://tommasi.example/balcao.jpg" None "balcao".

Definition depoimento (avaliacao : Z) : DepoimentoInput.t :=
  DepoimentoInput.mk "Ana" "Muito bom" avaliacao.

Definition promocao (dataValidade : string) (prioridade : Z) : PromocaoBody.t :=
  PromocaoBody.mk "Casquinha em dobro" "Na compra de uma, leve duas" dataValidade
    prioridade "combo".

Definition run (rs : list Request) : SorveteriaStore.t :=
  run isUrl anoAtual rs SorveteriaStore.empty.

(** The record of a store, for the states below, which all hold one *)
Definition registro (st : SorveteriaStore.t) : SorveteriaEntity.t :=
  match SorveteriaStore.sorveteria st with
  | Some e => e
  | None =>
      SorveteriaEntity.mk 0 "" "" None "" 0 [] "" (semana "" "") [] fechado [] [] None 0
        [] None None [] "" ""
  end.

(** Created at 08:00 with the hours 10:00 to 22:00 every day *)
Definition criada : SorveteriaStore.t :=
  run [criar (semana "10:00" "22:00") None].

(** The same, with a special-hours entry for the day that has no times
    and is not closed *)
Definition feriado : HorarioEspecial.t :=
  HorarioEspecial.mk "2024-05-06" "Feriado municipal" None None false.

Definition com_feriado : SorveteriaStore.t :=
  run [criar (semana "10:00" "22:00") (Some [feriado])].

(** Created with the hours 9:00 to 18:00, the hour written with one digit *)
Definition das_9_as_18 : SorveteriaStore.t :=
  run [criar (semana "9:00" "18:00") None].

(** Three active promotions, with priorities 1, 2 and 3 *)
Definition tres_promocoes : SorveteriaStore.t :=
  run [criar (semana "10:00" "22:00") None;
       AddPromocao (segunda_as 9 0) (promocao "2024-12-31" 1);
       AddPromocao (segunda_as 9 1) (promocao "2024-12-31" 2);
       AddPromocao (segunda_as 9 2) (promocao "2024-12-31" 3)].

(** Twelve photos *)
Definition doze_fotos : SorveteriaStore.t :=
  run (criar (semana "10:00" "22:00") None ::
       repeat (AddFoto (segunda_as 9 0) foto) 12).

(** Two testimonials, rated 5 and 3, both approved *)
Definition dois_aprovados : SorveteriaStore.t :=
  run [criar (semana "10:00" "22:00") None;
       AddDepoimento (segunda_as 9 0) (depoimento 5);
       AddDepoimento (segunda_as 9 1) (depoimento 3);
       UpdateDepoimentoStatus 1 "aprovado";
       UpdateDepoimentoStatus 2 "aprovado"].

End Sample.

(** * Further definitions: the rest of the store, the service and the pages *)

(** ** The photo gallery ([GaleriaFotos]): the state updaters of the two
    navigation buttons; [selectedPhoto] is [number | null] and [length] is
    [sorveteria.fotosAmbiente.length] *)

Module GaleriaFotos.

(** [prev !== null && prev > 0 ? prev - 1 : length - 1] *)
Definition anterior (length : Z) (prev : option Z) : option Z :=
  match prev with
  | Some p => if 0 <? p then Some (p - 1) else Some (length - 1)
  | None => Some (length - 1)
  end.

(** [prev !== null && prev < length - 1 ? prev + 1 : 0] *)
Definition proxima (length : Z) (prev : option Z) : option Z :=
  match prev with
  | Some p => if p <? length - 1 then Some (p + 1) else Some 0
  | None => Some 0
  end.

(** [selectedPhoto !== null ? selectedPhoto + 1 : 0], the position shown *)
Definition posicao (selectedPhoto : option Z) : Z :=
  match selectedPhoto with
  | Some p => p + 1
  | None => 0
  end.

End GaleriaFotos.

(** ** The controller ([api/internal/sorveteria/controller.ts]): the HTTP
    status of the response; a handler answers [res.status(201)] or the
    default 200 on success and [res.status(error.statusCode)] on a
    [ServiceError] *)

Definition status_of {A : Type} (ok : Z) (r : Result A) : Z :=
  match r with
  | Ok _ => ok
  | Err e => ServiceError.statusCode e
  end.

(** The [ServiceError] a service call throws, if any *)
Definition thrown {A : Type} (r : Result A) : option ServiceError.t :=
  match r with
  | Ok _ => None
  | Err e => Some e
  end.

Section Controller.

Variable isUrl : string -> bool.
Variable anoAtual : Z.

(** The status each handler answers with *)
Definition http_status (r : Request) (st : SorveteriaStore.t) : Z :=
  match r with
  | GetSorveteria agora => status_of 200 (fst (sorveteriaGet agora st))
  | CreateOrUpdate t1 t2 body =>
      status_of 201 (fst (sorveteriaCreateOrUpdate isUrl anoAtual t1 t2 body st))
  | Update t1 t2 body => status_of 200 (fst (sorveteriaUpdate isUrl anoAtual t1 t2 body st))
  | AddFoto agora body => status_of 201 (fst (sorveteriaAddFoto isUrl agora body st))
  | RemoveFoto agora params => status_of 200 (fst (sorveteriaRemoveFoto agora params st))
  | AddDepoimento agora body => status_of 201 (fst (sorveteriaAddDepoimento agora body st))
  | UpdateDepoimentoStatus params body =>
      status_of 200 (fst (sorveteriaUpdateDepoimentoStatus params body st))
  | AddPromocao agora body => status_of 201 (fst (sorveteriaAddPromocao agora body st))
  | RemovePromocoesVencidas _ _ => 200
  | UpdateStatus _ => 200
  end.

(** The error a request ends with, if any *)
Definition falha (r : Request) (st : SorveteriaStore.t) : option ServiceError.t :=
  match r with
  | GetSorveteria agora => thrown (fst (sorveteriaGet agora st))
  | CreateOrUpdate t1 t2 body =>
      thrown (fst (sorveteriaCreateOrUpdate isUrl anoAtual t1 t2 body st))
  | Update t1 t2 body => thrown (fst (sorveteriaUpdate isUrl anoAtual t1 t2 body st))
  | AddFoto agora body => thrown (fst (sorveteriaAddFoto isUrl agora body st))
  | RemoveFoto agora params => thrown (fst (sorveteriaRemoveFoto agora params st))
  | AddDepoimento agora body => thrown (fst (sorveteriaAddDepoimento agora body st))
  | UpdateDepoimentoStatus params body =>
      thrown (fst (sorveteriaUpdateDepoimentoStatus params body st))
  | AddPromocao agora body => thrown (fst (sorveteriaAddPromocao agora body st))
  | RemovePromocoesVencidas _ _ => None
  | UpdateStatus _ => None
  end.

End Controller.

(** ** Identifiers *)

(** [lo < key x1 < key x2 < ... < key xn <= hi] *)
Fixpoint keys_between {A : Type} (key : A -> Z) (lo : Z) (l : list A) (hi : Z) : Prop :=
  match l with
  | [] => lo <= hi
  | x :: l' => lo < key x /\ keys_between key (key x) l' hi
  end.

(** What the average rating is computed from the testimonials *)
Definition media_of (l : list Depoimento.t) : option Number.Decimal1 :=
  let ap := aprovados l in
  if (List.length ap =? 0)%nat then None
  else Some (Number.toFixed1
               (Number.div (Number.of_Z (soma_avaliacoes ap))
                  (Number.of_Z (Z.of_nat (List.length ap))))).

(** A stored promotion as the service validated and built it *)
Definition promocao_valida (p : Promocao.t) : Prop :=
  Promocao.ativa p = true /\
  1 <= Promocao.prioridade p <= 5 /\
  Re.test Re.data (Promocao.dataValidade p) = true.

(** The second invariant of the store: identifiers grow along each list and
    never exceed the counter that issued them, the record has identifier 1,
    the derived rating fields are those of the testimonial list, and the
    promotions are as validated. *)
Definition id_invariant (st : SorveteriaStore.t) : Prop :=
  0 <= SorveteriaStore.fotosCounter st /\
  0 <= SorveteriaStore.depoimentosCounter st /\
  0 <= SorveteriaStore.promocoesCounter st /\
  match SorveteriaStore.sorveteria st with
  | None => True
  | Some e =>
      SorveteriaEntity.id e = 1 /\
      keys_between FotoAmbiente.id 0 (SorveteriaEntity.fotosAmbiente e)
        (SorveteriaStore.fotosCounter st) /\
      keys_between Depoimento.id 0 (SorveteriaEntity.depoimentos e)
        (SorveteriaStore.depoimentosCounter st) /\
      keys_between Promocao.id 0 (SorveteriaEntity.promocoesAtivas e)
        (SorveteriaStore.promocoesCounter st) /\
      SorveteriaEntity.avaliacaoMedia e = media_of (SorveteriaEntity.depoimentos e) /\
      SorveteriaEntity.totalAvaliacoes e =
        Z.of_nat (List.length (aprovados (SorveteriaEntity.depoimentos e))) /\
      Forall promocao_valida (SorveteriaEntity.promocoesAtivas e)
  end.

(** Identifiers as a counter issues them: later entries carry larger ones,
    and each lies between 1 and the counter. *)
Definition issued_in_order {A : Type} (key : A -> Z) (l : list A) (counter : Z) : Prop :=
  (forall i j x y, (i < j)%nat -> nth_error l i = Some x -> nth_error l j = Some y ->
                   key x < key y) /\
  Forall (fun x => 1 <= key x <= counter) l.

(** ** The testimonials section ([DepoimentosSection]) *)

Module DepoimentosSection.

(** [renderStars(rating)]: the five stars, [true] for a filled one
    ([star <= rating]) *)
Definition renderStars (rating : Z) : list bool :=
  map (fun star => star <=? rating) [1; 2; 3; 4; 5].

(** The number of filled stars *)
Definition preenchidas (rating : Z) : Z :=
  Z.of_nat (List.length (filter (fun b : bool => b) (renderStars rating))).

(** The cards shown: one for each entry of [sorveteria.depoimentos], with
    its stars *)
Definition cards (e : SorveteriaEntity.t) : list (Depoimento.t * list bool) :=
  map (fun d => (d, renderStars (Depoimento.avaliacao d))) (SorveteriaEntity.depoimentos e).

End DepoimentosSection.

(** ** The shape of the strings the time pattern accepts *)

Definition is_digit (c : ascii) : Prop := 0 <= digit_value c <= 9.

(** [H:MM] or [HH:MM], hour 0 to 23, minute 0 to 59 *)
Definition hora_shape (s : string) : Prop :=
  (exists h m1 m2,
     s = String h (String ":" (String m1 (String m2 ""))) /\
     is_digit h /\ 0 <= digit_value m1 <= 5 /\ is_digit m2) \/
  (exists h1 h2 m1 m2,
     s = String h1 (String h2 (String ":" (String m1 (String m2 "")))) /\
     ((0 <= digit_value h1 <= 1 /\ is_digit h2) \/
      (digit_value h1 = 2 /\ 0 <= digit_value h2 <= 3)) /\
     0 <= digit_value m1 <= 5 /\ is_digit m2).

(** A create body seen as the body of a partial update with every key
    present *)
Definition as_update (b : CreateBody.t) : UpdateBody.t :=
  UpdateBody.mk (Some (CreateBody.nomeSorveteria b)) (Some (CreateBody.logotipo b))
    (Some (CreateBody.slogan b)) (Some (CreateBody.historiaSorveteria b))
    (Some (CreateBody.anoFundacao b)) (Some (CreateBody.diferenciais b))
    (Some (CreateBody.fundadores b)) (Some (CreateBody.horariosSemana b))
    (CreateBody.horariosEspeciais b) (Some (CreateBody.missao b))
    (Some (CreateBody.visao b)) (CreateBody.valores b).

(** ** More sample data *)

Module Sample2.

(** Three photos, the first then removed *)
Definition duas_fotos : SorveteriaStore.t :=
  Sample.run [Sample.criar (Sample.semana "10:00" "22:00") None;
              AddFoto (Sample.segunda_as 9 0) Sample.foto;
              AddFoto (Sample.segunda_as 9 1) Sample.foto;
              AddFoto (Sample.segunda_as 9 2) Sample.foto;
              RemoveFoto (Sample.segunda_as 9 3) 1].

(** A priority-1 promotion that expired the day before, and another one *)
Definition promocao_vencida : SorveteriaStore.t :=
  Sample.run [Sample.criar (Sample.semana "10:00" "22:00") None;
              AddPromocao (Sample.segunda_as 9 0) (Sample.promocao "2024-05-05" 1);
              AddPromocao (Sample.segunda_as 9 1) (Sample.promocao "2024-12-31" 2)].

(** A body for the partial update that only sets a slogan *)
Definition so_slogan : UpdateBody.t :=
  UpdateBody.mk None None (Some (Some "O melhor sorvete")) None None None None None None
    None None None.

End Sample2.

Ltac break_match :=
  match goal with
  | |- context [match ?x with _ => _ end] => destruct x eqn:?
  end.

(** * Properties *)

(** ** The status recompute *)

Lemma updateStatusFuncionamento_shape (agora : Date.t) (st : SorveteriaStore.t)
    (e : SorveteriaEntity.t) :
  SorveteriaStore.sorveteria st = Some e ->
  exists v, (v = aberto \/ v = fechado) /\
    SorveteriaStore.updateStatusFuncionamento agora st =
    SorveteriaStore.with_sorveteria (SorveteriaEntity.set_statusFuncionamento v e) st.
Proof.
  intros H. unfold SorveteriaStore.updateStatusFuncionamento. rewrite H.
  repeat break_match; eauto.
Qed.

Lemma updateStatusFuncionamento_none (agora : Date.t) (st : SorveteriaStore.t) :
  SorveteriaStore.sorveteria st = None ->
  SorveteriaStore.updateStatusFuncionamento agora st = st.
Proof.
  intros H. unfold SorveteriaStore.updateStatusFuncionamento. now rewrite H.
Qed.

(** C8: after the status recompute the operating status of the record is
    [aberto] or [fechado], whatever the record and the moment; the recompute
    never assigns [abrindo_em_breve]. *)
Theorem updateStatusFuncionamento_aberto_or_fechado
    (agora : Date.t) (st : SorveteriaStore.t) (e' : SorveteriaEntity.t) :
  SorveteriaStore.sorveteria (SorveteriaStore.updateStatusFuncionamento agora st) = Some e' ->
  SorveteriaEntity.statusFuncionamento e' = aberto \/
  SorveteriaEntity.statusFuncionamento e' = fechado.
Proof.
  destruct (SorveteriaStore.sorveteria st) as [e|] eqn:He.
  - destruct (updateStatusFuncionamento_shape agora st e He) as (v & Hv & ->).
    simpl. intros [= <-]. exact Hv.
  - rewrite (updateStatusFuncionamento_none agora st He), He. discriminate.
Qed.

(** C1, as amended: when a special-hours entry is dated today, the first
    such entry decides: closed if its closed flag is set; else, when both its
    times are present (not null, not empty), open exactly when the current
    time is in [[abertura, fechamento)]; else the weekly table of the
    current day of week decides. *)
Theorem updateStatusFuncionamento_special_entry
    (agora : Date.t) (st : SorveteriaStore.t) (e : SorveteriaEntity.t)
    (h : HorarioEspecial.t) :
  SorveteriaStore.sorveteria st = Some e ->
  special_today agora e = Some h ->
  SorveteriaStore.updateStatusFuncionamento agora st =
  SorveteriaStore.with_sorveteria
    (SorveteriaEntity.set_statusFuncionamento
       (if HorarioEspecial.fechado h then fechado
        else if Js.truthy (HorarioEspecial.abertura h) &&
                Js.truthy (HorarioEspecial.fechamento h)
             then special_status_as_specified (SorveteriaStore.horaAtual agora) h
             else weekly_status (SorveteriaStore.horaAtual agora)
                    (HorarioSemana.get (SorveteriaEntity.horariosSemana e)
                       (Date.getDay agora)))
       e) st.
Proof.
  intros He Hh. unfold SorveteriaStore.updateStatusFuncionamento.
  unfold special_today in Hh. rewrite He, Hh.
  unfold special_status_as_specified, weekly_status, Js.truthy.
  destruct (HorarioEspecial.fechado h); [reflexivity|].
  destruct (HorarioEspecial.abertura h) as [a|], (HorarioEspecial.fechamento h) as [f|];
    simpl; repeat break_match; try reflexivity; try discriminate;
    rewrite ?andb_false_r in *; discriminate.
Qed.

(** ** What each store operation does to the record *)

Lemma recalcularAvaliacaoMedia_shape (st : SorveteriaStore.t) (e : SorveteriaEntity.t) :
  SorveteriaStore.sorveteria st = Some e ->
  exists m t,
    SorveteriaStore.recalcularAvaliacaoMedia st =
    SorveteriaStore.with_sorveteria
      (SorveteriaEntity.set_totalAvaliacoes t (SorveteriaEntity.set_avaliacaoMedia m e)) st.
Proof.
  intros H. unfold SorveteriaStore.recalcularAvaliacaoMedia. rewrite H.
  break_match; eauto.
Qed.

Lemma length_filter_le {A : Type} (p : A -> bool) (l : list A) :
  (List.length (filter p l) <= List.length l)%nat.
Proof.
  induction l as [|x l IH]; simpl; [lia|]. destruct (p x); simpl; lia.
Qed.

Lemma length_filter_split {A : Type} (p : A -> bool) (l : list A) :
  List.length l =
  (List.length (filter p l) + List.length (filter (fun x => negb (p x)) l))%nat.
Proof.
  induction l as [|x l IH]; simpl; [reflexivity|].
  destruct (p x); simpl; lia.
Qed.

Lemma filter_filter_comm {A : Type} (p q : A -> bool) (l : list A) :
  filter p (filter q l) = filter q (filter p l).
Proof.
  induction l as [|x l IH]; simpl; [reflexivity|].
  destruct (p x) eqn:Hp, (q x) eqn:Hq; simpl; rewrite ?Hp, ?Hq, IH; reflexivity.
Qed.

Lemma length_splice1_le {A : Type} (i : nat) (l : list A) :
  (List.length (splice1 i l) <= List.length l)%nat.
Proof.
  unfold splice1. rewrite length_app, length_firstn, length_skipn. lia.
Qed.

Lemma findIndex_Some {A : Type} (p : A -> bool) (l : list A) (i : nat) :
  findIndex p l = Some i ->
  exists x, nth_error l i = Some x /\ p x = true.
Proof.
  revert i. induction l as [|y l IH]; simpl; intros i H; [discriminate|].
  destruct (p y) eqn:Hp.
  - injection H as <-. exists y. auto.
  - destruct (findIndex p l) as [j|]; [|discriminate].
    injection H as <-. simpl. apply IH. reflexivity.
Qed.

Lemma length_splice1 {A : Type} (i : nat) (l : list A) :
  (i < List.length l)%nat -> S (List.length (splice1 i l)) = List.length l.
Proof.
  intros H. unfold splice1. rewrite length_app, length_firstn, length_skipn. lia.
Qed.

Lemma Forall_update_at {A : Type} (P : A -> Prop) (f : A -> A) (i : nat) (l : list A) :
  (forall x, P x -> P (f x)) -> Forall P l -> Forall P (update_at i f l).
Proof.
  intros Hf H. revert i. induction H as [|x l Hx Hl IH]; intros i; destruct i; simpl.
  all: constructor; auto.
Qed.

Lemma count_prioridade1_app (l : list Promocao.t) (p : Promocao.t) :
  count_prioridade1 (l ++ [p]) =
  (count_prioridade1 l + if (Promocao.prioridade p =? 1)%Z then 1 else 0)%nat.
Proof.
  unfold count_prioridade1. rewrite filter_app, length_app. simpl.
  destruct (Promocao.prioridade p =? 1); reflexivity.
Qed.

Lemma count_prioridade1_some (l : list Promocao.t) :
  some (fun p => Promocao.prioridade p =? 1) l = false -> count_prioridade1 l = O.
Proof.
  unfold count_prioridade1, some. induction l as [|p l IH]; simpl; [reflexivity|].
  destruct (Promocao.prioridade p =? 1); simpl; [discriminate|]. exact IH.
Qed.

Lemma count_prioridade1_filter (q : Promocao.t -> bool) (l : list Promocao.t) :
  (count_prioridade1 (filter q l) <= count_prioridade1 l)%nat.
Proof.
  unfold count_prioridade1. rewrite filter_filter_comm. apply length_filter_le.
Qed.

(** ** The invariant holds in every reachable state *)

Lemma invariant_set_statusFuncionamento (v : StatusFuncionamento) (e : SorveteriaEntity.t) :
  v = aberto \/ v = fechado -> invariant e ->
  invariant (SorveteriaEntity.set_statusFuncionamento v e).
Proof.
  unfold invariant. simpl. intuition.
Qed.

Lemma store_invariant_updateStatusFuncionamento (agora : Date.t) (st : SorveteriaStore.t) :
  store_invariant st ->
  store_invariant (SorveteriaStore.updateStatusFuncionamento agora st).
Proof.
  unfold store_invariant. intros H.
  destruct (SorveteriaStore.sorveteria st) as [e|] eqn:He.
  - destruct (updateStatusFuncionamento_shape agora st e He) as (v & Hv & ->).
    simpl. now apply invariant_set_statusFuncionamento.
  - now rewrite (updateStatusFuncionamento_none agora st He), He.
Qed.

Lemma store_invariant_recalcularAvaliacaoMedia (st : SorveteriaStore.t) :
  store_invariant st -> store_invariant (SorveteriaStore.recalcularAvaliacaoMedia st).
Proof.
  unfold store_invariant. intros H.
  destruct (SorveteriaStore.sorveteria st) as [e|] eqn:He.
  - destruct (recalcularAvaliacaoMedia_shape st e He) as (m & t & ->).
    simpl. exact H.
  - unfold SorveteriaStore.recalcularAvaliacaoMedia. now rewrite He, He.
Qed.

Section Invariant.

Variable isUrl : string -> bool.
Variable anoAtual : Z.

Lemma store_invariant_createOrUpdate (t1 t2 : Date.t) (body : CreateBody.t)
    (st : SorveteriaStore.t) :
  store_invariant st ->
  store_invariant (snd (sorveteriaCreateOrUpdate isUrl anoAtual t1 t2 body st)).
Proof.
  intros Hst. unfold sorveteriaCreateOrUpdate. cbv zeta.
  destruct (negb _); [assumption|].
  destruct (0 <? _)%nat; [assumption|].
  destruct (0 <? _)%nat; [assumption|].
  unfold SorveteriaStore.set. cbv beta iota.
  match goal with
  | |- context [SorveteriaStore.updateStatusFuncionamento ?t ?s] =>
      assert (H : store_invariant (SorveteriaStore.updateStatusFuncionamento t s));
      [ apply store_invariant_updateStatusFuncionamento
      | destruct (SorveteriaStore.get (SorveteriaStore.updateStatusFuncionamento t s));
        exact H ]
  end.
  unfold store_invariant, invariant. simpl.
  destruct (SorveteriaStore.sorveteria st); simpl.
  all: unfold count_prioridade1, SORVETERIA_LIMITS.MAX_PROMOCOES,
         SORVETERIA_LIMITS.MAX_FOTOS_AMBIENTE; simpl.
  all: repeat split; auto; lia.
Qed.

Lemma store_invariant_update (t1 t2 : Date.t) (body : UpdateBody.t)
    (st : SorveteriaStore.t) :
  store_invariant st ->
  store_invariant (snd (sorveteriaUpdate isUrl anoAtual t1 t2 body st)).
Proof.
  intros Hst. unfold sorveteriaUpdate, SorveteriaStore.get, SorveteriaStore.update.
  destruct (negb _); [assumption|].
  destruct (SorveteriaStore.sorveteria st) as [e|] eqn:He; [|assumption].
  cbv beta iota zeta.
  match goal with
  | |- context [SorveteriaStore.updateStatusFuncionamento ?t ?s] =>
      assert (H : store_invariant (SorveteriaStore.updateStatusFuncionamento t s));
      [ apply store_invariant_updateStatusFuncionamento
      | destruct (SorveteriaStore.sorveteria
                    (SorveteriaStore.updateStatusFuncionamento t s)); exact H ]
  end.
  unfold store_invariant in *. rewrite He in Hst. simpl. exact Hst.
Qed.

Lemma store_invariant_handle (r : Request) (st : SorveteriaStore.t) :
  store_invariant st -> store_invariant (handle isUrl anoAtual r st).
Proof.
  intros Hst. destruct r; cbn [handle].
  - (* get *)
    unfold sorveteriaGet, SorveteriaStore.get.
    pose proof (store_invariant_updateStatusFuncionamento agora st Hst).
    repeat break_match; assumption.
  - now apply store_invariant_createOrUpdate.
  - now apply store_invariant_update.
  - (* add photo *)
    unfold sorveteriaAddFoto, SorveteriaStore.get, SorveteriaStore.addFoto.
    destruct (fotoCreateSchema isUrl body); [|exact Hst].
    destruct (SorveteriaStore.sorveteria st) as [e|] eqn:He; [|exact Hst].
    destruct (Nat.leb_spec SORVETERIA_LIMITS.MAX_FOTOS_AMBIENTE
                (List.length (SorveteriaEntity.fotosAmbiente e))); [exact Hst|].
    unfold store_invariant, invariant in *. rewrite He in Hst. simpl.
    rewrite length_app. simpl. intuition lia.
  - (* remove photo *)
    unfold sorveteriaRemoveFoto, SorveteriaStore.removeFoto.
    destruct (paramsSchema params); [|exact Hst].
    destruct (SorveteriaStore.sorveteria st) as [e|] eqn:He; [|exact Hst].
    destruct (findIndex _ _) as [i|]; [|exact Hst].
    unfold store_invariant, invariant in *. rewrite He in Hst. simpl.
    pose proof (length_splice1_le i (SorveteriaEntity.fotosAmbiente e)).
    intuition lia.
  - (* add testimonial *)
    unfold sorveteriaAddDepoimento, SorveteriaStore.addDepoimento.
    unfold depoimentoCreateSchema.
    destruct (_ && _) eqn:Hv; [|exact Hst].
    destruct (SorveteriaStore.sorveteria st) as [e|] eqn:He; [|exact Hst].
    cbn [snd]. apply store_invariant_recalcularAvaliacaoMedia.
    unfold store_invariant, invariant in *. rewrite He in Hst. simpl.
    repeat rewrite andb_true_iff in Hv.
    destruct Hv as [[_ H1] H5]. apply Z.leb_le in H1, H5.
    destruct Hst as (Ha & Hb & Hc & Hd & Hf). repeat split; auto.
    apply Forall_app. split; [assumption|].
    constructor; [simpl; lia|constructor].
  - (* update testimonial status *)
    unfold sorveteriaUpdateDepoimentoStatus, SorveteriaStore.updateDepoimentoStatus.
    destruct (paramsSchema params); [|exact Hst].
    destruct (parse_StatusModeracao body) as [status|]; [|exact Hst].
    destruct (SorveteriaStore.sorveteria st) as [e|] eqn:He; [|exact Hst].
    destruct (findIndex _ _) as [i|] eqn:Hi; [|exact Hst].
    cbv zeta.
    assert (Hinv : store_invariant
              (SorveteriaStore.recalcularAvaliacaoMedia
                 (SorveteriaStore.with_sorveteria
                    (SorveteriaEntity.set_depoimentos
                       (update_at i (Depoimento.set_statusModeracao status)
                          (SorveteriaEntity.depoimentos e)) e) st))).
    { apply store_invariant_recalcularAvaliacaoMedia.
      unfold store_invariant, invariant in *. rewrite He in Hst. simpl.
      destruct Hst as (Ha & Hb & Hc & Hd & Hf). repeat split; auto.
      apply Forall_update_at; [|assumption]. intros x Hx. exact Hx. }
    destruct (nth_error _ _); exact Hinv.
  - (* add promotion *)
    unfold sorveteriaAddPromocao, SorveteriaStore.get, SorveteriaStore.addPromocao.
    destruct (promocaoCreateSchema body) as [data|]; [|exact Hst].
    destruct (SorveteriaStore.sorveteria st) as [e|] eqn:He; [|exact Hst].
    destruct (Nat.leb_spec SORVETERIA_LIMITS.MAX_PROMOCOES
                (List.length (SorveteriaEntity.promocoesAtivas e))); [exact Hst|].
    destruct (_ && _) eqn:Hc; [exact Hst|].
    unfold store_invariant, invariant in *. rewrite He in Hst. simpl.
    rewrite length_app, count_prioridade1_app. simpl.
    apply andb_false_iff in Hc.
    destruct Hc as [Hc|Hc].
    + rewrite Hc. intuition lia.
    + rewrite (count_prioridade1_some _ Hc).
      destruct (PromocaoInput.prioridade data =? 1); intuition lia.
  - (* expiry sweep *)
    unfold sorveteriaRemovePromocoesVencidas, SorveteriaStore.removePromocoesVencidas.
    destruct (SorveteriaStore.sorveteria st) as [e|] eqn:He; [|exact Hst].
    cbv zeta.
    set (f := fun p : Promocao.t => _).
    pose proof (length_filter_le f (SorveteriaEntity.promocoesAtivas e)).
    pose proof (count_prioridade1_filter f (SorveteriaEntity.promocoesAtivas e)).
    unfold store_invariant, invariant in *. rewrite He in Hst.
    destruct (_ >? _); simpl; intuition lia.
  - (* status recompute *)
    now apply store_invariant_updateStatusFuncionamento.
Qed.

Lemma reachable_store_invariant (st : SorveteriaStore.t) :
  reachable isUrl anoAtual st -> store_invariant st.
Proof.
  induction 1 as [|r st _ IH].
  - exact I.
  - now apply store_invariant_handle.
Qed.

Lemma reachable_run (rs : list Request) (st : SorveteriaStore.t) :
  reachable isUrl anoAtual st -> reachable isUrl anoAtual (run isUrl anoAtual rs st).
Proof.
  revert st. induction rs as [|r rs IH]; intros st H; simpl.
  - exact H.
  - apply IH. now constructor.
Qed.

End Invariant.

(** No state the service can reach carries [abrindo_em_breve]: the record
    is constructed with [fechado] and only the recompute assigns the status
    afterwards. *)
Lemma reachable_statusFuncionamento (isUrl : string -> bool) (anoAtual : Z)
    (st : SorveteriaStore.t) (e : SorveteriaEntity.t) :
  reachable isUrl anoAtual st ->
  SorveteriaStore.sorveteria st = Some e ->
  SorveteriaEntity.statusFuncionamento e <> abrindo_em_breve.
Proof.
  intros Hr He.
  pose proof (reachable_store_invariant isUrl anoAtual st Hr) as Hinv.
  unfold store_invariant in Hinv. rewrite He in Hinv.
  destruct Hinv as (_ & _ & _ & [H|H] & _); rewrite H; discriminate.
Qed.

(** The store itself keeps whatever status it is given at construction *)
Lemma set_keeps_given_status (now : string) (data : SorveteriaData.t)
    (st : SorveteriaStore.t) :
  SorveteriaEntity.statusFuncionamento (fst (SorveteriaStore.set now data st)) =
  SorveteriaData.statusFuncionamento data.
Proof.
  unfold SorveteriaStore.set. destruct (SorveteriaStore.sorveteria st); reflexivity.
Qed.

(** ** Strings accepted by the date pattern *)

Lemma test_Void (s : string) : Re.test Re.Void s = false.
Proof. induction s; simpl; auto. Qed.

Lemma test_Seq_Void (r : Re.regex) (s : string) : Re.test (Re.Seq Re.Void r) s = false.
Proof. induction s; simpl; auto. Qed.

Lemma test_Alt (r1 r2 : Re.regex) (s : string) :
  Re.test (Re.Alt r1 r2) s = Re.test r1 s || Re.test r2 s.
Proof. revert r1 r2. induction s as [|c s IH]; intros; simpl; auto. Qed.

Lemma test_Seq_Eps (r : Re.regex) (s : string) : Re.test (Re.Seq Re.Eps r) s = Re.test r s.
Proof.
  destruct s as [|c s]; simpl; [reflexivity|].
  now rewrite test_Alt, test_Seq_Void.
Qed.

Lemma test_Seq_Range (lo hi : ascii) (r : Re.regex) (s : string) :
  Re.test (Re.Seq (Re.Range lo hi) r) s =
  match s with
  | EmptyString => false
  | String c s' => Re.in_range lo hi c && Re.test r s'
  end.
Proof.
  destruct s as [|c s]; simpl; [reflexivity|].
  destruct (Re.in_range lo hi c); simpl; [apply test_Seq_Eps|apply test_Seq_Void].
Qed.

Lemma test_Range (lo hi : ascii) (s : string) :
  Re.test (Re.Range lo hi) s =
  match s with
  | String c EmptyString => Re.in_range lo hi c
  | _ => false
  end.
Proof.
  destruct s as [|c [|d s]]; simpl; try reflexivity.
  - destruct (Re.in_range lo hi c); reflexivity.
  - destruct (Re.in_range lo hi c); simpl; apply test_Void.
Qed.

Lemma in_range_digit (c : ascii) :
  Re.in_range "0" "9" c = true -> 0 <= digit_value c <= 9.
Proof.
  unfold Re.in_range, digit_value. rewrite andb_true_iff, !N.leb_le.
  change (N_of_ascii "0") with 48%N. change (N_of_ascii "9") with 57%N. lia.
Qed.

Lemma in_range_hyphen (c : ascii) : Re.in_range "-" "-" c = true -> c = "-"%char.
Proof.
  unfold Re.in_range. rewrite andb_true_iff, !N.leb_le.
  change (N_of_ascii "-") with 45%N. intros H.
  rewrite <- (ascii_N_embedding c). replace (N_of_ascii c) with 45%N by lia. reflexivity.
Qed.

(** The strings the date pattern accepts *)
Lemma test_data_inv (s : string) :
  Re.test Re.data s = true ->
  exists c1 c2 c3 c4 c5 c6 c7 c8,
    s = String c1 (String c2 (String c3 (String c4 (String "-"
        (String c5 (String c6 (String "-" (String c7 (String c8 "")))))))))  /\
    Forall (fun c => 0 <= digit_value c <= 9) [c1; c2; c3; c4; c5; c6; c7; c8].
Proof.
  unfold Re.data, Re.digit, Re.Chr. intros H.
  repeat (rewrite test_Seq_Range in H;
          destruct s as [|? s]; [discriminate|];
          apply andb_true_iff in H; destruct H as [? H]).
  rewrite test_Range in H. destruct s as [|? [|? ?]]; try discriminate.
  repeat match goal with
         | H : Re.in_range "-" "-" _ = true |- _ => apply in_range_hyphen in H; subst
         | H : Re.in_range "0" "9" _ = true |- _ => apply in_range_digit in H
         end.
  do 8 eexists. split; [reflexivity|].
  repeat (apply Forall_cons; [assumption|]). apply Forall_nil.
Qed.

Lemma Ascii_compare_digit (c d : ascii) :
  match Ascii.compare c d with
  | Eq => digit_value c = digit_value d
  | Lt => digit_value c < digit_value d
  | Gt => digit_value c > digit_value d
  end.
Proof.
  unfold Ascii.compare, digit_value.
  destruct (N.compare_spec (N_of_ascii c) (N_of_ascii d)); lia.
Qed.

(** On two strings the date pattern accepts, the comparison of strings is
    the order of the calendar *)
Lemma Js_ge_date_le (a b : string) :
  Re.test Re.data a = true -> Re.test Re.data b = true ->
  (Js.ge a b = true <-> date_le b a).
Proof.
  intros Ha Hb.
  destruct (test_data_inv a Ha) as (a1 & a2 & a3 & a4 & a5 & a6 & a7 & a8 & -> & HA).
  destruct (test_data_inv b Hb) as (b1 & b2 & b3 & b4 & b5 & b6 & b7 & b8 & -> & HB).
  repeat match goal with
         | H : Forall _ (_ :: _) |- _ => inversion H; subst; clear H
         | H : Forall _ [] |- _ => clear H
         end.
  unfold Js.ge, String.ltb, date_le, ymd. cbn [substring number_of String.compare].
  pose proof (Ascii_compare_digit a1 b1). pose proof (Ascii_compare_digit a2 b2).
  pose proof (Ascii_compare_digit a3 b3). pose proof (Ascii_compare_digit a4 b4).
  pose proof (Ascii_compare_digit a5 b5). pose proof (Ascii_compare_digit a6 b6).
  pose proof (Ascii_compare_digit a7 b7). pose proof (Ascii_compare_digit a8 b8).
  change (Ascii.compare "-" "-") with Eq. cbv iota.
  destruct (Ascii.compare a1 b1); cbv iota;
    [|split; intros; try discriminate; try reflexivity; lia..].
  destruct (Ascii.compare a2 b2); cbv iota;
    [|split; intros; try discriminate; try reflexivity; lia..].
  destruct (Ascii.compare a3 b3); cbv iota;
    [|split; intros; try discriminate; try reflexivity; lia..].
  destruct (Ascii.compare a4 b4); cbv iota;
    [|split; intros; try discriminate; try reflexivity; lia..].
  destruct (Ascii.compare a5 b5); cbv iota;
    [|split; intros; try discriminate; try reflexivity; lia..].
  destruct (Ascii.compare a6 b6); cbv iota;
    [|split; intros; try discriminate; try reflexivity; lia..].
  destruct (Ascii.compare a7 b7); cbv iota;
    [|split; intros; try discriminate; try reflexivity; lia..].
  destruct (Ascii.compare a8 b8); cbv iota;
    split; intros; try discriminate; try reflexivity; lia.
Qed.

(** ** Strings accepted by the time pattern *)

Lemma in_range_bounds (lo hi c : ascii) :
  Re.in_range lo hi c = true ->
  Z.of_N (N_of_ascii lo) - 48 <= digit_value c <= Z.of_N (N_of_ascii hi) - 48.
Proof.
  unfold Re.in_range, digit_value. rewrite andb_true_iff, !N.leb_le. lia.
Qed.

Lemma test_Seq_Alt (r1 r2 r : Re.regex) (s : string) :
  Re.test (Re.Seq (Re.Alt r1 r2) r) s =
  Re.test (Re.Seq r1 r) s || Re.test (Re.Seq r2 r) s.
Proof.
  revert r1 r2 r. induction s as [|c s IH]; intros r1 r2 r.
  - simpl. destruct (Re.nullable r1), (Re.nullable r2), (Re.nullable r); reflexivity.
  - simpl. destruct (Re.nullable r1), (Re.nullable r2); simpl;
      rewrite ?test_Alt, ?IH;
      destruct (Re.test (Re.Seq (Re.deriv c r1) r) s),
               (Re.test (Re.Seq (Re.deriv c r2) r) s),
               (Re.test (Re.deriv c r) s); reflexivity.
Qed.

Lemma test_Seq_assoc (r1 r2 r : Re.regex) (s : string) :
  Re.test (Re.Seq (Re.Seq r1 r2) r) s = Re.test (Re.Seq r1 (Re.Seq r2 r)) s.
Proof.
  revert r1 r2 r. induction s as [|c s IH]; intros r1 r2 r.
  - simpl. now rewrite andb_assoc.
  - cbn [Re.test Re.deriv Re.nullable].
    destruct (Re.nullable r1), (Re.nullable r2); cbn [andb];
      repeat (rewrite test_Alt || rewrite test_Seq_Alt || rewrite IH);
      rewrite ?orb_assoc; reflexivity.
Qed.

(** The five-character strings the time pattern accepts *)
Lemma test_hora_inv (s : string) :
  Re.test Re.hora s = true -> String.length s = 5%nat ->
  exists h1 h2 m1 m2,
    s = String h1 (String h2 (String ":" (String m1 (String m2 "")))) /\
    0 <= digit_value h1 <= 2 /\ 0 <= digit_value h2 <= 9 /\
    0 <= digit_value m1 <= 5 /\ 0 <= digit_value m2 <= 9.
Proof.
  intros H Hlen.
  destruct s as [|h1 [|h2 [|c [|m1 [|m2 [|? ?]]]]]]; try discriminate.
  unfold Re.hora, Re.Opt, Re.Chr, Re.digit in H.
  rewrite test_Seq_Alt, !test_Seq_assoc, test_Seq_Alt, test_Seq_Eps in H.
  rewrite !test_Seq_Range, !test_Range in H.
  rewrite !andb_false_r, orb_false_r in H.
  apply orb_true_iff in H. destruct H as [H|H];
    do 4 (apply andb_true_iff in H; destruct H as [? H]).
  all: repeat match goal with
         | H : Re.in_range ":" ":" _ = true |- _ =>
             assert (c = ":"%char) by
               (apply in_range_bounds in H;
                rewrite <- (ascii_N_embedding c);
                replace (N_of_ascii c) with 58%N
                  by (unfold digit_value in H; simpl in H; lia);
                reflexivity);
             clear H
         | H : Re.in_range _ _ _ = true |- _ =>
             apply in_range_bounds in H; simpl in H
         end.
  all: subst c; exists h1, h2, m1, m2; repeat split; try reflexivity; lia.
Qed.

(** On two five-character strings the time pattern accepts, the comparison
    of strings is the order of the clock *)
Lemma Js_lt_hora_padded (a b : string) :
  Re.test Re.hora a = true -> Re.test Re.hora b = true ->
  String.length a = 5%nat -> String.length b = 5%nat ->
  (Js.lt a b = true <-> minutes_of a < minutes_of b) /\
  (Js.ge a b = true <-> minutes_of b <= minutes_of a).
Proof.
  intros Ha Hb La Lb.
  destruct (test_hora_inv a Ha La) as (a1 & a2 & a3 & a4 & -> & ? & ? & ? & ?).
  destruct (test_hora_inv b Hb Lb) as (b1 & b2 & b3 & b4 & -> & ? & ? & ? & ?).
  unfold Js.ge, Js.lt, String.ltb, minutes_of.
  cbn [substring number_of String.compare].
  pose proof (Ascii_compare_digit a1 b1). pose proof (Ascii_compare_digit a2 b2).
  pose proof (Ascii_compare_digit a3 b3). pose proof (Ascii_compare_digit a4 b4).
  change (Ascii.compare ":" ":") with Eq. cbv iota.
  destruct (Ascii.compare a1 b1); cbv iota;
    [|split; split; intros; try discriminate; try reflexivity; lia..].
  destruct (Ascii.compare a2 b2); cbv iota;
    [|split; split; intros; try discriminate; try reflexivity; lia..].
  destruct (Ascii.compare a3 b3); cbv iota;
    [|split; split; intros; try discriminate; try reflexivity; lia..].
  destruct (Ascii.compare a4 b4); cbv iota;
    split; split; intros; try discriminate; try reflexivity; lia.
Qed.

(** ** The expiry sweep *)

Lemma String_compare_refl (s : string) : String.compare s s = Eq.
Proof.
  induction s as [|c s IH]; simpl; [reflexivity|].
  unfold Ascii.compare. now rewrite N.compare_refl.
Qed.

(** C4: the sweep keeps exactly the promotions whose expiry date is not
    before today (one expiring today stays, in the order they had), returns
    the number of those it dropped, and returns 0 without touching anything
    when there is no record.  The dates are compared as strings; on dates in
    the form YYYY-MM-DD that is the order of the calendar. *)
Theorem removePromocoesVencidas_keeps_unexpired
    (agora now : string) (st : SorveteriaStore.t) :
  let hoje := Js.split_first agora "T" in
  match SorveteriaStore.sorveteria st with
  | None => SorveteriaStore.removePromocoesVencidas agora now st = (0, st)
  | Some e =>
      let antes := SorveteriaEntity.promocoesAtivas e in
      let ficam := filter (fun p => Js.ge (Promocao.dataValidade p) hoje) antes in
      let vencidas := filter (fun p => Js.lt (Promocao.dataValidade p) hoje) antes in
      fst (SorveteriaStore.removePromocoesVencidas agora now st) =
        Z.of_nat (List.length vencidas) /\
      option_map SorveteriaEntity.promocoesAtivas
        (SorveteriaStore.sorveteria
           (snd (SorveteriaStore.removePromocoesVencidas agora now st))) = Some ficam /\
      (forall p, In p ficam <->
                 In p antes /\ Js.lt (Promocao.dataValidade p) hoje = false) /\
      (forall p, In p antes -> Promocao.dataValidade p = hoje -> In p ficam) /\
      (Re.test Re.data hoje = true ->
       forall p, In p antes -> Re.test Re.data (Promocao.dataValidade p) = true ->
                 (In p ficam <-> date_le hoje (Promocao.dataValidade p)))
  end.
Proof.
  intros hoje. unfold SorveteriaStore.removePromocoesVencidas.
  destruct (SorveteriaStore.sorveteria st) as [e|]; [|reflexivity].
  cbv zeta. fold hoje.
  set (antes := SorveteriaEntity.promocoesAtivas e).
  assert (Hlen : Z.of_nat (List.length antes) -
                 Z.of_nat (List.length (filter (fun p => Js.ge (Promocao.dataValidade p) hoje) antes)) =
                 Z.of_nat (List.length (filter (fun p => Js.lt (Promocao.dataValidade p) hoje) antes))).
  { pose proof (length_filter_split
                  (fun p => Js.lt (Promocao.dataValidade p) hoje) antes) as Hs.
    unfold Js.ge, Js.lt in *. lia. }
  split; [|split; [|split; [|split]]].
  - cbn [fst SorveteriaEntity.promocoesAtivas SorveteriaEntity.set_promocoesAtivas].
    exact Hlen.
  - cbn [snd]. destruct (_ >? _); reflexivity.
  - intros p. rewrite filter_In. unfold Js.ge, Js.lt.
    rewrite negb_true_iff. tauto.
  - intros p H1 H2. apply filter_In. split; [assumption|].
    unfold Js.ge, String.ltb. rewrite H2.
    pose proof (String_compare_refl hoje) as Hc.
    now rewrite Hc.
  - intros Hh p Hp Hd. rewrite filter_In.
    rewrite <- (Js_ge_date_le _ _ Hd Hh). tauto.
Qed.

(** ** Promotions: the limit and the single priority 1 *)

(** C5, as amended: in every reachable state there are at most 3 active
    promotions and at most one of them has priority 1; a valid add fails
    LIMIT_EXCEEDED when 3 are active, and, when fewer than 3 are active,
    fails PRIORITY_CONFLICT if it asks for priority 1 while an active
    promotion has it; both failures leave the store as it was. *)
Theorem sorveteriaAddPromocao_limits
    (isUrl : string -> bool) (anoAtual : Z)
    (st : SorveteriaStore.t) (e : SorveteriaEntity.t) :
  reachable isUrl anoAtual st ->
  SorveteriaStore.sorveteria st = Some e ->
  (List.length (SorveteriaEntity.promocoesAtivas e) <= 3)%nat /\
  (count_prioridade1 (SorveteriaEntity.promocoesAtivas e) <= 1)%nat /\
  forall (agora : Date.t) (body : PromocaoBody.t) (data : PromocaoInput.t),
    promocaoCreateSchema body = Some data ->
    ((3 <= List.length (SorveteriaEntity.promocoesAtivas e))%nat ->
     exists err, sorveteriaAddPromocao agora body st = (Err err, st) /\
                 ServiceError.code err = LIMIT_EXCEEDED) /\
    ((List.length (SorveteriaEntity.promocoesAtivas e) < 3)%nat ->
     PromocaoInput.prioridade data = 1 ->
     some (fun p => Promocao.prioridade p =? 1) (SorveteriaEntity.promocoesAtivas e) = true ->
     exists err, sorveteriaAddPromocao agora body st = (Err err, st) /\
                 ServiceError.code err = PRIORITY_CONFLICT).
Proof.
  intros Hr He.
  pose proof (reachable_store_invariant isUrl anoAtual st Hr) as Hinv.
  unfold store_invariant in Hinv. rewrite He in Hinv.
  destruct Hinv as (H3 & H1 & _).
  split; [exact H3|]. split; [exact H1|].
  intros agora body data Hv. unfold sorveteriaAddPromocao, SorveteriaStore.get.
  rewrite Hv, He. split.
  - intros Hfull.
    destruct (Nat.leb_spec SORVETERIA_LIMITS.MAX_PROMOCOES
                (List.length (SorveteriaEntity.promocoesAtivas e))) as [_|Hlt].
    + eexists. split; reflexivity.
    + unfold SORVETERIA_LIMITS.MAX_PROMOCOES in Hlt. lia.
  - intros Hroom Hp Hs.
    destruct (Nat.leb_spec SORVETERIA_LIMITS.MAX_PROMOCOES
                (List.length (SorveteriaEntity.promocoesAtivas e))) as [Hge|_].
    + unfold SORVETERIA_LIMITS.MAX_PROMOCOES in Hge. lia.
    + rewrite Hp, Hs. simpl. eexists. split; reflexivity.
Qed.

(** ** Photos: the limit of 12 and the display order *)

Lemma sorveteriaRemoveFoto_ok (agora : Date.t) (params : Z) (st st' : SorveteriaStore.t)
    (e : SorveteriaEntity.t) (msg : string) :
  SorveteriaStore.sorveteria st = Some e ->
  sorveteriaRemoveFoto agora params st = (Ok msg, st') ->
  exists i f,
    nth_error (SorveteriaEntity.fotosAmbiente e) i = Some f /\
    FotoAmbiente.id f = params /\
    st' = SorveteriaStore.with_sorveteria
            (SorveteriaEntity.set_dateModified (Date.toISOString agora)
               (SorveteriaEntity.set_fotosAmbiente
                  (splice1 i (SorveteriaEntity.fotosAmbiente e)) e)) st.
Proof.
  intros He. unfold sorveteriaRemoveFoto, SorveteriaStore.removeFoto, paramsSchema.
  destruct (0 <? params); [|discriminate]. rewrite He.
  destruct (findIndex _ _) as [i|] eqn:Hi; [|discriminate].
  intros [= _ <-].
  destruct (findIndex_Some _ _ _ Hi) as (f & Hf & Hid).
  exists i, f. apply Z.eqb_eq in Hid. auto.
Qed.

Lemma sorveteriaAddFoto_err_unchanged (isUrl : string -> bool) (agora : Date.t)
    (body : FotoBody.t) (st : SorveteriaStore.t) (err : ServiceError.t) :
  fst (sorveteriaAddFoto isUrl agora body st) = Err err ->
  snd (sorveteriaAddFoto isUrl agora body st) = st.
Proof.
  unfold sorveteriaAddFoto, SorveteriaStore.get, SorveteriaStore.addFoto.
  destruct (fotoCreateSchema isUrl body); [|reflexivity].
  destruct (SorveteriaStore.sorveteria st); [|reflexivity].
  destruct (_ <=? _)%nat; [reflexivity|discriminate].
Qed.

(** C7: given a record and a valid body, add-photo fails LIMIT_EXCEEDED
    exactly when 12 or more photos are stored; any failed add leaves the
    store unchanged; and in a reachable state, once a photo has been
    removed, the add succeeds. *)
Theorem sorveteriaAddFoto_limit
    (isUrl : string -> bool) (anoAtual : Z)
    (st : SorveteriaStore.t) (e : SorveteriaEntity.t)
    (agora : Date.t) (body : FotoBody.t) (data : FotoInput.t) :
  reachable isUrl anoAtual st ->
  SorveteriaStore.sorveteria st = Some e ->
  fotoCreateSchema isUrl body = Some data ->
  ((exists err, fst (sorveteriaAddFoto isUrl agora body st) = Err err /\
                ServiceError.code err = LIMIT_EXCEEDED) <->
   (12 <= List.length (SorveteriaEntity.fotosAmbiente e))%nat) /\
  (forall body' err,
     fst (sorveteriaAddFoto isUrl agora body' st) = Err err ->
     snd (sorveteriaAddFoto isUrl agora body' st) = st) /\
  (forall agora' params msg st',
     sorveteriaRemoveFoto agora' params st = (Ok msg, st') ->
     exists foto st'', sorveteriaAddFoto isUrl agora body st' = (Ok foto, st'')).
Proof.
  intros Hr He Hv.
  pose proof (reachable_store_invariant isUrl anoAtual st Hr) as Hinv.
  unfold store_invariant in Hinv. rewrite He in Hinv.
  destruct Hinv as (_ & _ & H12 & _).
  unfold SORVETERIA_LIMITS.MAX_FOTOS_AMBIENTE in H12.
  split; [|split].
  - unfold sorveteriaAddFoto, SorveteriaStore.get, SorveteriaStore.addFoto.
    rewrite Hv, He.
    destruct (Nat.leb_spec SORVETERIA_LIMITS.MAX_FOTOS_AMBIENTE
                (List.length (SorveteriaEntity.fotosAmbiente e))) as [Hge|Hlt];
      unfold SORVETERIA_LIMITS.MAX_FOTOS_AMBIENTE in *.
    + split; [intros _; exact Hge|]. intros _. eexists. split; reflexivity.
    + split; [|lia]. intros (err & H & _). discriminate.
  - intros body' err. apply sorveteriaAddFoto_err_unchanged.
  - intros agora' params msg st' Hrm.
    destruct (sorveteriaRemoveFoto_ok _ _ _ _ _ _ He Hrm) as (i & f & Hf & _ & ->).
    unfold sorveteriaAddFoto, SorveteriaStore.get, SorveteriaStore.addFoto.
    rewrite Hv. cbn [SorveteriaStore.sorveteria SorveteriaStore.with_sorveteria].
    cbn [SorveteriaEntity.fotosAmbiente SorveteriaEntity.set_dateModified
         SorveteriaEntity.set_fotosAmbiente].
    assert (Hi : (i < List.length (SorveteriaEntity.fotosAmbiente e))%nat).
    { apply nth_error_Some. rewrite Hf. discriminate. }
    pose proof (length_splice1 i _ Hi) as Hs.
    destruct (Nat.leb_spec SORVETERIA_LIMITS.MAX_FOTOS_AMBIENTE
                (List.length (splice1 i (SorveteriaEntity.fotosAmbiente e)))) as [Hge|_].
    + unfold SORVETERIA_LIMITS.MAX_FOTOS_AMBIENTE in Hge. lia.
    + eexists. eexists. reflexivity.
Qed.

Lemma sorveteriaAddFoto_ok (isUrl : string -> bool) (agora : Date.t) (body : FotoBody.t)
    (st st' : SorveteriaStore.t) (e : SorveteriaEntity.t) (foto : FotoAmbiente.t) :
  SorveteriaStore.sorveteria st = Some e ->
  sorveteriaAddFoto isUrl agora body st = (Ok foto, st') ->
  FotoAmbiente.id foto = SorveteriaStore.fotosCounter st + 1 /\
  FotoAmbiente.ordem foto = Z.of_nat (List.length (SorveteriaEntity.fotosAmbiente e)) + 1 /\
  st' = SorveteriaStore.mk
          (Some (SorveteriaEntity.set_dateModified (Date.toISOString agora)
                   (SorveteriaEntity.set_fotosAmbiente
                      (SorveteriaEntity.fotosAmbiente e ++ [foto]) e)))
          (SorveteriaStore.fotosCounter st + 1)
          (SorveteriaStore.depoimentosCounter st)
          (SorveteriaStore.promocoesCounter st).
Proof.
  intros He. unfold sorveteriaAddFoto, SorveteriaStore.get, SorveteriaStore.addFoto.
  destruct (fotoCreateSchema isUrl body); [|discriminate]. rewrite He.
  destruct (_ <=? _)%nat; [discriminate|].
  intros [= <- <-]. auto.
Qed.

(** C9: a successful add gives the new photo the display order "length of
    the list before the add, plus 1" and appends it; a successful removal
    takes out the first photo with the given id and leaves every other photo
    as it was, display order included; so two stored photos can carry the
    same display order, as after add, add, remove the first, add. *)
Theorem foto_ordem_gap_policy
    (isUrl : string -> bool) (st : SorveteriaStore.t) (e : SorveteriaEntity.t) :
  SorveteriaStore.sorveteria st = Some e ->
  (forall agora body foto st',
     sorveteriaAddFoto isUrl agora body st = (Ok foto, st') ->
     FotoAmbiente.ordem foto =
       Z.of_nat (List.length (SorveteriaEntity.fotosAmbiente e)) + 1 /\
     option_map SorveteriaEntity.fotosAmbiente (SorveteriaStore.sorveteria st') =
       Some (SorveteriaEntity.fotosAmbiente e ++ [foto])%list) /\
  (forall agora params msg st',
     sorveteriaRemoveFoto agora params st = (Ok msg, st') ->
     exists i f,
       nth_error (SorveteriaEntity.fotosAmbiente e) i = Some f /\
       FotoAmbiente.id f = params /\
       option_map SorveteriaEntity.fotosAmbiente (SorveteriaStore.sorveteria st') =
         Some (firstn i (SorveteriaEntity.fotosAmbiente e) ++
               skipn (S i) (SorveteriaEntity.fotosAmbiente e))%list) /\
  (exists f1 f2,
     option_map SorveteriaEntity.fotosAmbiente
       (SorveteriaStore.sorveteria
          (Sample.run [Sample.criar (Sample.semana "10:00" "22:00") None;
                       AddFoto (Sample.segunda_as 9 0) Sample.foto;
                       AddFoto (Sample.segunda_as 9 1) Sample.foto;
                       RemoveFoto (Sample.segunda_as 9 2) 1;
                       AddFoto (Sample.segunda_as 9 3) Sample.foto])) = Some [f1; f2] /\
     FotoAmbiente.id f1 <> FotoAmbiente.id f2 /\
     FotoAmbiente.ordem f1 = FotoAmbiente.ordem f2).
Proof.
  intros He. split; [|split].
  - intros agora body foto st' H.
    destruct (sorveteriaAddFoto_ok _ _ _ _ _ _ _ He H) as (_ & Ho & ->).
    split; [exact Ho|reflexivity].
  - intros agora params msg st' H.
    destruct (sorveteriaRemoveFoto_ok _ _ _ _ _ _ He H) as (i & f & Hf & Hid & ->).
    exists i, f. repeat split; assumption.
  - eexists. eexists. split; [vm_compute; reflexivity|].
    split; [discriminate|reflexivity].
Qed.

(** ** Testimonials and the last-modified timestamp *)

Lemma same_outside_depoimentos_recalc (e : SorveteriaEntity.t)
    (l : list Depoimento.t) (m : option Number.Decimal1) (t : Z) :
  same_outside_depoimentos e
    (SorveteriaEntity.set_totalAvaliacoes t
       (SorveteriaEntity.set_avaliacaoMedia m (SorveteriaEntity.set_depoimentos l e))).
Proof.
  unfold same_outside_depoimentos. simpl. repeat split; reflexivity.
Qed.

Lemma same_outside_depoimentos_refl (e : SorveteriaEntity.t) :
  same_outside_depoimentos e e.
Proof.
  unfold same_outside_depoimentos. repeat split; reflexivity.
Qed.

Lemma sorveteriaAddDepoimento_frame (agora : Date.t) (body : DepoimentoInput.t)
    (st : SorveteriaStore.t) (e : SorveteriaEntity.t) :
  SorveteriaStore.sorveteria st = Some e ->
  exists e',
    SorveteriaStore.sorveteria (snd (sorveteriaAddDepoimento agora body st)) = Some e' /\
    same_outside_depoimentos e e'.
Proof.
  intros He. unfold sorveteriaAddDepoimento, SorveteriaStore.addDepoimento.
  destruct (depoimentoCreateSchema body) as [data|].
  - rewrite He. cbn [snd].
    match goal with
    | |- context [SorveteriaStore.recalcularAvaliacaoMedia ?s] =>
        destruct (recalcularAvaliacaoMedia_shape s _ eq_refl) as (m & t & ->)
    end.
    eexists. split; [reflexivity|]. apply same_outside_depoimentos_recalc.
  - exists e. split; [exact He|apply same_outside_depoimentos_refl].
Qed.

Lemma sorveteriaUpdateDepoimentoStatus_frame (params : Z) (body : string)
    (st : SorveteriaStore.t) (e : SorveteriaEntity.t) :
  SorveteriaStore.sorveteria st = Some e ->
  exists e',
    SorveteriaStore.sorveteria (snd (sorveteriaUpdateDepoimentoStatus params body st)) = Some e' /\
    same_outside_depoimentos e e'.
Proof.
  intros He.
  assert (Hsame : exists e', SorveteriaStore.sorveteria st = Some e' /\
                             same_outside_depoimentos e e').
  { exists e. split; [exact He|apply same_outside_depoimentos_refl]. }
  unfold sorveteriaUpdateDepoimentoStatus, SorveteriaStore.updateDepoimentoStatus.
  destruct (paramsSchema params) as [id|]; [|exact Hsame].
  destruct (parse_StatusModeracao body) as [status|]; [|exact Hsame].
  rewrite He.
  destruct (findIndex _ _) as [i|]; [|exact Hsame].
  cbv zeta.
  match goal with
  | |- context [SorveteriaStore.recalcularAvaliacaoMedia ?s] =>
      destruct (recalcularAvaliacaoMedia_shape s _ eq_refl) as (m & t & ->)
  end.
  destruct (nth_error _ _); cbn [snd]; eexists;
    (split; [reflexivity|apply same_outside_depoimentos_recalc]).
Qed.

Lemma dateModified_of_updateStatusFuncionamento (agora : Date.t) (st : SorveteriaStore.t) :
  dateModified_of (SorveteriaStore.updateStatusFuncionamento agora st) = dateModified_of st.
Proof.
  unfold dateModified_of.
  destruct (SorveteriaStore.sorveteria st) as [e|] eqn:He.
  - destruct (updateStatusFuncionamento_shape agora st e He) as (v & _ & ->).
    reflexivity.
  - now rewrite (updateStatusFuncionamento_none agora st He), He.
Qed.

Lemma sorveteriaCreateOrUpdate_dateModified (isUrl : string -> bool) (anoAtual : Z)
    (t1 t2 : Date.t) (body : CreateBody.t) (st st' : SorveteriaStore.t)
    (r : SorveteriaEntity.t) :
  sorveteriaCreateOrUpdate isUrl anoAtual t1 t2 body st = (Ok r, st') ->
  dateModified_of st' = Some (Date.toISOString t1).
Proof.
  unfold sorveteriaCreateOrUpdate. cbv zeta.
  destruct (negb _); [discriminate|].
  destruct (0 <? _)%nat; [discriminate|].
  destruct (0 <? _)%nat; [discriminate|].
  unfold SorveteriaStore.set. cbv beta iota.
  match goal with
  | |- context [SorveteriaStore.updateStatusFuncionamento ?t ?s] =>
      pose proof (dateModified_of_updateStatusFuncionamento t s) as Hd;
      destruct (SorveteriaStore.get (SorveteriaStore.updateStatusFuncionamento t s))
  end.
  all: intros [= _ <-]; refine (eq_trans Hd _); unfold dateModified_of; simpl.
  all: destruct (SorveteriaStore.sorveteria st); reflexivity.
Qed.

Lemma sorveteriaUpdate_dateModified (isUrl : string -> bool) (anoAtual : Z)
    (t1 t2 : Date.t) (body : UpdateBody.t) (st st' : SorveteriaStore.t)
    (r : SorveteriaEntity.t) :
  sorveteriaUpdate isUrl anoAtual t1 t2 body st = (Ok r, st') ->
  dateModified_of st' = Some (Date.toISOString t1).
Proof.
  unfold sorveteriaUpdate, SorveteriaStore.get, SorveteriaStore.update.
  destruct (negb _); [discriminate|].
  destruct (SorveteriaStore.sorveteria st) as [e|]; [|discriminate].
  cbv beta iota zeta.
  match goal with
  | |- context [SorveteriaStore.updateStatusFuncionamento ?t ?s] =>
      pose proof (dateModified_of_updateStatusFuncionamento t s) as Hd;
      destruct (SorveteriaStore.sorveteria (SorveteriaStore.updateStatusFuncionamento t s))
  end.
  all: intros [= _ <-]; refine (eq_trans Hd _); reflexivity.
Qed.

Lemma sorveteriaAddPromocao_dateModified (agora : Date.t) (body : PromocaoBody.t)
    (st st' : SorveteriaStore.t) (r : Promocao.t) :
  sorveteriaAddPromocao agora body st = (Ok r, st') ->
  dateModified_of st' = Some (Date.toISOString agora).
Proof.
  unfold sorveteriaAddPromocao, SorveteriaStore.get, SorveteriaStore.addPromocao.
  destruct (promocaoCreateSchema body); [|discriminate].
  destruct (SorveteriaStore.sorveteria st); [|discriminate].
  destruct (_ <=? _)%nat; [discriminate|].
  destruct (_ && _); [discriminate|].
  intros [= _ <-]. reflexivity.
Qed.

Lemma removePromocoesVencidas_dateModified (t1 t2 : Date.t) (st : SorveteriaStore.t) :
  0 < fst (sorveteriaRemovePromocoesVencidas t1 t2 st) ->
  dateModified_of (snd (sorveteriaRemovePromocoesVencidas t1 t2 st)) =
  Some (Date.toISOString t2).
Proof.
  unfold sorveteriaRemovePromocoesVencidas, SorveteriaStore.removePromocoesVencidas.
  destruct (SorveteriaStore.sorveteria st) as [e|]; cbn [fst snd]; [|lia].
  cbv zeta. intros H. apply Z.gtb_lt in H. rewrite H. reflexivity.
Qed.

(** C10, as amended: adding a testimonial and updating a testimonial's
    moderation status leave the last-modified timestamp and every field of
    the record other than the testimonial list, the average rating and the
    rating count as they were.  The status recompute, too, leaves the
    timestamp as it was.  A successful create-or-update, partial update,
    add-photo, remove-photo and add-promotion, and an expiry sweep that
    removes something, set the timestamp to the clock. *)
Theorem depoimento_operations_frame (st : SorveteriaStore.t) (e : SorveteriaEntity.t) :
  SorveteriaStore.sorveteria st = Some e ->
  (forall agora body,
     exists e',
       SorveteriaStore.sorveteria (snd (sorveteriaAddDepoimento agora body st)) = Some e' /\
       same_outside_depoimentos e e') /\
  (forall params body,
     exists e',
       SorveteriaStore.sorveteria
         (snd (sorveteriaUpdateDepoimentoStatus params body st)) = Some e' /\
       same_outside_depoimentos e e') /\
  (forall agora,
     dateModified_of (SorveteriaStore.updateStatusFuncionamento agora st) =
     Some (SorveteriaEntity.dateModified e)) /\
  (forall isUrl anoAtual t1 t2 body r st',
     sorveteriaCreateOrUpdate isUrl anoAtual t1 t2 body st = (Ok r, st') ->
     dateModified_of st' = Some (Date.toISOString t1)) /\
  (forall isUrl anoAtual t1 t2 body r st',
     sorveteriaUpdate isUrl anoAtual t1 t2 body st = (Ok r, st') ->
     dateModified_of st' = Some (Date.toISOString t1)) /\
  (forall isUrl agora body r st',
     sorveteriaAddFoto isUrl agora body st = (Ok r, st') ->
     dateModified_of st' = Some (Date.toISOString agora)) /\
  (forall agora params msg st',
     sorveteriaRemoveFoto agora params st = (Ok msg, st') ->
     dateModified_of st' = Some (Date.toISOString agora)) /\
  (forall agora body r st',
     sorveteriaAddPromocao agora body st = (Ok r, st') ->
     dateModified_of st' = Some (Date.toISOString agora)) /\
  (forall t1 t2,
     0 < fst (sorveteriaRemovePromocoesVencidas t1 t2 st) ->
     dateModified_of (snd (sorveteriaRemovePromocoesVencidas t1 t2 st)) =
     Some (Date.toISOString t2)).
Proof.
  intros He. repeat apply conj.
  - intros. now apply sorveteriaAddDepoimento_frame.
  - intros. now apply sorveteriaUpdateDepoimentoStatus_frame.
  - intros. rewrite dateModified_of_updateStatusFuncionamento.
    unfold dateModified_of. now rewrite He.
  - intros. eapply sorveteriaCreateOrUpdate_dateModified; eassumption.
  - intros. eapply sorveteriaUpdate_dateModified; eassumption.
  - intros isUrl agora body r st' H.
    destruct (sorveteriaAddFoto_ok _ _ _ _ _ _ _ He H) as (_ & _ & ->). reflexivity.
  - intros agora params msg st' H.
    destruct (sorveteriaRemoveFoto_ok _ _ _ _ _ _ He H) as (i & f & _ & _ & ->).
    reflexivity.
  - intros. eapply sorveteriaAddPromocao_dateModified; eassumption.
  - intros. now apply removePromocoesVencidas_dateModified.
Qed.

(** ** Create-or-update: the keyword rules *)

(** C6: for a structurally valid body, create-or-update fails
    VALIDATION_ERROR when the lower-cased history lacks one of "origem",
    "tradição", "qualidade", and, the history being complete, when no
    lower-cased differentiator contains one of "qualidade", "tradição",
    "atendimento"; the message lists the missing keywords, and a required
    keyword occurs in the message exactly when it is missing; the store is
    left as it was. *)
Theorem sorveteriaCreateOrUpdate_keywords
    (isUrl : string -> bool) (anoAtual : Z) (t1 t2 : Date.t)
    (body : CreateBody.t) (st : SorveteriaStore.t) :
  createSchema isUrl anoAtual body = true ->
  let historiaLower := Js.toLowerCase (CreateBody.historiaSorveteria body) in
  let faltaHistoria (el : string) := negb (Js.includes historiaLower el) in
  let diferenciais := map Js.toLowerCase (CreateBody.diferenciais body) in
  let faltaDiferencial (req : string) :=
    negb (some (fun d => Js.includes d req) diferenciais) in
  (filter faltaHistoria requiredElements <> [] ->
   let message :=
     Historia ++ " deve incluir: " ++ Js.join (filter faltaHistoria requiredElements) ", " in
   sorveteriaCreateOrUpdate isUrl anoAtual t1 t2 body st =
     (Err (ServiceError.mk VALIDATION_ERROR message 400), st) /\
   forall el, In el requiredElements -> Js.includes message el = faltaHistoria el) /\
  (filter faltaHistoria requiredElements = [] ->
   filter faltaDiferencial requiredDiferenciais <> [] ->
   let message :=
     "Diferenciais devem incluir: " ++
     Js.join (filter faltaDiferencial requiredDiferenciais) ", " in
   sorveteriaCreateOrUpdate isUrl anoAtual t1 t2 body st =
     (Err (ServiceError.mk VALIDATION_ERROR message 400), st) /\
   forall req, In req requiredDiferenciais -> Js.includes message req = faltaDiferencial req).
Proof.
  intros Hv historiaLower faltaHistoria diferenciais faltaDiferencial.
  unfold sorveteriaCreateOrUpdate. rewrite Hv. cbv zeta.
  fold historiaLower. fold diferenciais.
  change (fun el : string => negb (Js.includes historiaLower el)) with faltaHistoria.
  change (fun req : string => negb (some (fun d : string => Js.includes d req) diferenciais))
    with faltaDiferencial.
  cbn [negb]. split.
  - intros Hne.
    assert (Hlen : (0 <? List.length (filter faltaHistoria requiredElements))%nat = true).
    { destruct (filter faltaHistoria requiredElements); [congruence|reflexivity]. }
    rewrite Hlen. split; [reflexivity|].
    intros el Hel. clear Hlen Hne. unfold requiredElements in *. cbn [filter].
    destruct (faltaHistoria "origem") eqn:H1, (faltaHistoria tradicao) eqn:H2,
             (faltaHistoria "qualidade") eqn:H3.
    all: destruct Hel as [<-|[<-|[<-|[]]]].
    all: first [rewrite H1 | rewrite H2 | rewrite H3].
    all: vm_compute; reflexivity.
  - intros Hnil Hne. rewrite Hnil.
    change (0 <? @List.length string [])%nat with false. cbv iota.
    assert (Hlen : (0 <? List.length (filter faltaDiferencial requiredDiferenciais))%nat = true).
    { destruct (filter faltaDiferencial requiredDiferenciais); [congruence|reflexivity]. }
    rewrite Hlen. split; [reflexivity|].
    intros req Hreq. clear Hlen Hne. unfold requiredDiferenciais in *. cbn [filter].
    destruct (faltaDiferencial "qualidade") eqn:H1, (faltaDiferencial tradicao) eqn:H2,
             (faltaDiferencial "atendimento") eqn:H3.
    all: destruct Hreq as [<-|[<-|[<-|[]]]].
    all: first [rewrite H1 | rewrite H2 | rewrite H3].
    all: vm_compute; reflexivity.
Qed.

(** ** The average rating: binary64 division and [toFixed(1)] *)

Section Binary64.

Lemma digits2_pos_size (p : positive) : digits2_pos p = Pos.size p.
Proof. induction p; simpl; congruence. Qed.

Lemma Zdigits2_bounds (p : positive) :
  2 ^ (Zdigits2 (Zpos p) - 1) <= Zpos p < 2 ^ Zdigits2 (Zpos p).
Proof.
  unfold Zdigits2. rewrite digits2_pos_size.
  pose proof (Pos.size_gt p) as Hgt. pose proof (Pos.size_le p) as Hle.
  apply Pos2Z.pos_lt_pos in Hgt. apply Pos2Z.pos_le_pos in Hle.
  rewrite Pos2Z.inj_pow in Hgt, Hle.
  split; [|exact Hgt].
  assert (H2 : 2 ^ Zpos (Pos.size p) = 2 * 2 ^ (Zpos (Pos.size p) - 1)).
  { rewrite <- Z.pow_succ_r by lia. f_equal. lia. }
  change (Zpos 2) with 2 in *. change (Zpos p~0) with (2 * Zpos p) in Hle. lia.
Qed.

Lemma Zdigits2_unique (p : positive) (k : Z) :
  2 ^ (k - 1) <= Zpos p < 2 ^ k -> Zdigits2 (Zpos p) = k.
Proof.
  intros [Hlo Hhi]. pose proof (Zdigits2_bounds p) as [Dlo Dhi].
  assert (Hd : 0 < Zdigits2 (Zpos p)) by (simpl; lia).
  assert (Hk : 0 < k).
  { destruct (Z_lt_le_dec 0 k) as [|Hk]; [assumption|].
    assert (2 ^ k <= 1).
    { destruct (Z.eq_dec k 0) as [->|]; [simpl; lia|].
      rewrite Z.pow_neg_r by lia. lia. }
    lia. }
  destruct (Z_lt_le_dec (Zdigits2 (Zpos p)) k) as [Hlt|Hge].
  - assert (2 ^ Zdigits2 (Zpos p) <= 2 ^ (k - 1)) by (apply Z.pow_le_mono_r; lia). lia.
  - destruct (Z_lt_le_dec k (Zdigits2 (Zpos p))) as [Hlt|Hle]; [|lia].
    assert (2 ^ k <= 2 ^ (Zdigits2 (Zpos p) - 1)) by (apply Z.pow_le_mono_r; lia). lia.
Qed.

Lemma iter_xO_pow (p k : positive) : Zpos (Pos.iter xO p k) = Zpos p * 2 ^ Zpos k.
Proof.
  induction k as [|k IH] using Pos.peano_ind.
  - simpl. lia.
  - rewrite Pos.iter_succ, Pos2Z.inj_succ, Z.pow_succ_r by lia.
    rewrite Pos2Z.inj_xO, IH. lia.
Qed.


Lemma shr_fexp_53 (m : positive) (e : Z) (l : location) :
  Zdigits2 (Zpos m) = 53 -> -1074 <= e ->
  shr_fexp Number.prec Number.emax (Zpos m) e l = (shr_record_of_loc (Zpos m) l, e).
Proof.
  intros Hd He. unfold shr_fexp, fexp, emin, Number.prec, Number.emax. rewrite Hd.
  replace (Z.max (53 + e - 53) (3 - 1024 - 53) - e) with 0 by lia.
  reflexivity.
Qed.

Lemma shr_fexp_54 (m : positive) (e : Z) (l : location) :
  Zdigits2 (Zpos m) = 54 -> -1075 <= e ->
  shr_fexp Number.prec Number.emax (Zpos m) e l =
  (shr_1 (shr_record_of_loc (Zpos m) l), e + 1).
Proof.
  intros Hd He. unfold shr_fexp, fexp, emin, Number.prec, Number.emax. rewrite Hd.
  replace (Z.max (54 + e - 53) (3 - 1024 - 53) - e) with 1 by lia.
  reflexivity.
Qed.

Lemma shr_m_shr_1 (m : Z) (l : location) :
  0 <= m -> shr_m (shr_1 (shr_record_of_loc m l)) = m / 2.
Proof.
  intros Hm. rewrite <- Z.div2_div.
  destruct l as [|[]]; destruct m as [|[p|p|]|p]; try reflexivity; lia.
Qed.

Lemma shr_m_shr_record_of_loc (m : Z) (l : location) :
  shr_m (shr_record_of_loc m l) = m.
Proof. destruct l as [|[]]; reflexivity. Qed.

Lemma round_nearest_even_range (m : Z) (l : location) :
  m <= round_nearest_even m l <= m + 1.
Proof.
  unfold round_nearest_even. destruct l as [|[]]; try lia.
  destruct (Z.even m); lia.
Qed.

(** The second normalization of [binary_round_aux], after rounding *)
Lemma binary_round_aux_tail (s : bool) (m1 e : Z) :
  2 ^ 52 <= m1 <= 2 ^ 53 -> -1074 <= e <= 970 ->
  exists m k,
    (let '(mrs, e') := shr_fexp Number.prec Number.emax m1 e loc_Exact in
     match shr_m mrs with
     | Z0 => S754_zero s
     | Zpos m => if e' <=? Number.emax - Number.prec
                 then S754_finite s m e' else S754_infinity s
     | Zneg _ => S754_nan
     end) = S754_finite s m (e + k) /\
    0 <= k <= 1 /\ Zpos m * 2 ^ k = m1.
Proof.
  intros Hm He.
  destruct m1 as [|p|p]; try lia.
  destruct (Z_lt_le_dec (Zpos p) (2 ^ 53)) as [Hlt|Hge].
  - rewrite shr_fexp_53 by (try apply Zdigits2_unique; lia).
    cbn [shr_record_of_loc shr_m].
    exists p, 0. unfold Number.emax, Number.prec.
    destruct (Z.leb_spec e (1024 - 53)); [|lia].
    rewrite Z.add_0_r. split; [reflexivity|]. lia.
  - rewrite shr_fexp_54 by (try apply Zdigits2_unique; lia).
    rewrite shr_m_shr_1 by lia.
    assert (Hp : Zpos p = 2 ^ 53) by lia. rewrite Hp.
    change (2 ^ 53 / 2) with (Zpos (2 ^ 52)).
    exists (2 ^ 52)%positive, 1. unfold Number.emax, Number.prec.
    destruct (Z.leb_spec (e + 1) (1024 - 53)); [|lia].
    split; [reflexivity|]. split; [lia|reflexivity].
Qed.


(** [binary_round_aux] on a 53- or 54-bit integer: the result is finite
    and within two units of the input, at the input's exponent *)
Lemma binary_round_aux_near (s : bool) (q e0 : Z) (l : location) :
  2 ^ 52 <= q < 2 ^ 54 -> -1074 <= e0 <= 960 ->
  exists m k,
    binary_round_aux Number.prec Number.emax s q e0 l = S754_finite s m (e0 + k) /\
    0 <= k <= 2 /\ q - 1 <= Zpos m * 2 ^ k <= q + 2.
Proof.
  intros Hq He. unfold binary_round_aux.
  destruct q as [|p|p]; try lia.
  destruct (Z_lt_le_dec (Zpos p) (2 ^ 53)) as [Hlt|Hge].
  - rewrite shr_fexp_53 by (try apply Zdigits2_unique; lia).
    rewrite shr_m_shr_record_of_loc.
    set (m1 := round_nearest_even _ _).
    pose proof (round_nearest_even_range (Zpos p)
                  (loc_of_shr_record (shr_record_of_loc (Zpos p) l))) as Hr.
    fold m1 in Hr.
    destruct (binary_round_aux_tail s m1 e0) as (m & k & -> & Hk & Hm); try lia.
    exists m, k. split; [reflexivity|]. lia.
  - rewrite shr_fexp_54 by (try apply Zdigits2_unique; lia).
    rewrite shr_m_shr_1 by lia.
    set (m1 := round_nearest_even _ _).
    pose proof (round_nearest_even_range (Zpos p / 2)
                  (loc_of_shr_record (shr_1 (shr_record_of_loc (Zpos p) l)))) as Hr.
    fold m1 in Hr.
    pose proof (Z.div_mod (Zpos p) 2 ltac:(lia)) as Hdm.
    pose proof (Z.mod_pos_bound (Zpos p) 2 ltac:(lia)) as Hmod.
    destruct (binary_round_aux_tail s m1 (e0 + 1)) as (m & k & -> & Hk & Hm); try lia.
    exists m, (1 + k). rewrite Z.add_assoc. split; [reflexivity|].
    rewrite Z.pow_add_r by lia. change (2 ^ 1) with 2. lia.
Qed.

(** An integer below [2^53] as a Number: the mantissa is the integer
    shifted to 53 bits *)
Lemma of_Z_normal (p : positive) :
  Zpos p < 2 ^ 53 ->
  let d := Zdigits2 (Zpos p) in
  exists m,
    Number.of_Z (Zpos p) = S754_finite false m (d - 53) /\
    Zpos m = Zpos p * 2 ^ (53 - d) /\ Zdigits2 (Zpos m) = 53.
Proof.
  intros Hp d. pose proof (Zdigits2_bounds p) as Hb. fold d in Hb.
  assert (Hd : 1 <= d <= 53).
  { split; [subst d; simpl; lia|].
    destruct (Z_lt_le_dec 53 d) as [Hlt|]; [|assumption].
    assert (2 ^ 53 <= 2 ^ (d - 1)) by (apply Z.pow_le_mono_r; lia). lia. }
  unfold Number.of_Z, binary_normalize, binary_round, shl_align, fexp, emin,
    Number.prec, Number.emax.
  change (Zpos (digits2_pos p)) with d.
  replace (Z.max (d + 0 - 53) (3 - 1024 - 53) - 0) with (d - 53) by lia.
  replace (Z.max (d + 0 - 53) (3 - 1024 - 53)) with (d - 53) by lia.
  assert (Hpow : 2 ^ (d - 1) * 2 ^ (53 - d) = 2 ^ 52).
  { rewrite <- Z.pow_add_r by lia. f_equal. lia. }
  assert (Hpow' : 2 ^ d * 2 ^ (53 - d) = 2 ^ 53).
  { rewrite <- Z.pow_add_r by lia. f_equal. lia. }
  assert (Hpos : 0 < 2 ^ (53 - d)) by (apply Z.pow_pos_nonneg; lia).
  destruct (d - 53) as [|k|k] eqn:Hk; try lia.
  - assert (Hd53 : d = 53) by lia.
    exists p. rewrite Hd53 in *. change (2 ^ (53 - 53)) with 1. rewrite Z.mul_1_r.
    split; [|split; [reflexivity|exact Hd53]].
    unfold binary_round_aux. rewrite shr_fexp_53 by (assumption || lia).
    cbn [shr_record_of_loc loc_of_shr_record shr_m round_nearest_even].
    rewrite shr_fexp_53 by (assumption || lia).
    reflexivity.
  - set (mz := Pos.iter xO p k).
    assert (Hmz : Zpos mz = Zpos p * 2 ^ (53 - d)).
    { unfold mz. rewrite iter_xO_pow. f_equal. f_equal. lia. }
    assert (Hdz : Zdigits2 (Zpos mz) = 53).
    { apply Zdigits2_unique. rewrite Hmz. change (53 - 1) with 52. nia. }
    exists mz. split; [|split; assumption].
    unfold binary_round_aux. rewrite shr_fexp_53 by (assumption || lia).
    cbn [shr_record_of_loc loc_of_shr_record shr_m round_nearest_even].
    rewrite shr_fexp_53 by (assumption || lia).
    cbn [shr_record_of_loc shr_m].
    unfold Number.emax, Number.prec.
    destruct (Z.leb_spec (Zneg k) (1024 - 53)); [reflexivity|lia].
Qed.


(** The quotient of two normal Numbers with small exponents *)
Lemma div_near (mx my : positive) (ex ey : Z) :
  Zdigits2 (Zpos mx) = 53 -> Zdigits2 (Zpos my) = 53 ->
  -60 <= ex <= 0 -> -60 <= ey <= 0 ->
  exists m k,
    Number.div (S754_finite false mx ex) (S754_finite false my ey) =
      S754_finite false m (ex - ey - 53 + k) /\
    0 <= k <= 2 /\
    Zpos mx * 2 ^ 53 / Zpos my - 1 <= Zpos m * 2 ^ k <= Zpos mx * 2 ^ 53 / Zpos my + 2.
Proof.
  intros Hdx Hdy Hex Hey.
  pose proof (Zdigits2_bounds mx) as Hbx. pose proof (Zdigits2_bounds my) as Hby.
  rewrite Hdx in Hbx. rewrite Hdy in Hby. change (53 - 1) with 52 in *.
  unfold Number.div, SFdiv, SFdiv_core_binary, fexp, emin, Number.prec, Number.emax.
  rewrite Hdx, Hdy.
  replace (Z.min (Z.max (53 + ex - (53 + ey) - 53) (3 - 1024 - 53)) (ex - ey))
    with (ex - ey - 53) by lia.
  replace (ex - ey - (ex - ey - 53)) with 53 by lia.
  cbv iota. rewrite Z.shiftl_mul_pow2 by lia.
  pose proof (Z_div_mod_eq_full (Zpos mx * 2 ^ 53) (Zpos my)) as Hdm.
  unfold Z.div, Z.modulo in Hdm |- *.
  destruct (Z.div_eucl (Zpos mx * 2 ^ 53) (Zpos my)) as [q r] eqn:Hqr.
  pose proof (Z_div_mod (Zpos mx * 2 ^ 53) (Zpos my) ltac:(lia)) as Hr.
  rewrite Hqr in Hr. destruct Hr as [_ Hr].
  cbn [xorb].
  assert (Hq : 2 ^ 52 <= q < 2 ^ 54) by nia.
  destruct (binary_round_aux_near false q (ex - ey - 53)
              (new_location (Zpos my) r) Hq ltac:(lia)) as (m & k & Hm & Hk & Hv).
  exists m, k. split; [exact Hm|]. split; assumption.
Qed.


Lemma Zdigits2_le (p q : positive) (c : Z) :
  0 <= c -> Zpos p < 2 ^ c * Zpos q -> Zdigits2 (Zpos p) <= Zdigits2 (Zpos q) + c.
Proof.
  intros Hc H. pose proof (Zdigits2_bounds p) as Hp. pose proof (Zdigits2_bounds q) as Hq.
  assert (Hdq : 0 < Zdigits2 (Zpos q)) by (simpl; lia).
  assert (Hlt : 2 ^ (Zdigits2 (Zpos p) - 1) < 2 ^ (Zdigits2 (Zpos q) + c)).
  { rewrite Z.pow_add_r by lia. nia. }
  apply Z.pow_lt_mono_r_iff in Hlt; lia.
Qed.

Lemma Zdigits2_mono (p q : positive) :
  Zpos p <= Zpos q -> Zdigits2 (Zpos p) <= Zdigits2 (Zpos q).
Proof.
  intros H. pose proof (Zdigits2_bounds p) as Hp. pose proof (Zdigits2_bounds q) as Hq.
  assert (Hdq : 0 < Zdigits2 (Zpos q)) by (simpl; lia).
  assert (Hlt : 2 ^ (Zdigits2 (Zpos p) - 1) < 2 ^ Zdigits2 (Zpos q)) by lia.
  apply Z.pow_lt_mono_r_iff in Hlt; lia.
Qed.

(** The stored average is a nearest one-decimal number to the exact
    quotient [a / b] *)
Lemma toFixed1_div_nearest (a b : Z) :
  0 < b < 2 ^ 32 -> b <= a <= 5 * b ->
  exists n,
    Number.toFixed1 (Number.div (Number.of_Z a) (Number.of_Z b)) = Number.Tenths n /\
    2 * Z.abs (10 * a - n * b) <= b.
Proof.
  intros Hb Ha.
  destruct a as [|pa|pa]; try lia. destruct b as [|pb|pb]; try lia.
  destruct (of_Z_normal pa ltac:(lia)) as (ma & -> & Hma & Hda).
  destruct (of_Z_normal pb ltac:(lia)) as (mb & -> & Hmb & Hdb).
  set (da := Zdigits2 (Zpos pa)) in *. set (db := Zdigits2 (Zpos pb)) in *.
  assert (Hda1 : 1 <= da) by (subst da; simpl; lia).
  assert (Hdb1 : 1 <= db) by (subst db; simpl; lia).
  assert (Hdab : db <= da <= db + 3).
  { split.
    - apply Zdigits2_mono. lia.
    - apply (Zdigits2_le pa pb 3); [lia|]. change (2 ^ 3) with 8. lia. }
  assert (Hda53 : da <= 33 + 3).
  { assert (H32 : Zpos pb < 2 ^ 32 * 1) by lia.
    pose proof (Zdigits2_le pb 1%positive 32 ltac:(lia) H32) as H.
    fold db in H. change (Zdigits2 1) with 1 in H. lia. }
  destruct (div_near ma mb (da - 53) (db - 53) Hda Hdb ltac:(lia) ltac:(lia))
    as (m & k & -> & Hk & Hv).
  set (E := 53 + db - da).
  assert (HE : 50 <= E <= 53) by (subst E; lia).
  set (T := 2 ^ E).
  assert (HT : 2 ^ 50 <= T) by (apply Z.pow_le_mono_r; lia).
  (* the integer quotient, in terms of [a], [b] and [T] *)
  set (q := Zpos ma * 2 ^ 53 / Zpos mb) in *.
  assert (Hq : q * Zpos pb <= Zpos pa * T < (q + 1) * Zpos pb).
  { pose proof (Z.div_mod (Zpos ma * 2 ^ 53) (Zpos mb) ltac:(lia)) as Hdm.
    pose proof (Z.mod_pos_bound (Zpos ma * 2 ^ 53) (Zpos mb) ltac:(lia)) as Hmod.
    fold q in Hdm.
    set (P := 2 ^ (53 - db)) in *.
    assert (HP : 0 < P) by (apply Z.pow_pos_nonneg; lia).
    assert (Hnum : Zpos ma * 2 ^ 53 = Zpos pa * T * P).
    { rewrite Hma. unfold T, P. rewrite <- !Z.mul_assoc, <- !Z.pow_add_r by lia.
      f_equal. f_equal. subst E. lia. }
    rewrite Hnum, Hmb in *. nia. }
  set (W := Zpos m * 2 ^ k) in *.
  (* the exponent of the quotient is negative *)
  replace (da - 53 - (db - 53) - 53 + k) with (- (E - k)) by (subst E; lia).
  destruct (E - k) as [|pe|pe] eqn:Hpe; try lia.
  cbn [Z.opp Number.toFixed1 cond_Zopp Number.round_tenths].
  set (n := (20 * Zpos m + 2 ^ Zpos pe) / 2 ^ (Zpos pe + 1)).
  exists n. split; [reflexivity|].
  assert (Hn : 2 * n * T <= 20 * W + T < 2 * (n + 1) * T).
  { pose proof (Z.div_mod (20 * Zpos m + 2 ^ Zpos pe) (2 ^ (Zpos pe + 1))
                  ltac:(apply Z.pow_nonzero; lia)) as Hdm.
    pose proof (Z.mod_pos_bound (20 * Zpos m + 2 ^ Zpos pe) (2 ^ (Zpos pe + 1))
                  ltac:(apply Z.pow_pos_nonneg; lia)) as Hmod.
    fold n in Hdm.
    assert (HTk : T = 2 ^ Zpos pe * 2 ^ k).
    { unfold T. rewrite <- Z.pow_add_r by lia. f_equal. lia. }
    rewrite (Z.pow_add_r 2 (Zpos pe) 1) in Hdm, Hmod by lia.
    change (2 ^ 1) with 2 in Hdm, Hmod.
    assert (Hk2 : 0 < 2 ^ k) by (apply Z.pow_pos_nonneg; lia).
    unfold W. rewrite HTk. nia. }
  assert (Hlo : 2 * n * Zpos pb - 20 * Zpos pa - Zpos pb <= 0).
  { assert (T * (2 * n * Zpos pb - 20 * Zpos pa - Zpos pb) <= 40 * Zpos pb) by nia.
    nia. }
  assert (Hhi : 20 * Zpos pa - 2 * n * Zpos pb - Zpos pb <= 0).
  { assert (T * (20 * Zpos pa - 2 * n * Zpos pb - Zpos pb) < 40 * Zpos pb + T) by nia.
    nia. }
  lia.
Qed.

End Binary64.

(** ** The average rating after the operations that recompute it *)

Lemma fold_left_soma (l : list Depoimento.t) (acc : Z) :
  fold_left (fun acc d => acc + Depoimento.avaliacao d) l acc = acc + soma_avaliacoes l.
Proof.
  revert acc. induction l as [|d l IH]; intros acc; simpl; [lia|].
  rewrite IH. lia.
Qed.

Lemma soma_avaliacoes_bounds (l : list Depoimento.t) :
  Forall (fun d => 1 <= Depoimento.avaliacao d <= 5) l ->
  Z.of_nat (List.length l) <= soma_avaliacoes l <= 5 * Z.of_nat (List.length l).
Proof.
  induction 1 as [|d l Hd _ IH]; simpl List.length; simpl soma_avaliacoes; lia.
Qed.

Lemma Forall_aprovados (P : Depoimento.t -> Prop) (l : list Depoimento.t) :
  Forall P l -> Forall P (aprovados l).
Proof.
  intros H. apply Forall_forall. intros d Hd.
  apply filter_In in Hd. rewrite Forall_forall in H. now apply H.
Qed.

Lemma recalcularAvaliacaoMedia_media (st : SorveteriaStore.t) (e : SorveteriaEntity.t) :
  SorveteriaStore.sorveteria st = Some e ->
  Forall (fun d => 1 <= Depoimento.avaliacao d <= 5) (SorveteriaEntity.depoimentos e) ->
  Z.of_nat (List.length (SorveteriaEntity.depoimentos e)) < 2 ^ 32 ->
  exists e',
    SorveteriaStore.recalcularAvaliacaoMedia st = SorveteriaStore.with_sorveteria e' st /\
    SorveteriaEntity.depoimentos e' = SorveteriaEntity.depoimentos e /\
    media_recomputed e'.
Proof.
  intros He Hr Hlen. unfold SorveteriaStore.recalcularAvaliacaoMedia. rewrite He.
  fold (aprovados (SorveteriaEntity.depoimentos e)).
  pose proof (Forall_aprovados _ _ Hr) as Hap.
  pose proof (soma_avaliacoes_bounds _ Hap) as Hs.
  pose proof (length_filter_le
                (fun d => StatusModeracao_eqb (Depoimento.statusModeracao d) APROVADO)
                (SorveteriaEntity.depoimentos e)) as Hle.
  fold (aprovados (SorveteriaEntity.depoimentos e)) in Hle.
  destruct (aprovados (SorveteriaEntity.depoimentos e)) as [|d ap] eqn:Eap.
  - eexists. split; [reflexivity|]. split; [reflexivity|].
    unfold media_recomputed. cbn [SorveteriaEntity.depoimentos
      SorveteriaEntity.set_totalAvaliacoes SorveteriaEntity.set_avaliacaoMedia].
    rewrite Eap. split; reflexivity.
  - change (List.length (d :: ap) =? 0)%nat with false. cbv iota zeta.
    rewrite fold_left_soma, Z.add_0_l.
    destruct (toFixed1_div_nearest (soma_avaliacoes (d :: ap))
                (Z.of_nat (List.length (d :: ap)))) as (n & Hn & Hnear).
    { cbn [List.length] in *. lia. }
    { exact Hs. }
    rewrite Hn. eexists. split; [reflexivity|]. split; [reflexivity|].
    unfold media_recomputed. cbn [SorveteriaEntity.depoimentos
      SorveteriaEntity.set_totalAvaliacoes SorveteriaEntity.set_avaliacaoMedia
      SorveteriaEntity.totalAvaliacoes SorveteriaEntity.avaliacaoMedia].
    rewrite Eap. split; [reflexivity|]. exists n. split; [reflexivity|exact Hnear].
Qed.

Lemma length_update_at {A : Type} (i : nat) (f : A -> A) (l : list A) :
  List.length (update_at i f l) = List.length l.
Proof.
  revert i. induction l as [|x l IH]; intros i; destruct i; simpl; auto.
Qed.

Lemma map_update_at {A B : Type} (g : A -> B) (i : nat) (f : A -> A) (l : list A) :
  (forall x, g (f x) = g x) -> map g (update_at i f l) = map g l.
Proof.
  intros Hg. revert i. induction l as [|x l IH]; intros i; destruct i; simpl;
    rewrite ?Hg, ?IH; reflexivity.
Qed.

(** C3: in a reachable state (ratings validated to 1..5, fewer than 2^32
    testimonials, the bound of an array), after a successful add-testimonial
    and after a successful status update the rating count is the number of
    approved testimonials and the average is [null] if there is none, else
    the one-decimal number nearest to (sum of the approved ratings) / (their
    number); the testimonials that are not approved stay in the list: the add
    appends a pending one, the update changes the status of one and nothing
    else. *)
Theorem avaliacaoMedia_after_recompute
    (isUrl : string -> bool) (anoAtual : Z)
    (st : SorveteriaStore.t) (e : SorveteriaEntity.t) :
  reachable isUrl anoAtual st ->
  SorveteriaStore.sorveteria st = Some e ->
  Z.of_nat (List.length (SorveteriaEntity.depoimentos e)) + 1 < 2 ^ 32 ->
  (forall agora body d st',
     sorveteriaAddDepoimento agora body st = (Ok d, st') ->
     exists e',
       SorveteriaStore.sorveteria st' = Some e' /\
       SorveteriaEntity.depoimentos e' = (SorveteriaEntity.depoimentos e ++ [d])%list /\
       Depoimento.statusModeracao d = PENDENTE /\
       media_recomputed e') /\
  (forall params body d st',
     sorveteriaUpdateDepoimentoStatus params body st = (Ok d, st') ->
     exists e' i status,
       SorveteriaStore.sorveteria st' = Some e' /\
       parse_StatusModeracao body = Some status /\
       SorveteriaEntity.depoimentos e' =
         update_at i (Depoimento.set_statusModeracao status)
           (SorveteriaEntity.depoimentos e) /\
       nth_error (SorveteriaEntity.depoimentos e') i = Some d /\
       Depoimento.id d = params /\
       map Depoimento.id (SorveteriaEntity.depoimentos e') =
         map Depoimento.id (SorveteriaEntity.depoimentos e) /\
       media_recomputed e').
Proof.
  intros Hr He Hlen.
  pose proof (reachable_store_invariant isUrl anoAtual st Hr) as Hinv.
  unfold store_invariant in Hinv. rewrite He in Hinv.
  destruct Hinv as (_ & _ & _ & _ & Hav).
  split.
  - intros agora body d st'.
    unfold sorveteriaAddDepoimento, SorveteriaStore.addDepoimento, depoimentoCreateSchema.
    destruct (_ && _) eqn:Hv; [|discriminate]. rewrite He.
    repeat rewrite andb_true_iff in Hv. destruct Hv as [[_ H1] H5].
    apply Z.leb_le in H1, H5.
    intros [= <- <-].
    match goal with
    | |- context [SorveteriaStore.recalcularAvaliacaoMedia ?s] =>
        destruct (recalcularAvaliacaoMedia_media s _ eq_refl) as (e' & -> & Hd & Hm)
    end.
    + cbn [SorveteriaEntity.depoimentos SorveteriaEntity.set_depoimentos].
      apply Forall_app. split; [exact Hav|]. constructor; [simpl; lia|constructor].
    + cbn [SorveteriaEntity.depoimentos SorveteriaEntity.set_depoimentos].
      rewrite length_app. simpl. lia.
    + exists e'. split; [reflexivity|]. split; [exact Hd|]. split; [reflexivity|exact Hm].
  - intros params body d st'.
    unfold sorveteriaUpdateDepoimentoStatus, SorveteriaStore.updateDepoimentoStatus,
      paramsSchema.
    destruct (0 <? params); [|discriminate].
    destruct (parse_StatusModeracao body) as [status|]; [|discriminate].
    rewrite He.
    destruct (findIndex _ _) as [i|] eqn:Hi; [|discriminate].
    cbv zeta.
    destruct (nth_error _ i) as [d'|] eqn:Hnth; [|discriminate].
    intros [= <- <-].
    match goal with
    | |- context [SorveteriaStore.recalcularAvaliacaoMedia ?s] =>
        destruct (recalcularAvaliacaoMedia_media s _ eq_refl) as (e' & -> & Hd & Hm)
    end.
    + cbn [SorveteriaEntity.depoimentos SorveteriaEntity.set_depoimentos].
      apply Forall_update_at; [|exact Hav]. intros x Hx. exact Hx.
    + cbn [SorveteriaEntity.depoimentos SorveteriaEntity.set_depoimentos].
      rewrite length_update_at. lia.
    + cbn [SorveteriaEntity.depoimentos SorveteriaEntity.set_depoimentos] in Hd.
      exists e', i, status. rewrite Hd.
      split; [reflexivity|]. split; [reflexivity|]. split; [reflexivity|].
      split; [exact Hnth|]. split; [|split; [|exact Hm]].
      * destruct (findIndex_Some _ _ _ Hi) as (x & Hx & Hid).
        apply Z.eqb_eq in Hid. clear - Hx Hid Hnth.
        revert i Hx Hnth. induction (SorveteriaEntity.depoimentos e) as [|y l IH];
          intros i Hx Hnth; destruct i; simpl in *; try discriminate.
        -- injection Hx as ->. injection Hnth as <-. exact Hid.
        -- eapply IH; eassumption.
      * apply map_update_at. reflexivity.
Qed.

(** * Worked examples, counterexamples and instances *)

Lemma reachable_sample_run (rs : list Request) :
  reachable Sample.isUrl Sample.anoAtual (Sample.run rs).
Proof. apply reachable_run. constructor. Qed.

(** The examples of the specification *)

Example status_at_15h_and_23h :
  option_map SorveteriaEntity.statusFuncionamento
    (SorveteriaStore.sorveteria
       (SorveteriaStore.updateStatusFuncionamento (Sample.segunda_as 15 0) Sample.criada))
  = Some aberto /\
  option_map SorveteriaEntity.statusFuncionamento
    (SorveteriaStore.sorveteria
       (SorveteriaStore.updateStatusFuncionamento (Sample.segunda_as 23 0) Sample.criada))
  = Some fechado.
Proof. split; vm_compute; reflexivity. Qed.

Example average_of_5_and_3 :
  option_map (fun e => (SorveteriaEntity.avaliacaoMedia e, SorveteriaEntity.totalAvaliacoes e))
    (SorveteriaStore.sorveteria Sample.dois_aprovados)
  = Some (Some (Number.Tenths 40), 2) /\
  option_map (fun e => (SorveteriaEntity.avaliacaoMedia e, SorveteriaEntity.totalAvaliacoes e))
    (SorveteriaStore.sorveteria
       (run Sample.isUrl Sample.anoAtual
          [AddDepoimento (Sample.segunda_as 9 2) (Sample.depoimento 4);
           UpdateDepoimentoStatus 3 "aprovado"] Sample.dois_aprovados))
  = Some (Some (Number.Tenths 40), 3) /\
  option_map (fun e => (SorveteriaEntity.avaliacaoMedia e, SorveteriaEntity.totalAvaliacoes e,
                        List.length (SorveteriaEntity.depoimentos e)))
    (SorveteriaStore.sorveteria
       (run Sample.isUrl Sample.anoAtual
          [UpdateDepoimentoStatus 2 "rejeitado"] Sample.dois_aprovados))
  = Some (Some (Number.Tenths 50), 1, 2%nat).
Proof. repeat split; vm_compute; reflexivity. Qed.

(** A tie: seventeen ratings of 1 and three of 2 have the average 1.15; the
    double nearest to 1.15 is below it, and the stored average is 1.1. *)
Example average_tie_23_over_20 :
  Number.toFixed1 (Number.div (Number.of_Z 23) (Number.of_Z 20)) = Number.Tenths 11 /\
  Number.toFixed1 (Number.div (Number.of_Z 9) (Number.of_Z 4)) = Number.Tenths 23.
Proof. split; vm_compute; reflexivity. Qed.

Example sweep_keeps_today :
  let st :=
    Sample.run [Sample.criar (Sample.semana "10:00" "22:00") None;
                AddPromocao (Sample.segunda_as 9 0) (Sample.promocao "2024-05-06" 1);
                AddPromocao (Sample.segunda_as 9 1) (Sample.promocao "2024-05-05" 2)] in
  let r := sorveteriaRemovePromocoesVencidas (Sample.segunda_as 12 0) (Sample.segunda_as 12 0) st in
  fst r = 1 /\
  option_map (fun e => map Promocao.dataValidade (SorveteriaEntity.promocoesAtivas e))
    (SorveteriaStore.sorveteria (snd r)) = Some ["2024-05-06"] /\
  fst (sorveteriaRemovePromocoesVencidas (Sample.segunda_as 12 1) (Sample.segunda_as 12 1)
         (snd r)) = 0.
Proof. repeat split; vm_compute; reflexivity. Qed.

(** C1, counterexample: a special-hours entry dated today, not closed and
    without times; the weekly table says 10:00 to 22:00; at 15:00 the
    recompute yields [aberto], where the entry alone would give [fechado]. *)
Lemma special_entry_without_times_counterexample :
  special_today (Sample.segunda_as 15 0) (Sample.registro Sample.com_feriado)
    = Some Sample.feriado /\
  special_status_as_specified (SorveteriaStore.horaAtual (Sample.segunda_as 15 0))
    Sample.feriado = fechado /\
  option_map SorveteriaEntity.statusFuncionamento
    (SorveteriaStore.sorveteria
       (SorveteriaStore.updateStatusFuncionamento (Sample.segunda_as 15 0)
          Sample.com_feriado)) = Some aberto.
Proof. repeat split; vm_compute; reflexivity. Qed.

(** C2: the weekly-hours schema accepts "9:00", four characters long; with
    the hours 9:00 to 18:00 stored, the recompute at 10:30 yields [fechado],
    because "10:30" is below "9:00" in the order of strings; with "09:00" it
    yields [aberto]. *)
Theorem horarioDiaSchema_accepts_unpadded_hour :
  horarioDiaSchema (Sample.dia "9:00" "18:00") = true /\
  String.length "9:00" = 4%nat /\
  createSchema Sample.isUrl Sample.anoAtual
    (Sample.body (Sample.semana "9:00" "18:00") None) = true /\
  option_map (fun e => HorarioSemana.get (SorveteriaEntity.horariosSemana e) Segunda)
    (SorveteriaStore.sorveteria Sample.das_9_as_18) = Some (Sample.dia "9:00" "18:00") /\
  SorveteriaStore.horaAtual (Sample.segunda_as 10 30) = "10:30" /\
  Js.ge "10:30" "9:00" = false /\
  snd (sorveteriaUpdateStatus (Sample.segunda_as 10 30) Sample.das_9_as_18)
    = SorveteriaStore.with_sorveteria
        (SorveteriaEntity.set_statusFuncionamento fechado
           (Sample.registro Sample.das_9_as_18)) Sample.das_9_as_18 /\
  option_map SorveteriaEntity.statusFuncionamento
    (SorveteriaStore.sorveteria
       (snd (sorveteriaUpdateStatus (Sample.segunda_as 10 30)
               (Sample.run [Sample.criar (Sample.semana "09:00" "18:00") None]))))
    = Some aberto.
Proof. repeat split; vm_compute; reflexivity. Qed.

(** C5, counterexample: three promotions are active and one of them has
    priority 1; a valid add with priority 1 fails LIMIT_EXCEEDED, not
    PRIORITY_CONFLICT. *)
Lemma priority_conflict_when_full_counterexample :
  option_map (fun e => (List.length (SorveteriaEntity.promocoesAtivas e),
                        some (fun p => Promocao.prioridade p =? 1)
                          (SorveteriaEntity.promocoesAtivas e)))
    (SorveteriaStore.sorveteria Sample.tres_promocoes) = Some (3%nat, true) /\
  option_map PromocaoInput.prioridade
    (promocaoCreateSchema (Sample.promocao "2024-12-31" 1)) = Some 1 /\
  sorveteriaAddPromocao (Sample.segunda_as 9 3) (Sample.promocao "2024-12-31" 1)
    Sample.tres_promocoes
  = (Err (ServiceError.mk LIMIT_EXCEEDED "Maximum of 3 active promotions allowed" 400),
     Sample.tres_promocoes).
Proof. repeat split; vm_compute; reflexivity. Qed.

(** C10, counterexample: the status recompute is a mutating operation that
    does not refresh the timestamp: the record created at 08:00 is closed;
    the recompute at 15:00 makes it open and leaves the timestamp of 08:00. *)
Lemma status_recompute_keeps_dateModified_counterexample :
  option_map SorveteriaEntity.statusFuncionamento
    (SorveteriaStore.sorveteria Sample.criada) = Some fechado /\
  option_map SorveteriaEntity.statusFuncionamento
    (SorveteriaStore.sorveteria
       (snd (sorveteriaUpdateStatus (Sample.segunda_as 15 0) Sample.criada)))
    = Some aberto /\
  dateModified_of (snd (sorveteriaUpdateStatus (Sample.segunda_as 15 0) Sample.criada))
    = Some "2024-05-06T11:00:00.000Z" /\
  Date.toISOString (Sample.segunda_as 15 0) = "2024-05-06T18:00:00.000Z".
Proof. repeat split; vm_compute; reflexivity. Qed.

(** Instances of the theorems at the sample states *)

Lemma updateStatusFuncionamento_aberto_or_fechado_witness :
  let st := SorveteriaStore.updateStatusFuncionamento (Sample.segunda_as 15 0) Sample.criada in
  SorveteriaStore.sorveteria st = Some (Sample.registro st) /\
  (SorveteriaEntity.statusFuncionamento (Sample.registro st) = aberto \/
   SorveteriaEntity.statusFuncionamento (Sample.registro st) = fechado).
Proof.
  intros st.
  assert (H : SorveteriaStore.sorveteria st = Some (Sample.registro st))
    by (vm_compute; reflexivity).
  split; [exact H|].
  exact (updateStatusFuncionamento_aberto_or_fechado _ _ _ H).
Defined.

Lemma updateStatusFuncionamento_special_entry_witness :
  SorveteriaStore.sorveteria Sample.com_feriado = Some (Sample.registro Sample.com_feriado) /\
  special_today (Sample.segunda_as 15 0) (Sample.registro Sample.com_feriado)
    = Some Sample.feriado /\
  SorveteriaStore.updateStatusFuncionamento (Sample.segunda_as 15 0) Sample.com_feriado =
  SorveteriaStore.with_sorveteria
    (SorveteriaEntity.set_statusFuncionamento
       (weekly_status "15:00" (Sample.dia "10:00" "22:00"))
       (Sample.registro Sample.com_feriado)) Sample.com_feriado.
Proof.
  assert (H1 : SorveteriaStore.sorveteria Sample.com_feriado
               = Some (Sample.registro Sample.com_feriado)) by (vm_compute; reflexivity).
  assert (H2 : special_today (Sample.segunda_as 15 0) (Sample.registro Sample.com_feriado)
               = Some Sample.feriado) by (vm_compute; reflexivity).
  split; [exact H1|]. split; [exact H2|].
  exact (updateStatusFuncionamento_special_entry _ _ _ _ H1 H2).
Defined.

Lemma avaliacaoMedia_after_recompute_witness :
  let st := Sample.dois_aprovados in
  let r := sorveteriaAddDepoimento (Sample.segunda_as 9 2) (Sample.depoimento 4) st in
  reachable Sample.isUrl Sample.anoAtual st /\
  SorveteriaStore.sorveteria st = Some (Sample.registro st) /\
  Z.of_nat (List.length (SorveteriaEntity.depoimentos (Sample.registro st))) + 1 < 2 ^ 32 /\
  exists e',
    SorveteriaStore.sorveteria (snd r) = Some e' /\ media_recomputed e'.
Proof.
  intros st r.
  assert (H1 : reachable Sample.isUrl Sample.anoAtual st) by apply reachable_sample_run.
  assert (H2 : SorveteriaStore.sorveteria st = Some (Sample.registro st))
    by (vm_compute; reflexivity).
  assert (H3 : Z.of_nat (List.length (SorveteriaEntity.depoimentos (Sample.registro st))) + 1
               < 2 ^ 32) by (vm_compute; reflexivity).
  split; [exact H1|]. split; [exact H2|]. split; [exact H3|].
  destruct (avaliacaoMedia_after_recompute _ _ _ _ H1 H2 H3) as [Hadd _].
  destruct (Hadd (Sample.segunda_as 9 2) (Sample.depoimento 4)
              (match fst r with Ok d => d | Err _ => Depoimento.mk 0 "" "" 0 PENDENTE "" end)
              (snd r)) as (e' & He' & _ & _ & Hm).
  - vm_compute. reflexivity.
  - exists e'. split; assumption.
Defined.

Lemma sorveteriaAddPromocao_limits_witness :
  let st := Sample.tres_promocoes in
  reachable Sample.isUrl Sample.anoAtual st /\
  SorveteriaStore.sorveteria st = Some (Sample.registro st) /\
  (List.length (SorveteriaEntity.promocoesAtivas (Sample.registro st)) <= 3)%nat /\
  (count_prioridade1 (SorveteriaEntity.promocoesAtivas (Sample.registro st)) <= 1)%nat /\
  exists err,
    sorveteriaAddPromocao (Sample.segunda_as 9 3) (Sample.promocao "2024-12-31" 2) st
      = (Err err, st) /\
    ServiceError.code err = LIMIT_EXCEEDED.
Proof.
  intros st.
  assert (H1 : reachable Sample.isUrl Sample.anoAtual st) by apply reachable_sample_run.
  assert (H2 : SorveteriaStore.sorveteria st = Some (Sample.registro st))
    by (vm_compute; reflexivity).
  split; [exact H1|]. split; [exact H2|].
  destruct (sorveteriaAddPromocao_limits _ _ _ _ H1 H2) as (Hl & Hc & Hadd).
  split; [exact Hl|]. split; [exact Hc|].
  destruct (Hadd (Sample.segunda_as 9 3) (Sample.promocao "2024-12-31" 2)
              (PromocaoInput.mk "Casquinha em dobro" "Na compra de uma, leve duas"
                 "2024-12-31" 2 COMBO)) as [Hfull _].
  - vm_compute. reflexivity.
  - apply Hfull. vm_compute. apply le_n.
Defined.

Lemma sorveteriaCreateOrUpdate_keywords_witness :
  createSchema Sample.isUrl Sample.anoAtual Sample.body_sem_origem = true /\
  sorveteriaCreateOrUpdate Sample.isUrl Sample.anoAtual
    (Sample.segunda_as 8 0) (Sample.segunda_as 8 0) Sample.body_sem_origem
    SorveteriaStore.empty
  = (Err (ServiceError.mk VALIDATION_ERROR (Historia ++ " deve incluir: origem") 400),
     SorveteriaStore.empty).
Proof.
  assert (H : createSchema Sample.isUrl Sample.anoAtual Sample.body_sem_origem = true)
    by (vm_compute; reflexivity).
  split; [exact H|].
  destruct (sorveteriaCreateOrUpdate_keywords Sample.isUrl Sample.anoAtual
              (Sample.segunda_as 8 0) (Sample.segunda_as 8 0) Sample.body_sem_origem
              SorveteriaStore.empty H) as [Hh _].
  destruct Hh as [Hr _].
  - vm_compute. intros H0. discriminate H0.
  - exact Hr.
Defined.

Lemma sorveteriaAddFoto_limit_witness :
  let st := Sample.doze_fotos in
  reachable Sample.isUrl Sample.anoAtual st /\
  SorveteriaStore.sorveteria st = Some (Sample.registro st) /\
  fotoCreateSchema Sample.isUrl Sample.foto
    = Some (FotoInput.mk "https://tommasi.example/balcao.jpg" None BALCAO) /\
  (exists err,
     fst (sorveteriaAddFoto Sample.isUrl (Sample.segunda_as 9 5) Sample.foto st) = Err err /\
     ServiceError.code err = LIMIT_EXCEEDED) /\
  (exists foto st'',
     sorveteriaAddFoto Sample.isUrl (Sample.segunda_as 9 5) Sample.foto
       (snd (sorveteriaRemoveFoto (Sample.segunda_as 9 4) 5 st)) = (Ok foto, st'')).
Proof.
  intros st.
  assert (H1 : reachable Sample.isUrl Sample.anoAtual st) by apply reachable_sample_run.
  assert (H2 : SorveteriaStore.sorveteria st = Some (Sample.registro st))
    by (vm_compute; reflexivity).
  assert (H3 : fotoCreateSchema Sample.isUrl Sample.foto
               = Some (FotoInput.mk "https://tommasi.example/balcao.jpg" None BALCAO))
    by (vm_compute; reflexivity).
  split; [exact H1|]. split; [exact H2|]. split; [exact H3|].
  destruct (sorveteriaAddFoto_limit _ _ _ _ (Sample.segunda_as 9 5) _ _ H1 H2 H3)
    as (Hiff & _ & Hrm).
  split.
  - apply Hiff. vm_compute. apply le_n.
  - apply (Hrm (Sample.segunda_as 9 4) 5 "Photo removed successfully").
    vm_compute. reflexivity.
Defined.

Lemma foto_ordem_gap_policy_witness :
  let st := Sample.criada in
  let r := sorveteriaAddFoto Sample.isUrl (Sample.segunda_as 9 0) Sample.foto st in
  SorveteriaStore.sorveteria st = Some (Sample.registro st) /\
  option_map FotoAmbiente.ordem
    (match fst r with Ok foto => Some foto | Err _ => None end) = Some 1.
Proof.
  intros st r.
  assert (H : SorveteriaStore.sorveteria st = Some (Sample.registro st))
    by (vm_compute; reflexivity).
  split; [exact H|].
  destruct (foto_ordem_gap_policy Sample.isUrl _ _ H) as (Hadd & _ & _).
  destruct r as [[foto|err] st'] eqn:Hr.
  - destruct (Hadd _ _ _ _ Hr) as [Ho _]. cbn [fst option_map]. rewrite Ho.
    vm_compute. reflexivity.
  - vm_compute in Hr. discriminate Hr.
Defined.

Lemma depoimento_operations_frame_witness :
  let st := Sample.criada in
  SorveteriaStore.sorveteria st = Some (Sample.registro st) /\
  (exists e',
     SorveteriaStore.sorveteria
       (snd (sorveteriaAddDepoimento (Sample.segunda_as 9 0) (Sample.depoimento 5) st))
       = Some e' /\
     same_outside_depoimentos (Sample.registro st) e') /\
  dateModified_of (SorveteriaStore.updateStatusFuncionamento (Sample.segunda_as 15 0) st)
    = Some "2024-05-06T11:00:00.000Z".
Proof.
  intros st.
  assert (H : SorveteriaStore.sorveteria st = Some (Sample.registro st))
    by (vm_compute; reflexivity).
  split; [exact H|].
  destruct (depoimento_operations_frame _ _ H) as (Hadd & _ & Hst & _).
  split; [apply Hadd|]. exact (Hst (Sample.segunda_as 15 0)).
Defined.

(** * Further properties *)

(** ** Identifiers grow along the lists *)

Section KeysBetween.
Context {A : Type} (key : A -> Z).

Lemma keys_between_le (lo hi : Z) (l : list A) :
  keys_between key lo l hi -> lo <= hi.
Proof.
  revert lo. induction l as [|x l IH]; simpl; intros lo H; [exact H|].
  destruct H as [H1 H2]. apply IH in H2. lia.
Qed.

Lemma keys_between_weaken (lo lo' hi hi' : Z) (l : list A) :
  keys_between key lo l hi -> lo' <= lo -> hi <= hi' -> keys_between key lo' l hi'.
Proof.
  revert lo lo'. induction l as [|x l IH]; simpl; intros lo lo' H Hlo Hhi; [lia|].
  destruct H as [H1 H2]. split; [lia|]. apply (IH (key x)); [assumption|lia|assumption].
Qed.

Lemma keys_between_app (lo hi : Z) (l : list A) (x : A) :
  keys_between key lo l hi -> hi < key x ->
  keys_between key lo (l ++ [x]) (key x).
Proof.
  revert lo. induction l as [|y l IH]; simpl; intros lo H Hx.
  - split; lia.
  - destruct H as [H1 H2]. split; [assumption|]. now apply IH.
Qed.

Lemma keys_between_filter (p : A -> bool) (lo hi : Z) (l : list A) :
  keys_between key lo l hi -> keys_between key lo (filter p l) hi.
Proof.
  revert lo. induction l as [|x l IH]; simpl; intros lo H; [exact H|].
  destruct H as [H1 H2]. destruct (p x); simpl.
  - split; [assumption|]. now apply IH.
  - apply IH. apply (keys_between_weaken (key x) lo hi hi l H2); lia.
Qed.

Lemma keys_between_update_at (f : A -> A) (i : nat) (lo hi : Z) (l : list A) :
  (forall x, key (f x) = key x) ->
  keys_between key lo l hi -> keys_between key lo (update_at i f l) hi.
Proof.
  intros Hf. revert i lo. induction l as [|x l IH]; intros i lo H; destruct i; simpl in *;
    try exact H; rewrite ?Hf; destruct H as [H1 H2]; split; auto.
Qed.

(** Every key after the head is above the head: keys are pairwise distinct *)
Lemma keys_between_In (lo hi : Z) (l : list A) (x : A) :
  keys_between key lo l hi -> In x l -> lo < key x <= hi.
Proof.
  revert lo. induction l as [|y l IH]; simpl; intros lo H Hin; [contradiction|].
  destruct H as [H1 H2]. destruct Hin as [->|Hin].
  - apply keys_between_le in H2. lia.
  - destruct (IH _ H2 Hin). lia.
Qed.

Lemma keys_between_filter_above (k lo hi : Z) (l : list A) :
  keys_between key lo l hi -> k <= lo ->
  filter (fun x => negb (key x =? k)) l = l.
Proof.
  revert lo. induction l as [|x l IH]; simpl; intros lo H Hk; [reflexivity|].
  destruct H as [H1 H2]. destruct (Z.eqb_spec (key x) k); [lia|]. simpl.
  f_equal. apply (IH (key x)); [assumption|lia].
Qed.

Lemma keys_between_map_above (f : A -> A) (k lo hi : Z) (l : list A) :
  keys_between key lo l hi -> k <= lo ->
  map (fun x => if key x =? k then f x else x) l = l.
Proof.
  revert lo. induction l as [|x l IH]; simpl; intros lo H Hk; [reflexivity|].
  destruct H as [H1 H2]. destruct (Z.eqb_spec (key x) k); [lia|].
  f_equal. apply (IH (key x)); [assumption|lia].
Qed.

(** Removing the first element with a given key is removing every element
    with that key *)
Lemma keys_between_splice1 (k : Z) (i : nat) (lo hi : Z) (l : list A) :
  keys_between key lo l hi ->
  findIndex (fun x => key x =? k) l = Some i ->
  splice1 i l = filter (fun x => negb (key x =? k)) l.
Proof.
  revert i lo. induction l as [|x l IH]; simpl; intros i lo H Hi; [discriminate|].
  destruct H as [H1 H2]. destruct (key x =? k) eqn:Hk; simpl.
  - injection Hi as <-. unfold splice1. simpl.
    apply Z.eqb_eq in Hk. symmetry.
    apply (keys_between_filter_above k (key x) hi); [assumption|lia].
  - destruct (findIndex _ l) as [j|] eqn:Hj; [|discriminate].
    injection Hi as <-. unfold splice1 in *. simpl. f_equal.
    apply (IH j (key x)); [assumption|reflexivity].
Qed.

(** Updating the first element with a given key is updating every element
    with that key *)
Lemma keys_between_update_at_map (f : A -> A) (k : Z) (i : nat) (lo hi : Z) (l : list A) :
  keys_between key lo l hi ->
  findIndex (fun x => key x =? k) l = Some i ->
  update_at i f l = map (fun x => if key x =? k then f x else x) l.
Proof.
  revert i lo. induction l as [|x l IH]; simpl; intros i lo H Hi; [discriminate|].
  destruct H as [H1 H2]. destruct (key x =? k) eqn:Hk; simpl.
  - injection Hi as <-. simpl. f_equal.
    apply Z.eqb_eq in Hk. symmetry.
    apply (keys_between_map_above f k (key x) hi); [assumption|lia].
  - destruct (findIndex _ l) as [j|] eqn:Hj; [|discriminate].
    injection Hi as <-. simpl. f_equal.
    apply (IH j (key x)); [assumption|reflexivity].
Qed.

End KeysBetween.

(** ** The second invariant *)

Lemma recalcularAvaliacaoMedia_eq (st : SorveteriaStore.t) (e : SorveteriaEntity.t) :
  SorveteriaStore.sorveteria st = Some e ->
  SorveteriaStore.recalcularAvaliacaoMedia st =
  SorveteriaStore.with_sorveteria
    (SorveteriaEntity.set_totalAvaliacoes
       (Z.of_nat (List.length (aprovados (SorveteriaEntity.depoimentos e))))
       (SorveteriaEntity.set_avaliacaoMedia
          (media_of (SorveteriaEntity.depoimentos e)) e)) st.
Proof.
  intros He. unfold SorveteriaStore.recalcularAvaliacaoMedia, media_of. rewrite He.
  fold (aprovados (SorveteriaEntity.depoimentos e)).
  destruct (aprovados (SorveteriaEntity.depoimentos e)) as [|d ap]; [reflexivity|].
  change (List.length (d :: ap) =? 0)%nat with false. cbv iota zeta.
  now rewrite fold_left_soma, Z.add_0_l.
Qed.

Lemma aprovados_app_pendente (l : list Depoimento.t) (d : Depoimento.t) :
  Depoimento.statusModeracao d = PENDENTE -> aprovados (l ++ [d]) = aprovados l.
Proof.
  intros Hd. unfold aprovados. rewrite filter_app. simpl. rewrite Hd. simpl.
  apply app_nil_r.
Qed.

Lemma id_invariant_updateStatusFuncionamento (agora : Date.t) (st : SorveteriaStore.t) :
  id_invariant st -> id_invariant (SorveteriaStore.updateStatusFuncionamento agora st).
Proof.
  intros H. destruct (SorveteriaStore.sorveteria st) as [e|] eqn:He.
  - destruct (updateStatusFuncionamento_shape agora st e He) as (v & _ & ->).
    unfold id_invariant in *. rewrite He in H. exact H.
  - now rewrite (updateStatusFuncionamento_none agora st He).
Qed.

Section IdInvariant.

Variable isUrl : string -> bool.
Variable anoAtual : Z.

Lemma id_invariant_handle (r : Request) (st : SorveteriaStore.t) :
  id_invariant st -> id_invariant (handle isUrl anoAtual r st).
Proof.
  intros Hst. destruct r; cbn [handle].
  - (* get *)
    unfold sorveteriaGet, SorveteriaStore.get.
    pose proof (id_invariant_updateStatusFuncionamento agora st Hst).
    repeat break_match; assumption.
  - (* create or update *)
    unfold sorveteriaCreateOrUpdate. cbv zeta.
    destruct (negb _); [assumption|].
    destruct (0 <? _)%nat; [assumption|].
    destruct (0 <? _)%nat; [assumption|].
    unfold SorveteriaStore.set. cbv beta iota.
    match goal with
    | |- context [SorveteriaStore.updateStatusFuncionamento ?t ?s] =>
        assert (H : id_invariant (SorveteriaStore.updateStatusFuncionamento t s));
        [ apply id_invariant_updateStatusFuncionamento
        | destruct (SorveteriaStore.get (SorveteriaStore.updateStatusFuncionamento t s));
          exact H ]
    end.
    unfold id_invariant in *. destruct Hst as (H1 & H2 & H3 & H4).
    destruct (SorveteriaStore.sorveteria st) as [old|]; simpl;
      repeat split; try assumption; try reflexivity; try apply Forall_nil; tauto.
  - (* update *)
    unfold sorveteriaUpdate, SorveteriaStore.get, SorveteriaStore.update.
    destruct (negb _); [assumption|].
    destruct (SorveteriaStore.sorveteria st) as [e|] eqn:He; [|assumption].
    cbv beta iota zeta.
    match goal with
    | |- context [SorveteriaStore.updateStatusFuncionamento ?t ?s] =>
        assert (H : id_invariant (SorveteriaStore.updateStatusFuncionamento t s));
        [ apply id_invariant_updateStatusFuncionamento
        | destruct (SorveteriaStore.sorveteria
                      (SorveteriaStore.updateStatusFuncionamento t s)); exact H ]
    end.
    unfold id_invariant in *. rewrite He in Hst. simpl. exact Hst.
  - (* add photo *)
    unfold sorveteriaAddFoto, SorveteriaStore.get, SorveteriaStore.addFoto.
    destruct (fotoCreateSchema isUrl body); [|exact Hst].
    destruct (SorveteriaStore.sorveteria st) as [e|] eqn:He; [|exact Hst].
    destruct (_ <=? _)%nat; [exact Hst|].
    unfold id_invariant in *. rewrite He in Hst. simpl.
    destruct Hst as (H1 & H2 & H3 & Hid & Hf & Hd & Hp & Hm & Ht & Hval).
    repeat split; try assumption; try lia.
    match goal with
    | |- keys_between _ _ (_ ++ [?x]) _ =>
        apply (keys_between_app FotoAmbiente.id 0 _ _ x Hf); simpl; lia
    end.
  - (* remove photo *)
    unfold sorveteriaRemoveFoto, SorveteriaStore.removeFoto.
    destruct (paramsSchema params); [|exact Hst].
    destruct (SorveteriaStore.sorveteria st) as [e|] eqn:He; [|exact Hst].
    destruct (findIndex _ _) as [i|] eqn:Hi; [|exact Hst].
    unfold id_invariant in *. rewrite He in Hst. simpl.
    destruct Hst as (H1 & H2 & H3 & Hid & Hf & Hd & Hp & Hm & Ht & Hval).
    repeat split; try assumption.
    rewrite (keys_between_splice1 FotoAmbiente.id _ _ _ _ _ Hf Hi).
    now apply keys_between_filter.
  - (* add testimonial *)
    unfold sorveteriaAddDepoimento, SorveteriaStore.addDepoimento.
    destruct (depoimentoCreateSchema body) as [data|]; [|exact Hst].
    destruct (SorveteriaStore.sorveteria st) as [e|] eqn:He; [|exact Hst].
    cbv zeta. cbn [snd].
    match goal with
    | |- context [SorveteriaStore.recalcularAvaliacaoMedia ?s] =>
        rewrite (recalcularAvaliacaoMedia_eq s _ eq_refl)
    end.
    unfold id_invariant in *. rewrite He in Hst. simpl.
    destruct Hst as (H1 & H2 & H3 & Hid & Hf & Hd & Hp & Hm & Ht & Hval).
    repeat split; try assumption; try lia.
    match goal with
    | |- keys_between _ _ (_ ++ [?x]) _ =>
        apply (keys_between_app Depoimento.id 0 _ _ x Hd); simpl; lia
    end.
  - (* update testimonial status *)
    unfold sorveteriaUpdateDepoimentoStatus, SorveteriaStore.updateDepoimentoStatus.
    destruct (paramsSchema params); [|exact Hst].
    destruct (parse_StatusModeracao body) as [status|]; [|exact Hst].
    destruct (SorveteriaStore.sorveteria st) as [e|] eqn:He; [|exact Hst].
    destruct (findIndex _ _) as [i|] eqn:Hi; [|exact Hst].
    cbv zeta.
    match goal with
    | |- context [SorveteriaStore.recalcularAvaliacaoMedia ?s] =>
        rewrite (recalcularAvaliacaoMedia_eq s _ eq_refl)
    end.
    unfold id_invariant in *. rewrite He in Hst.
    destruct Hst as (H1 & H2 & H3 & Hid & Hf & Hd & Hp & Hm & Ht & Hval).
    destruct (nth_error _ i); simpl; repeat split; try assumption.
    all: apply keys_between_update_at; [reflexivity|assumption].
  - (* add promotion *)
    unfold sorveteriaAddPromocao, SorveteriaStore.get, SorveteriaStore.addPromocao.
    destruct (promocaoCreateSchema body) as [data|] eqn:Hv; [|exact Hst].
    destruct (SorveteriaStore.sorveteria st) as [e|] eqn:He; [|exact Hst].
    destruct (_ <=? _)%nat; [exact Hst|].
    destruct (_ && _); [exact Hst|].
    unfold id_invariant in *. rewrite He in Hst. simpl.
    destruct Hst as (H1 & H2 & H3 & Hid & Hf & Hd & Hp & Hm & Ht & Hval).
    repeat split; try assumption; try lia.
    + match goal with
      | |- keys_between _ _ (_ ++ [?x]) _ =>
          apply (keys_between_app Promocao.id 0 _ _ x Hp); simpl; lia
      end.
    + apply Forall_app. split; [assumption|]. constructor; [|constructor].
      unfold promocaoCreateSchema in Hv.
      destruct (_ && _) eqn:Hc in Hv; [|discriminate].
      destruct (parse_TipoPromocao _); [|discriminate].
      injection Hv as <-. repeat rewrite andb_true_iff in Hc.
      destruct Hc as [[[_ Hdt] Hlo] Hhi]. apply Z.leb_le in Hlo, Hhi.
      unfold promocao_valida. simpl. repeat split; assumption.
  - (* expiry sweep *)
    unfold sorveteriaRemovePromocoesVencidas, SorveteriaStore.removePromocoesVencidas.
    destruct (SorveteriaStore.sorveteria st) as [e|] eqn:He; [|exact Hst].
    cbv zeta. unfold id_invariant in *. rewrite He in Hst.
    destruct Hst as (H1 & H2 & H3 & Hid & Hf & Hd & Hp & Hm & Ht & Hval).
    destruct (_ >? _); simpl; repeat split; try assumption.
    all: try (now apply keys_between_filter).
    all: apply Forall_forall; intros p Hin; apply filter_In in Hin;
      rewrite Forall_forall in Hval; apply Hval; tauto.
  - (* status recompute *)
    now apply id_invariant_updateStatusFuncionamento.
Qed.

Lemma reachable_id_invariant (st : SorveteriaStore.t) :
  reachable isUrl anoAtual st -> id_invariant st.
Proof.
  induction 1 as [|r st _ IH].
  - unfold id_invariant. simpl. repeat split; lia.
  - now apply id_invariant_handle.
Qed.

End IdInvariant.

(** ** Identifiers are unique and never issued twice *)

Lemma keys_between_nth {A : Type} (key : A -> Z) (l : list A) (lo hi : Z) :
  keys_between key lo l hi ->
  forall i j x y, (i < j)%nat -> nth_error l i = Some x -> nth_error l j = Some y ->
                  key x < key y.
Proof.
  revert lo. induction l as [|a l IH]; intros lo H i j x y Hij Hi Hj.
  - destruct i; discriminate.
  - destruct H as [Ha Hl]. destruct j as [|j]; [lia|]. simpl in Hj.
    destruct i as [|i]; simpl in Hi.
    + injection Hi as <-.
      apply nth_error_In in Hj.
      pose proof (keys_between_In key _ _ _ _ Hl Hj). lia.
    + apply (IH _ Hl i j); [lia|assumption|assumption].
Qed.

Lemma keys_between_issued {A : Type} (key : A -> Z) (l : list A) (hi : Z) :
  keys_between key 0 l hi -> issued_in_order key l hi.
Proof.
  intros H. split.
  - exact (keys_between_nth key l 0 hi H).
  - apply Forall_forall. intros x Hx.
    pose proof (keys_between_In key _ _ _ _ H Hx). lia.
Qed.

Lemma findIndex_None {A : Type} (p : A -> bool) (l : list A) :
  findIndex p l = None <-> forall x, In x l -> p x = false.
Proof.
  induction l as [|a l IH]; simpl.
  - split; [intros _ x []|reflexivity].
  - destruct (p a) eqn:Ha.
    + split; [discriminate|]. intros H. rewrite (H a) in Ha; [discriminate|now left].
    + destruct (findIndex p l); simpl.
      * split; [discriminate|]. intros H.
        destruct IH as [_ IH]. discriminate IH. intros x Hx. apply H. now right.
      * split; [|reflexivity]. intros _ x [<-|Hx]; [assumption|].
        now apply IH.
Qed.

Lemma nth_error_update_at {A : Type} (f : A -> A) (l : list A) (i : nat) (x : A) :
  nth_error l i = Some x -> nth_error (update_at i f l) i = Some (f x).
Proof.
  revert i. induction l as [|a l IH]; intros i H; destruct i; simpl in *;
    try discriminate.
  - now injection H as <-.
  - now apply IH.
Qed.

Section Ids.

Variable isUrl : string -> bool.
Variable anoAtual : Z.

(** X1: in every state the service can reach the record has identifier 1,
    and along each of the three lists (photos, testimonials, promotions) the
    identifiers grow strictly, so no two entries share one; each lies
    between 1 and the counter that issued it. *)
Theorem reachable_ids_issued_in_order (st : SorveteriaStore.t) (e : SorveteriaEntity.t) :
  reachable isUrl anoAtual st ->
  SorveteriaStore.sorveteria st = Some e ->
  SorveteriaEntity.id e = 1 /\
  issued_in_order FotoAmbiente.id (SorveteriaEntity.fotosAmbiente e)
    (SorveteriaStore.fotosCounter st) /\
  issued_in_order Depoimento.id (SorveteriaEntity.depoimentos e)
    (SorveteriaStore.depoimentosCounter st) /\
  issued_in_order Promocao.id (SorveteriaEntity.promocoesAtivas e)
    (SorveteriaStore.promocoesCounter st).
Proof.
  intros Hr He. pose proof (reachable_id_invariant isUrl anoAtual st Hr) as H.
  unfold id_invariant in H. rewrite He in H.
  destruct H as (_ & _ & _ & Hid & Hf & Hd & Hp & _).
  repeat split; try assumption.
  all: try (eapply keys_between_nth; eassumption).
  all: apply keys_between_issued; assumption.
Qed.

End Ids.

Lemma counters_updateStatusFuncionamento (agora : Date.t) (st : SorveteriaStore.t) :
  SorveteriaStore.fotosCounter (SorveteriaStore.updateStatusFuncionamento agora st)
    = SorveteriaStore.fotosCounter st /\
  SorveteriaStore.depoimentosCounter (SorveteriaStore.updateStatusFuncionamento agora st)
    = SorveteriaStore.depoimentosCounter st /\
  SorveteriaStore.promocoesCounter (SorveteriaStore.updateStatusFuncionamento agora st)
    = SorveteriaStore.promocoesCounter st.
Proof.
  destruct (SorveteriaStore.sorveteria st) as [e|] eqn:He.
  - destruct (updateStatusFuncionamento_shape agora st e He) as (v & _ & ->).
    repeat split.
  - rewrite (updateStatusFuncionamento_none agora st He). repeat split.
Qed.

Lemma counters_recalcularAvaliacaoMedia (st : SorveteriaStore.t) :
  SorveteriaStore.fotosCounter (SorveteriaStore.recalcularAvaliacaoMedia st)
    = SorveteriaStore.fotosCounter st /\
  SorveteriaStore.depoimentosCounter (SorveteriaStore.recalcularAvaliacaoMedia st)
    = SorveteriaStore.depoimentosCounter st /\
  SorveteriaStore.promocoesCounter (SorveteriaStore.recalcularAvaliacaoMedia st)
    = SorveteriaStore.promocoesCounter st.
Proof.
  destruct (SorveteriaStore.sorveteria st) as [e|] eqn:He.
  - rewrite (recalcularAvaliacaoMedia_eq st e He). repeat split.
  - unfold SorveteriaStore.recalcularAvaliacaoMedia. rewrite He. repeat split.
Qed.

Section Counters.

Variable isUrl : string -> bool.
Variable anoAtual : Z.

Lemma counters_handle (r : Request) (st : SorveteriaStore.t) :
  SorveteriaStore.fotosCounter st
    <= SorveteriaStore.fotosCounter (handle isUrl anoAtual r st) /\
  SorveteriaStore.depoimentosCounter st
    <= SorveteriaStore.depoimentosCounter (handle isUrl anoAtual r st) /\
  SorveteriaStore.promocoesCounter st
    <= SorveteriaStore.promocoesCounter (handle isUrl anoAtual r st).
Proof.
  assert (Hrefl : forall s : SorveteriaStore.t,
            SorveteriaStore.fotosCounter s <= SorveteriaStore.fotosCounter s /\
            SorveteriaStore.depoimentosCounter s <= SorveteriaStore.depoimentosCounter s /\
            SorveteriaStore.promocoesCounter s <= SorveteriaStore.promocoesCounter s)
    by (intros s; lia).
  destruct r; cbn [handle].
  - unfold sorveteriaGet, SorveteriaStore.get.
    destruct (counters_updateStatusFuncionamento agora st) as (H1 & H2 & H3).
    destruct (SorveteriaStore.sorveteria st); [|apply Hrefl].
    cbv zeta.
    destruct (SorveteriaStore.sorveteria (SorveteriaStore.updateStatusFuncionamento agora st));
      cbn [snd]; rewrite H1, H2, H3; lia.
  - unfold sorveteriaCreateOrUpdate. cbv zeta.
    destruct (negb _); [apply Hrefl|].
    destruct (0 <? _)%nat; [apply Hrefl|].
    destruct (0 <? _)%nat; [apply Hrefl|].
    unfold SorveteriaStore.set. cbv beta iota zeta.
    match goal with
    | |- context [SorveteriaStore.updateStatusFuncionamento ?t ?s] =>
        destruct (counters_updateStatusFuncionamento t s) as (H1 & H2 & H3);
        destruct (SorveteriaStore.get (SorveteriaStore.updateStatusFuncionamento t s));
        cbn [snd]; rewrite H1, H2, H3; simpl; lia
    end.
  - unfold sorveteriaUpdate, SorveteriaStore.get, SorveteriaStore.update.
    destruct (negb _); [apply Hrefl|].
    destruct (SorveteriaStore.sorveteria st) as [e|] eqn:He; [|apply Hrefl].
    cbv beta iota zeta.
    match goal with
    | |- context [SorveteriaStore.updateStatusFuncionamento ?t ?s] =>
        destruct (counters_updateStatusFuncionamento t s) as (H1 & H2 & H3);
        destruct (SorveteriaStore.sorveteria (SorveteriaStore.updateStatusFuncionamento t s));
        cbn [snd]; rewrite H1, H2, H3; simpl; lia
    end.
  - unfold sorveteriaAddFoto, SorveteriaStore.get, SorveteriaStore.addFoto.
    destruct (fotoCreateSchema isUrl body); [|apply Hrefl].
    destruct (SorveteriaStore.sorveteria st) as [e|] eqn:He; [|apply Hrefl].
    destruct (_ <=? _)%nat; [apply Hrefl|]. simpl. lia.
  - unfold sorveteriaRemoveFoto, SorveteriaStore.removeFoto.
    destruct (paramsSchema params); [|apply Hrefl].
    destruct (SorveteriaStore.sorveteria st) as [e|] eqn:He; [|apply Hrefl].
    destruct (findIndex _ _); [|apply Hrefl]. simpl. lia.
  - unfold sorveteriaAddDepoimento, SorveteriaStore.addDepoimento.
    destruct (depoimentoCreateSchema body); [|apply Hrefl].
    destruct (SorveteriaStore.sorveteria st) as [e|] eqn:He; [|apply Hrefl].
    cbv zeta. cbn [snd].
    match goal with
    | |- context [SorveteriaStore.recalcularAvaliacaoMedia ?s] =>
        destruct (counters_recalcularAvaliacaoMedia s) as (-> & -> & ->)
    end. simpl. lia.
  - unfold sorveteriaUpdateDepoimentoStatus, SorveteriaStore.updateDepoimentoStatus.
    destruct (paramsSchema params); [|apply Hrefl].
    destruct (parse_StatusModeracao body); [|apply Hrefl].
    destruct (SorveteriaStore.sorveteria st) as [e|] eqn:He; [|apply Hrefl].
    destruct (findIndex _ _) as [i|]; [|apply Hrefl].
    cbv zeta.
    match goal with
    | |- context [SorveteriaStore.recalcularAvaliacaoMedia ?s] =>
        destruct (counters_recalcularAvaliacaoMedia s) as (H1 & H2 & H3)
    end.
    destruct (nth_error _ i); cbn [snd]; rewrite H1, H2, H3; simpl; lia.
  - unfold sorveteriaAddPromocao, SorveteriaStore.get, SorveteriaStore.addPromocao.
    destruct (promocaoCreateSchema body); [|apply Hrefl].
    destruct (SorveteriaStore.sorveteria st) as [e|] eqn:He; [|apply Hrefl].
    destruct (_ <=? _)%nat; [apply Hrefl|].
    destruct (_ && _); [apply Hrefl|]. simpl. lia.
  - unfold sorveteriaRemovePromocoesVencidas, SorveteriaStore.removePromocoesVencidas.
    destruct (SorveteriaStore.sorveteria st) as [e|] eqn:He; [|apply Hrefl].
    simpl. lia.
  - unfold sorveteriaUpdateStatus. cbv zeta. cbn [snd].
    destruct (counters_updateStatusFuncionamento agora st) as (-> & -> & ->). lia.
Qed.

Lemma counters_run (rs : list Request) (st : SorveteriaStore.t) :
  SorveteriaStore.fotosCounter st
    <= SorveteriaStore.fotosCounter (run isUrl anoAtual rs st) /\
  SorveteriaStore.depoimentosCounter st
    <= SorveteriaStore.depoimentosCounter (run isUrl anoAtual rs st) /\
  SorveteriaStore.promocoesCounter st
    <= SorveteriaStore.promocoesCounter (run isUrl anoAtual rs st).
Proof.
  revert st. induction rs as [|r rs IH]; intros st; simpl.
  - lia.
  - pose proof (counters_handle r st). pose proof (IH (handle isUrl anoAtual r st)).
    unfold run in *. lia.
Qed.

End Counters.

Lemma sorveteriaAddDepoimento_ok (agora : Date.t) (body : DepoimentoInput.t)
    (st st' : SorveteriaStore.t) (d : Depoimento.t) :
  sorveteriaAddDepoimento agora body st = (Ok d, st') ->
  exists e,
    SorveteriaStore.sorveteria st = Some e /\
    depoimentoCreateSchema body = Some body /\
    d = Depoimento.mk (SorveteriaStore.depoimentosCounter st + 1)
          (DepoimentoInput.nomeCliente body) (DepoimentoInput.texto body)
          (DepoimentoInput.avaliacao body) PENDENTE (Date.toISOString agora) /\
    st' = SorveteriaStore.recalcularAvaliacaoMedia
            (SorveteriaStore.mk
               (Some (SorveteriaEntity.set_depoimentos
                        (SorveteriaEntity.depoimentos e ++ [d]) e))
               (SorveteriaStore.fotosCounter st)
               (SorveteriaStore.depoimentosCounter st + 1)
               (SorveteriaStore.promocoesCounter st)).
Proof.
  unfold sorveteriaAddDepoimento, SorveteriaStore.addDepoimento.
  destruct (depoimentoCreateSchema body) as [data|] eqn:Hv; [|discriminate].
  assert (data = body) as ->.
  { unfold depoimentoCreateSchema in Hv. destruct (_ && _) in Hv; congruence. }
  destruct (SorveteriaStore.sorveteria st) as [e|] eqn:He; [|discriminate].
  cbv zeta. intros [= <- <-]. exists e. repeat split.
Qed.

Lemma sorveteriaAddPromocao_ok (agora : Date.t) (body : PromocaoBody.t)
    (st st' : SorveteriaStore.t) (p : Promocao.t) :
  sorveteriaAddPromocao agora body st = (Ok p, st') ->
  exists e data,
    SorveteriaStore.sorveteria st = Some e /\
    promocaoCreateSchema body = Some data /\
    p = Promocao.mk (SorveteriaStore.promocoesCounter st + 1)
          (PromocaoInput.titulo data) (PromocaoInput.descricao data)
          (PromocaoInput.dataValidade data) (PromocaoInput.prioridade data)
          (PromocaoInput.tipo data) true /\
    st' = SorveteriaStore.mk
            (Some (SorveteriaEntity.set_dateModified (Date.toISOString agora)
                     (SorveteriaEntity.set_promocoesAtivas
                        (SorveteriaEntity.promocoesAtivas e ++ [p]) e)))
            (SorveteriaStore.fotosCounter st)
            (SorveteriaStore.depoimentosCounter st)
            (SorveteriaStore.promocoesCounter st + 1).
Proof.
  unfold sorveteriaAddPromocao, SorveteriaStore.get, SorveteriaStore.addPromocao.
  destruct (promocaoCreateSchema body) as [data|] eqn:Hv; [|discriminate].
  destruct (SorveteriaStore.sorveteria st) as [e|] eqn:He; [|discriminate].
  destruct (_ <=? _)%nat; [discriminate|].
  destruct (_ && _); [discriminate|].
  cbv zeta. intros [= <- <-]. exists e, data. repeat split.
Qed.

Lemma sorveteriaAddFoto_record (isUrl : string -> bool) (agora : Date.t) (body : FotoBody.t)
    (st st' : SorveteriaStore.t) (foto : FotoAmbiente.t) :
  sorveteriaAddFoto isUrl agora body st = (Ok foto, st') ->
  exists e, SorveteriaStore.sorveteria st = Some e.
Proof.
  unfold sorveteriaAddFoto, SorveteriaStore.get.
  destruct (fotoCreateSchema isUrl body); [|discriminate].
  destruct (SorveteriaStore.sorveteria st) as [e|]; [|discriminate].
  intros _. now exists e.
Qed.

Section Reissue.

Variable isUrl : string -> bool.
Variable anoAtual : Z.

(** X2: an identifier is never issued twice: whatever requests are handled
    in between (a create-or-update that empties the lists included), a later
    successful add gets a larger identifier than an earlier one.  This holds
    for photos, testimonials and promotions. *)
Theorem ids_never_reissued (rs : list Request) :
  (forall agora agora' body body' st st1 st2 foto foto',
      sorveteriaAddFoto isUrl agora body st = (Ok foto, st1) ->
      sorveteriaAddFoto isUrl agora' body' (run isUrl anoAtual rs st1) = (Ok foto', st2) ->
      FotoAmbiente.id foto < FotoAmbiente.id foto') /\
  (forall agora agora' body body' st st1 st2 d d',
      sorveteriaAddDepoimento agora body st = (Ok d, st1) ->
      sorveteriaAddDepoimento agora' body' (run isUrl anoAtual rs st1) = (Ok d', st2) ->
      Depoimento.id d < Depoimento.id d') /\
  (forall agora agora' body body' st st1 st2 p p',
      sorveteriaAddPromocao agora body st = (Ok p, st1) ->
      sorveteriaAddPromocao agora' body' (run isUrl anoAtual rs st1) = (Ok p', st2) ->
      Promocao.id p < Promocao.id p').
Proof.
  split; [|split].
  - intros agora agora' body body' st st1 st2 foto foto' H1 H2.
    destruct (sorveteriaAddFoto_record _ _ _ _ _ _ H1) as [e He].
    destruct (sorveteriaAddFoto_record _ _ _ _ _ _ H2) as [e' He'].
    destruct (sorveteriaAddFoto_ok _ _ _ _ _ _ _ He H1) as (Hid & _ & ->).
    destruct (sorveteriaAddFoto_ok _ _ _ _ _ _ _ He' H2) as (Hid' & _ & _).
    match type of Hid' with
    | _ = SorveteriaStore.fotosCounter (run _ _ _ ?s) + 1 =>
        pose proof (counters_run isUrl anoAtual rs s) as (Hc & _ & _)
    end.
    simpl in Hc. lia.
  - intros agora agora' body body' st st1 st2 d d' H1 H2.
    destruct (sorveteriaAddDepoimento_ok _ _ _ _ _ H1) as (e & He & _ & -> & ->).
    destruct (sorveteriaAddDepoimento_ok _ _ _ _ _ H2) as (e' & He' & _ & -> & _).
    match goal with
    | |- context [run _ _ _ (SorveteriaStore.recalcularAvaliacaoMedia ?s)] =>
        pose proof (counters_run isUrl anoAtual rs
                      (SorveteriaStore.recalcularAvaliacaoMedia s)) as (_ & Hc & _);
        destruct (counters_recalcularAvaliacaoMedia s) as (_ & Hr & _)
    end.
    rewrite Hr in Hc. simpl in *. lia.
  - intros agora agora' body body' st st1 st2 p p' H1 H2.
    destruct (sorveteriaAddPromocao_ok _ _ _ _ _ H1) as (e & data & He & _ & -> & ->).
    destruct (sorveteriaAddPromocao_ok _ _ _ _ _ H2) as (e' & data' & He' & _ & -> & _).
    match goal with
    | |- context [run _ _ _ ?s] =>
        pose proof (counters_run isUrl anoAtual rs s) as (_ & _ & Hc)
    end.
    simpl in *. lia.
Qed.

End Reissue.

(** ** Ratings in reachable states *)

Lemma media_of_range (l : list Depoimento.t) :
  Forall (fun d => 1 <= Depoimento.avaliacao d <= 5) l ->
  Z.of_nat (List.length l) < 2 ^ 32 ->
  match aprovados l with
  | [] => media_of l = None
  | _ :: _ =>
      exists n, media_of l = Some (Number.Tenths n) /\ 10 <= n <= 50 /\
                2 * Z.abs (10 * soma_avaliacoes (aprovados l)
                           - n * Z.of_nat (List.length (aprovados l)))
                <= Z.of_nat (List.length (aprovados l))
  end.
Proof.
  intros Hav Hlen. unfold media_of. cbv zeta.
  pose proof (soma_avaliacoes_bounds _ (Forall_aprovados _ _ Hav)) as Hs.
  assert (Hle : (List.length (aprovados l) <= List.length l)%nat)
    by apply length_filter_le.
  destruct (aprovados l) as [|d ap] eqn:Hap; [reflexivity|].
  change (List.length (d :: ap) =? 0)%nat with false. cbv iota.
  set (b := Z.of_nat (List.length (d :: ap))) in *.
  assert (Hb : 0 < b) by (unfold b; simpl; lia).
  destruct (toFixed1_div_nearest (soma_avaliacoes (d :: ap)) b) as (n & Hn & Hnear);
    [lia|lia|].
  exists n. split; [now rewrite Hn|]. split; [nia|exact Hnear].
Qed.

Section Ratings.

Variable isUrl : string -> bool.
Variable anoAtual : Z.

(** X3: in every reachable state the rating count is the number of approved
    testimonials, the average is [null] exactly when that number is 0, and
    otherwise it is a one-decimal number from 1.0 to 5.0. *)
Theorem reachable_rating_fields (st : SorveteriaStore.t) (e : SorveteriaEntity.t) :
  reachable isUrl anoAtual st ->
  SorveteriaStore.sorveteria st = Some e ->
  Z.of_nat (List.length (SorveteriaEntity.depoimentos e)) < 2 ^ 32 ->
  SorveteriaEntity.totalAvaliacoes e
    = Z.of_nat (List.length (aprovados (SorveteriaEntity.depoimentos e))) /\
  (SorveteriaEntity.totalAvaliacoes e = 0 <-> SorveteriaEntity.avaliacaoMedia e = None) /\
  (0 < SorveteriaEntity.totalAvaliacoes e ->
   exists n, SorveteriaEntity.avaliacaoMedia e = Some (Number.Tenths n) /\ 10 <= n <= 50).
Proof.
  intros Hr He Hlen.
  pose proof (reachable_id_invariant isUrl anoAtual st Hr) as Hid.
  pose proof (reachable_store_invariant isUrl anoAtual st Hr) as Hst.
  unfold id_invariant in Hid. unfold store_invariant, invariant in Hst.
  rewrite He in Hid, Hst.
  destruct Hid as (_ & _ & _ & _ & _ & _ & _ & Hm & Ht & _).
  destruct Hst as (_ & _ & _ & _ & Hav).
  pose proof (media_of_range _ Hav Hlen) as Hrange.
  rewrite Hm, Ht. split; [reflexivity|].
  destruct (aprovados (SorveteriaEntity.depoimentos e)) as [|d ap].
  - rewrite Hrange. simpl. split; [tauto|]. intros H. lia.
  - destruct Hrange as (n & -> & Hn & _). simpl List.length. split.
    + split; [lia|discriminate].
    + intros _. now exists n.
Qed.

(** X4: a testimonial that was added is stored last, pending, with the next
    identifier and a rating from 1 to 5; the approved testimonials, the
    average and the count are as before. *)
Theorem sorveteriaAddDepoimento_pendente (agora : Date.t) (body : DepoimentoInput.t)
    (st st' : SorveteriaStore.t) (e : SorveteriaEntity.t) (d : Depoimento.t) :
  reachable isUrl anoAtual st ->
  SorveteriaStore.sorveteria st = Some e ->
  sorveteriaAddDepoimento agora body st = (Ok d, st') ->
  Depoimento.statusModeracao d = PENDENTE /\
  Depoimento.id d = SorveteriaStore.depoimentosCounter st + 1 /\
  1 <= Depoimento.avaliacao d <= 5 /\
  exists e',
    SorveteriaStore.sorveteria st' = Some e' /\
    SorveteriaEntity.depoimentos e' = (SorveteriaEntity.depoimentos e ++ [d])%list /\
    aprovados (SorveteriaEntity.depoimentos e') = aprovados (SorveteriaEntity.depoimentos e) /\
    SorveteriaEntity.avaliacaoMedia e' = SorveteriaEntity.avaliacaoMedia e /\
    SorveteriaEntity.totalAvaliacoes e' = SorveteriaEntity.totalAvaliacoes e.
Proof.
  intros Hr He Hadd.
  destruct (sorveteriaAddDepoimento_ok _ _ _ _ _ Hadd) as (e0 & He0 & Hv & Hd & ->).
  rewrite He in He0. injection He0 as <-.
  pose proof (reachable_id_invariant isUrl anoAtual st Hr) as Hid.
  unfold id_invariant in Hid. rewrite He in Hid.
  destruct Hid as (_ & _ & _ & _ & _ & _ & _ & Hm & Ht & _).
  assert (Hp : Depoimento.statusModeracao d = PENDENTE) by (rewrite Hd; reflexivity).
  split; [exact Hp|]. split; [rewrite Hd; reflexivity|]. split.
  { unfold depoimentoCreateSchema in Hv.
    destruct (_ && _) eqn:Hc in Hv; [|discriminate].
    repeat rewrite andb_true_iff in Hc. destruct Hc as [[_ Hlo] Hhi].
    apply Z.leb_le in Hlo, Hhi. rewrite Hd. simpl. lia. }
  match goal with
  | |- context [SorveteriaStore.recalcularAvaliacaoMedia ?s] =>
      rewrite (recalcularAvaliacaoMedia_eq s _ eq_refl)
  end.
  eexists. split; [reflexivity|]. simpl.
  pose proof (aprovados_app_pendente (SorveteriaEntity.depoimentos e) d Hp) as Hap.
  split; [reflexivity|]. split; [exact Hap|].
  unfold media_of. rewrite Hap. fold (media_of (SorveteriaEntity.depoimentos e)).
  now rewrite Hm, Ht.
Qed.

End Ratings.

(** ** What a removal and a moderation update change *)

Lemma findIndex_lt {A : Type} (p : A -> bool) (l : list A) (i : nat) :
  findIndex p l = Some i -> (i < List.length l)%nat.
Proof.
  intros H. destruct (findIndex_Some p l i H) as (x & Hx & _).
  apply nth_error_Some. congruence.
Qed.

Section Exact.

Variable isUrl : string -> bool.
Variable anoAtual : Z.

(** X5: a successful remove-photo drops the photo with the given identifier
    and no other: the list afterwards is the list before without it, in the
    same order, one entry shorter, and no photo with that identifier is
    left. *)
Theorem sorveteriaRemoveFoto_exact (agora : Date.t) (params : Z)
    (st st' : SorveteriaStore.t) (e : SorveteriaEntity.t) (msg : string) :
  reachable isUrl anoAtual st ->
  SorveteriaStore.sorveteria st = Some e ->
  sorveteriaRemoveFoto agora params st = (Ok msg, st') ->
  exists e',
    SorveteriaStore.sorveteria st' = Some e' /\
    SorveteriaEntity.fotosAmbiente e'
      = filter (fun f => negb (FotoAmbiente.id f =? params)) (SorveteriaEntity.fotosAmbiente e) /\
    (forall f, In f (SorveteriaEntity.fotosAmbiente e') <->
               In f (SorveteriaEntity.fotosAmbiente e) /\ FotoAmbiente.id f <> params) /\
    S (List.length (SorveteriaEntity.fotosAmbiente e'))
      = List.length (SorveteriaEntity.fotosAmbiente e).
Proof.
  intros Hr He Hrm.
  pose proof (reachable_id_invariant isUrl anoAtual st Hr) as Hid.
  unfold id_invariant in Hid. rewrite He in Hid.
  destruct Hid as (_ & _ & _ & _ & Hf & _).
  unfold sorveteriaRemoveFoto, SorveteriaStore.removeFoto in Hrm.
  destruct (paramsSchema params) as [k|] eqn:Hk; [|discriminate].
  assert (k = params) as ->.
  { unfold paramsSchema in Hk. destruct (0 <? params); congruence. }
  rewrite He in Hrm.
  destruct (findIndex _ _) as [i|] eqn:Hi; [|discriminate].
  cbv zeta in Hrm. injection Hrm as _ <-.
  eexists. split; [reflexivity|]. simpl.
  rewrite (keys_between_splice1 FotoAmbiente.id _ _ _ _ _ Hf Hi).
  split; [reflexivity|]. split.
  - intros f. rewrite filter_In, negb_true_iff, Z.eqb_neq. tauto.
  - rewrite <- (keys_between_splice1 FotoAmbiente.id _ _ _ _ _ Hf Hi).
    apply length_splice1. exact (findIndex_lt _ _ _ Hi).
Qed.

(** X6: with a positive identifier and a valid status, the moderation
    update fails NOT_FOUND, leaving the store as it was, when no testimonial
    has the identifier; otherwise it answers that testimonial with the new
    status, and the list afterwards is the list before with the status of
    that testimonial replaced and every other testimonial untouched. *)
Theorem sorveteriaUpdateDepoimentoStatus_exact (params : Z) (body : string)
    (status : StatusModeracao) (st : SorveteriaStore.t) (e : SorveteriaEntity.t) :
  reachable isUrl anoAtual st ->
  SorveteriaStore.sorveteria st = Some e ->
  0 < params ->
  parse_StatusModeracao body = Some status ->
  let r := sorveteriaUpdateDepoimentoStatus params body st in
  ((forall d, In d (SorveteriaEntity.depoimentos e) -> Depoimento.id d <> params) ->
   (exists err, fst r = Err err /\ ServiceError.code err = NOT_FOUND) /\ snd r = st) /\
  (forall d, In d (SorveteriaEntity.depoimentos e) -> Depoimento.id d = params ->
   fst r = Ok (Depoimento.set_statusModeracao status d) /\
   exists e',
     SorveteriaStore.sorveteria (snd r) = Some e' /\
     SorveteriaEntity.depoimentos e'
       = map (fun x => if Depoimento.id x =? params
                       then Depoimento.set_statusModeracao status x else x)
           (SorveteriaEntity.depoimentos e)).
Proof.
  intros Hr He Hpos Hst r.
  pose proof (reachable_id_invariant isUrl anoAtual st Hr) as Hid.
  unfold id_invariant in Hid. rewrite He in Hid.
  destruct Hid as (_ & _ & _ & _ & _ & Hd & _).
  subst r.
  unfold sorveteriaUpdateDepoimentoStatus, SorveteriaStore.updateDepoimentoStatus.
  unfold paramsSchema. apply Z.ltb_lt in Hpos. rewrite Hpos, Hst, He.
  destruct (findIndex _ _) as [i|] eqn:Hi.
  - destruct (findIndex_Some _ _ _ Hi) as (x & Hx & Hpx). apply Z.eqb_eq in Hpx.
    split.
    + intros Hno. exfalso. apply (Hno x); [|assumption].
      eapply nth_error_In; eassumption.
    + intros d Hin Hdid.
      assert (d = x) as ->.
      { destruct (In_nth_error _ _ Hin) as [j Hj].
        destruct (Nat.lt_trichotomy i j) as [Hlt|[->|Hgt]].
        - pose proof (keys_between_nth Depoimento.id _ _ _ Hd i j x d Hlt Hx Hj). lia.
        - congruence.
        - pose proof (keys_between_nth Depoimento.id _ _ _ Hd j i d x Hgt Hj Hx). lia. }
      cbv zeta. rewrite (nth_error_update_at _ _ _ _ Hx). cbn [fst snd]. split; [reflexivity|].
      match goal with
      | |- context [SorveteriaStore.recalcularAvaliacaoMedia ?s] =>
          rewrite (recalcularAvaliacaoMedia_eq s _ eq_refl)
      end.
      eexists. split; [reflexivity|]. simpl.
      exact (keys_between_update_at_map Depoimento.id _ _ _ _ _ _ Hd Hi).
  - split.
    + intros _. cbn [fst snd]. split; [|reflexivity]. eexists. split; reflexivity.
    + intros d Hin Hdid. exfalso.
      apply findIndex_None with (x := d) in Hi; [|assumption].
      apply Z.eqb_neq in Hi. contradiction.
Qed.

End Exact.

(** ** Failed requests *)

Section Failure.

Variable isUrl : string -> bool.
Variable anoAtual : Z.

(** The error thrown at this point is the one of the hypothesis: the store
    is the one the call started from, and the code fits the status *)
Ltac thrown_here :=
  intros [= <-]; split; [reflexivity|]; split; [reflexivity|];
  first [ left; split; reflexivity | right; split; [discriminate|reflexivity] ].

(** X7: a request that ends with a [ServiceError] leaves the store exactly
    as it was; the response carries the error's status code, which is 404
    for NOT_FOUND and 400 for every other code. *)
Theorem falha_store_unchanged (r : Request) (st : SorveteriaStore.t) (err : ServiceError.t) :
  falha isUrl anoAtual r st = Some err ->
  handle isUrl anoAtual r st = st /\
  http_status isUrl anoAtual r st = ServiceError.statusCode err /\
  (ServiceError.code err = NOT_FOUND /\ ServiceError.statusCode err = 404 \/
   ServiceError.code err <> NOT_FOUND /\ ServiceError.statusCode err = 400).
Proof.
  destruct r; cbn [falha handle http_status]; try discriminate.
  - unfold sorveteriaGet, SorveteriaStore.get.
    destruct (SorveteriaStore.sorveteria st); cbv zeta.
    + destruct (SorveteriaStore.sorveteria _); discriminate.
    + thrown_here.
  - unfold sorveteriaCreateOrUpdate. cbv zeta.
    destruct (negb _).
    { thrown_here. }
    destruct (0 <? _)%nat.
    { thrown_here. }
    destruct (0 <? _)%nat.
    { thrown_here. }
    destruct (SorveteriaStore.set _ _ _) as [n s1].
    destruct (SorveteriaStore.get _); discriminate.
  - unfold sorveteriaUpdate, SorveteriaStore.get, SorveteriaStore.update.
    destruct (negb _).
    { thrown_here. }
    destruct (SorveteriaStore.sorveteria st) as [e|] eqn:He.
    + cbv beta iota zeta.
      match goal with
      | |- context [SorveteriaStore.updateStatusFuncionamento ?t ?s] =>
          destruct (SorveteriaStore.sorveteria
                      (SorveteriaStore.updateStatusFuncionamento t s)); discriminate
      end.
    + thrown_here.
  - unfold sorveteriaAddFoto, SorveteriaStore.get, SorveteriaStore.addFoto.
    destruct (fotoCreateSchema isUrl body).
    2:{ thrown_here. }
    destruct (SorveteriaStore.sorveteria st) as [e|] eqn:He.
    2:{ thrown_here. }
    destruct (_ <=? _)%nat; [|discriminate].
    thrown_here.
  - unfold sorveteriaRemoveFoto, SorveteriaStore.removeFoto.
    destruct (paramsSchema params).
    2:{ thrown_here. }
    destruct (SorveteriaStore.sorveteria st) as [e|] eqn:He.
    2:{ thrown_here. }
    destruct (findIndex _ _); [discriminate|].
    thrown_here.
  - unfold sorveteriaAddDepoimento, SorveteriaStore.addDepoimento.
    destruct (depoimentoCreateSchema body).
    2:{ thrown_here. }
    destruct (SorveteriaStore.sorveteria st) as [e|] eqn:He; [discriminate|].
    thrown_here.
  - unfold sorveteriaUpdateDepoimentoStatus, SorveteriaStore.updateDepoimentoStatus.
    destruct (paramsSchema params).
    2:{ thrown_here. }
    destruct (parse_StatusModeracao body).
    2:{ thrown_here. }
    destruct (SorveteriaStore.sorveteria st) as [e|] eqn:He.
    2:{ thrown_here. }
    destruct (findIndex _ _) as [i|] eqn:Hi.
    2:{ thrown_here. }
    destruct (findIndex_Some _ _ _ Hi) as (x & Hx & _).
    cbv zeta. rewrite (nth_error_update_at _ _ _ _ Hx). discriminate.
  - unfold sorveteriaAddPromocao, SorveteriaStore.get, SorveteriaStore.addPromocao.
    destruct (promocaoCreateSchema body).
    2:{ thrown_here. }
    destruct (SorveteriaStore.sorveteria st) as [e|] eqn:He.
    2:{ thrown_here. }
    destruct (_ <=? _)%nat.
    { thrown_here. }
    destruct (_ && _); [|discriminate].
    thrown_here.
Qed.

End Failure.

(** ** The record stays *)

Section Persist.

Variable isUrl : string -> bool.
Variable anoAtual : Z.

Lemma handle_keeps_record (r : Request) (st : SorveteriaStore.t) (e : SorveteriaEntity.t) :
  SorveteriaStore.sorveteria st = Some e ->
  exists e',
    SorveteriaStore.sorveteria (handle isUrl anoAtual r st) = Some e' /\
    SorveteriaEntity.id e' = SorveteriaEntity.id e /\
    SorveteriaEntity.dateCreated e' = SorveteriaEntity.dateCreated e.
Proof.
  intros He.
  assert (Hsame : exists e', SorveteriaStore.sorveteria st = Some e' /\
                    SorveteriaEntity.id e' = SorveteriaEntity.id e /\
                    SorveteriaEntity.dateCreated e' = SorveteriaEntity.dateCreated e)
    by (exists e; repeat split; assumption).
  assert (Hup : forall t s e1,
            SorveteriaStore.sorveteria s = Some e1 ->
            SorveteriaEntity.id e1 = SorveteriaEntity.id e ->
            SorveteriaEntity.dateCreated e1 = SorveteriaEntity.dateCreated e ->
            exists e',
              SorveteriaStore.sorveteria (SorveteriaStore.updateStatusFuncionamento t s)
                = Some e' /\
              SorveteriaEntity.id e' = SorveteriaEntity.id e /\
              SorveteriaEntity.dateCreated e' = SorveteriaEntity.dateCreated e).
  { intros t s e1 H1 H2 H3.
    destruct (updateStatusFuncionamento_shape t s e1 H1) as (v & _ & ->).
    eexists. split; [reflexivity|]. split; assumption. }
  destruct r; cbn [handle].
  - unfold sorveteriaGet, SorveteriaStore.get. rewrite He. cbv zeta.
    destruct (Hup agora st e He eq_refl eq_refl) as (e' & He' & H).
    rewrite He'. cbn [snd]. exists e'. split; assumption.
  - unfold sorveteriaCreateOrUpdate. cbv zeta.
    destruct (negb _); [exact Hsame|].
    destruct (0 <? _)%nat; [exact Hsame|].
    destruct (0 <? _)%nat; [exact Hsame|].
    unfold SorveteriaStore.set. rewrite He. cbv beta iota zeta.
    match goal with
    | |- context [SorveteriaStore.updateStatusFuncionamento ?t ?s] =>
        destruct (Hup t s _ eq_refl eq_refl eq_refl) as (e' & He' & H);
        unfold SorveteriaStore.get; rewrite He'; cbn [snd]
    end.
    exists e'. split; assumption.
  - unfold sorveteriaUpdate, SorveteriaStore.get, SorveteriaStore.update.
    destruct (negb _); [exact Hsame|]. rewrite He. cbv beta iota zeta.
    match goal with
    | |- context [SorveteriaStore.updateStatusFuncionamento ?t ?s] =>
        destruct (Hup t s _ eq_refl eq_refl eq_refl) as (e' & He' & H);
        rewrite He'; cbn [snd]
    end.
    exists e'. split; assumption.
  - unfold sorveteriaAddFoto, SorveteriaStore.get, SorveteriaStore.addFoto.
    destruct (fotoCreateSchema isUrl body); [|exact Hsame]. rewrite He.
    destruct (_ <=? _)%nat; [exact Hsame|].
    eexists. split; [reflexivity|]. split; reflexivity.
  - unfold sorveteriaRemoveFoto, SorveteriaStore.removeFoto.
    destruct (paramsSchema params); [|exact Hsame]. rewrite He.
    destruct (findIndex _ _); [|exact Hsame].
    eexists. split; [reflexivity|]. split; reflexivity.
  - unfold sorveteriaAddDepoimento, SorveteriaStore.addDepoimento.
    destruct (depoimentoCreateSchema body); [|exact Hsame]. rewrite He.
    cbv zeta. cbn [snd].
    match goal with
    | |- context [SorveteriaStore.recalcularAvaliacaoMedia ?s] =>
        rewrite (recalcularAvaliacaoMedia_eq s _ eq_refl)
    end.
    eexists. split; [reflexivity|]. split; reflexivity.
  - unfold sorveteriaUpdateDepoimentoStatus, SorveteriaStore.updateDepoimentoStatus.
    destruct (paramsSchema params); [|exact Hsame].
    destruct (parse_StatusModeracao body); [|exact Hsame]. rewrite He.
    destruct (findIndex _ _) as [i|]; [|exact Hsame]. cbv zeta.
    match goal with
    | |- context [SorveteriaStore.recalcularAvaliacaoMedia ?s] =>
        rewrite (recalcularAvaliacaoMedia_eq s _ eq_refl)
    end.
    destruct (nth_error _ i); cbn [snd];
      (eexists; split; [reflexivity|]; split; reflexivity).
  - unfold sorveteriaAddPromocao, SorveteriaStore.get, SorveteriaStore.addPromocao.
    destruct (promocaoCreateSchema body); [|exact Hsame]. rewrite He.
    destruct (_ <=? _)%nat; [exact Hsame|].
    destruct (_ && _); [exact Hsame|].
    eexists. split; [reflexivity|]. split; reflexivity.
  - unfold sorveteriaRemovePromocoesVencidas, SorveteriaStore.removePromocoesVencidas.
    rewrite He. cbv zeta. cbn [snd].
    destruct (_ >? _); (eexists; split; [reflexivity|]; split; reflexivity).
  - unfold sorveteriaUpdateStatus. cbv zeta. cbn [snd].
    exact (Hup agora st e He eq_refl eq_refl).
Qed.

(** X8: once the record exists no sequence of requests removes it, changes
    its identifier or changes its creation date. *)
Theorem record_persists (rs : list Request) (st : SorveteriaStore.t) (e : SorveteriaEntity.t) :
  SorveteriaStore.sorveteria st = Some e ->
  exists e',
    SorveteriaStore.sorveteria (run isUrl anoAtual rs st) = Some e' /\
    SorveteriaEntity.id e' = SorveteriaEntity.id e /\
    SorveteriaEntity.dateCreated e' = SorveteriaEntity.dateCreated e.
Proof.
  revert st e. induction rs as [|r rs IH]; intros st e He.
  - exists e. repeat split. exact He.
  - destruct (handle_keeps_record r st e He) as (e1 & He1 & Hid & Hdc).
    destruct (IH _ _ He1) as (e' & He' & Hid' & Hdc').
    exists e'. simpl. split; [exact He'|]. split; congruence.
Qed.

End Persist.

(** ** Create-or-update and the partial update *)

Section Profile.

Variable isUrl : string -> bool.
Variable anoAtual : Z.

(** X9: a successful create-or-update answers the stored record, in which
    the photos, the testimonials and the promotions are empty, the average
    is [null] and the count 0, also when a record with entries existed; the
    three counters keep their values, the modification date is the clock of
    the call and the creation date is kept from an existing record. *)
Theorem sorveteriaCreateOrUpdate_resets (t1 t2 : Date.t) (body : CreateBody.t)
    (st st' : SorveteriaStore.t) (e' : SorveteriaEntity.t) :
  sorveteriaCreateOrUpdate isUrl anoAtual t1 t2 body st = (Ok e', st') ->
  SorveteriaStore.sorveteria st' = Some e' /\
  SorveteriaEntity.fotosAmbiente e' = [] /\
  SorveteriaEntity.depoimentos e' = [] /\
  SorveteriaEntity.promocoesAtivas e' = [] /\
  SorveteriaEntity.avaliacaoMedia e' = None /\
  SorveteriaEntity.totalAvaliacoes e' = 0 /\
  SorveteriaStore.fotosCounter st' = SorveteriaStore.fotosCounter st /\
  SorveteriaStore.depoimentosCounter st' = SorveteriaStore.depoimentosCounter st /\
  SorveteriaStore.promocoesCounter st' = SorveteriaStore.promocoesCounter st /\
  SorveteriaEntity.dateModified e' = Date.toISOString t1 /\
  SorveteriaEntity.dateCreated e' =
    match SorveteriaStore.sorveteria st with
    | Some e => SorveteriaEntity.dateCreated e
    | None => Date.toISOString t1
    end.
Proof.
  unfold sorveteriaCreateOrUpdate. cbv zeta.
  destruct (negb _); [discriminate|].
  destruct (0 <? _)%nat; [discriminate|].
  destruct (0 <? _)%nat; [discriminate|].
  unfold SorveteriaStore.set, SorveteriaStore.get. cbv beta iota zeta.
  match goal with
  | |- context [SorveteriaStore.updateStatusFuncionamento ?t ?s] =>
      destruct (updateStatusFuncionamento_shape t s _ eq_refl) as (v & _ & Hs);
      rewrite Hs
  end.
  cbn [SorveteriaStore.sorveteria SorveteriaStore.with_sorveteria].
  intros [= <- <-].
  destruct (SorveteriaStore.sorveteria st); repeat split.
Qed.

(** X10: with a valid body and an existing record the partial update
    succeeds and answers the stored record: every key present in the body
    replaces the field, every absent key leaves it; identifier, photos,
    testimonials, rating, promotions and creation date are untouched, the
    modification date is the clock of the call and the status is recomputed
    to open or closed. *)
Theorem sorveteriaUpdate_merges (t1 t2 : Date.t) (body : UpdateBody.t)
    (st : SorveteriaStore.t) (e : SorveteriaEntity.t) :
  updateSchema isUrl anoAtual body = true ->
  SorveteriaStore.sorveteria st = Some e ->
  exists e',
    sorveteriaUpdate isUrl anoAtual t1 t2 body st
      = (Ok e', SorveteriaStore.with_sorveteria e' st) /\
    SorveteriaEntity.nomeSorveteria e'
      = SorveteriaStore.spread (SorveteriaEntity.nomeSorveteria e) (UpdateBody.nomeSorveteria body) /\
    SorveteriaEntity.logotipo e'
      = SorveteriaStore.spread (SorveteriaEntity.logotipo e) (UpdateBody.logotipo body) /\
    SorveteriaEntity.slogan e'
      = SorveteriaStore.spread (SorveteriaEntity.slogan e) (UpdateBody.slogan body) /\
    SorveteriaEntity.historiaSorveteria e'
      = SorveteriaStore.spread (SorveteriaEntity.historiaSorveteria e)
          (UpdateBody.historiaSorveteria body) /\
    SorveteriaEntity.anoFundacao e'
      = SorveteriaStore.spread (SorveteriaEntity.anoFundacao e) (UpdateBody.anoFundacao body) /\
    SorveteriaEntity.diferenciais e'
      = SorveteriaStore.spread (SorveteriaEntity.diferenciais e) (UpdateBody.diferenciais body) /\
    SorveteriaEntity.fundadores e'
      = SorveteriaStore.spread (SorveteriaEntity.fundadores e) (UpdateBody.fundadores body) /\
    SorveteriaEntity.horariosSemana e'
      = SorveteriaStore.spread (SorveteriaEntity.horariosSemana e)
          (UpdateBody.horariosSemana body) /\
    SorveteriaEntity.horariosEspeciais e'
      = SorveteriaStore.spread (SorveteriaEntity.horariosEspeciais e)
          (UpdateBody.horariosEspeciais body) /\
    SorveteriaEntity.missao e'
      = SorveteriaStore.spread (SorveteriaEntity.missao e) (UpdateBody.missao body) /\
    SorveteriaEntity.visao e'
      = SorveteriaStore.spread (SorveteriaEntity.visao e) (UpdateBody.visao body) /\
    SorveteriaEntity.valores e'
      = SorveteriaStore.spread (SorveteriaEntity.valores e) (UpdateBody.valores body) /\
    SorveteriaEntity.id e' = SorveteriaEntity.id e /\
    SorveteriaEntity.fotosAmbiente e' = SorveteriaEntity.fotosAmbiente e /\
    SorveteriaEntity.depoimentos e' = SorveteriaEntity.depoimentos e /\
    SorveteriaEntity.avaliacaoMedia e' = SorveteriaEntity.avaliacaoMedia e /\
    SorveteriaEntity.totalAvaliacoes e' = SorveteriaEntity.totalAvaliacoes e /\
    SorveteriaEntity.promocoesAtivas e' = SorveteriaEntity.promocoesAtivas e /\
    SorveteriaEntity.dateCreated e' = SorveteriaEntity.dateCreated e /\
    SorveteriaEntity.dateModified e' = Date.toISOString t1 /\
    (SorveteriaEntity.statusFuncionamento e' = aberto \/
     SorveteriaEntity.statusFuncionamento e' = fechado).
Proof.
  intros Hv He.
  unfold sorveteriaUpdate, SorveteriaStore.get, SorveteriaStore.update.
  rewrite Hv, He. cbv beta iota zeta. cbn [negb].
  match goal with
  | |- context [SorveteriaStore.updateStatusFuncionamento ?t ?s] =>
      destruct (updateStatusFuncionamento_shape t s _ eq_refl) as (v & Hval & Hs);
      rewrite Hs
  end.
  cbn [SorveteriaStore.sorveteria SorveteriaStore.with_sorveteria].
  eexists. split; [reflexivity|]. simpl. repeat split. exact Hval.
Qed.

Lemma createSchema_as_update (b : CreateBody.t) :
  createSchema isUrl anoAtual b = true -> updateSchema isUrl anoAtual (as_update b) = true.
Proof.
  unfold createSchema, updateSchema, as_update. cbn [optional
    UpdateBody.nomeSorveteria UpdateBody.logotipo UpdateBody.slogan
    UpdateBody.historiaSorveteria UpdateBody.anoFundacao UpdateBody.diferenciais
    UpdateBody.fundadores UpdateBody.horariosSemana UpdateBody.horariosEspeciais
    UpdateBody.missao UpdateBody.visao UpdateBody.valores].
  repeat rewrite andb_true_iff. tauto.
Qed.

(** X11: a body that passes the create schema passes the update schema
    when sent with every key present, and the partial update then stores its
    history and differentiators whatever keywords they contain: the keyword
    rules of create-or-update are not applied by the partial update. *)
Theorem sorveteriaUpdate_without_keywords (t1 t2 : Date.t) (b : CreateBody.t)
    (st : SorveteriaStore.t) (e : SorveteriaEntity.t) :
  createSchema isUrl anoAtual b = true ->
  SorveteriaStore.sorveteria st = Some e ->
  updateSchema isUrl anoAtual (as_update b) = true /\
  exists e',
    sorveteriaUpdate isUrl anoAtual t1 t2 (as_update b) st
      = (Ok e', SorveteriaStore.with_sorveteria e' st) /\
    SorveteriaEntity.historiaSorveteria e' = CreateBody.historiaSorveteria b /\
    SorveteriaEntity.diferenciais e' = CreateBody.diferenciais b.
Proof.
  intros Hv He. pose proof (createSchema_as_update b Hv) as Hu.
  split; [exact Hu|].
  unfold sorveteriaUpdate, SorveteriaStore.get, SorveteriaStore.update.
  rewrite Hu, He. cbv beta iota zeta. cbn [negb].
  match goal with
  | |- context [SorveteriaStore.updateStatusFuncionamento ?t ?s] =>
      destruct (updateStatusFuncionamento_shape t s _ eq_refl) as (v & _ & Hs);
      rewrite Hs
  end.
  cbn [SorveteriaStore.sorveteria SorveteriaStore.with_sorveteria].
  eexists. split; [reflexivity|]. simpl. split; reflexivity.
Qed.

End Profile.

(** ** The status recompute, again *)

(** The status recompute forgets the status it finds *)
Lemma updateStatusFuncionamento_twice (t t' : Date.t) (st : SorveteriaStore.t) :
  SorveteriaStore.updateStatusFuncionamento t
    (SorveteriaStore.updateStatusFuncionamento t' st)
  = SorveteriaStore.updateStatusFuncionamento t st.
Proof.
  destruct (SorveteriaStore.sorveteria st) as [e|] eqn:He.
  - destruct (updateStatusFuncionamento_shape t' st e He) as (v & _ & ->).
    unfold SorveteriaStore.updateStatusFuncionamento. rewrite He.
    cbn [SorveteriaStore.sorveteria SorveteriaStore.with_sorveteria
         SorveteriaEntity.horariosSemana SorveteriaEntity.horariosEspeciais
         SorveteriaEntity.set_statusFuncionamento].
    cbv zeta.
    repeat break_match; reflexivity.
  - now rewrite !(updateStatusFuncionamento_none _ st He).
Qed.

(** X12: what update-status answers and stores depends on the clock and the
    hours only, not on an earlier recompute: running it at [t] after a run at
    [t'] gives what a run at [t] alone gives, and running it twice at [t]
    changes nothing more.  It answers no status exactly when there is no
    record, and otherwise open or closed. *)
Theorem sorveteriaUpdateStatus_absorbs (t t' : Date.t) (st : SorveteriaStore.t) :
  sorveteriaUpdateStatus t (snd (sorveteriaUpdateStatus t' st)) = sorveteriaUpdateStatus t st /\
  sorveteriaUpdateStatus t (snd (sorveteriaUpdateStatus t st)) = sorveteriaUpdateStatus t st /\
  (fst (sorveteriaUpdateStatus t st) = None <-> SorveteriaStore.sorveteria st = None) /\
  (forall v, fst (sorveteriaUpdateStatus t st) = Some v -> v = aberto \/ v = fechado).
Proof.
  unfold sorveteriaUpdateStatus. cbv zeta. cbn [snd fst].
  rewrite !updateStatusFuncionamento_twice. split; [reflexivity|]. split; [reflexivity|].
  unfold SorveteriaStore.get.
  destruct (SorveteriaStore.sorveteria st) as [e|] eqn:He.
  - destruct (updateStatusFuncionamento_shape t st e He) as (v & Hv & ->).
    cbn [SorveteriaStore.sorveteria SorveteriaStore.with_sorveteria option_map].
    split; [split; discriminate|]. intros v' [= <-]. exact Hv.
  - rewrite (updateStatusFuncionamento_none t st He), He. cbn [option_map].
    split; [tauto|]. discriminate.
Qed.

(** X13: a successful get answers the record as stored after the call,
    which is the record before with only the status replaced (by open or
    closed); a second get at the same instant answers the same record and
    leaves the store as the first one left it. *)
Theorem sorveteriaGet_repeatable (agora : Date.t) (st st' : SorveteriaStore.t)
    (e' : SorveteriaEntity.t) :
  sorveteriaGet agora st = (Ok e', st') ->
  SorveteriaStore.sorveteria st' = Some e' /\
  (SorveteriaEntity.statusFuncionamento e' = aberto \/
   SorveteriaEntity.statusFuncionamento e' = fechado) /\
  (exists e, SorveteriaStore.sorveteria st = Some e /\
             e' = SorveteriaEntity.set_statusFuncionamento
                    (SorveteriaEntity.statusFuncionamento e') e) /\
  sorveteriaGet agora st' = (Ok e', st').
Proof.
  unfold sorveteriaGet at 1. unfold SorveteriaStore.get.
  destruct (SorveteriaStore.sorveteria st) as [e|] eqn:He; [|discriminate].
  cbv zeta.
  destruct (updateStatusFuncionamento_shape agora st e He) as (v & Hv & Hs).
  rewrite Hs. cbn [SorveteriaStore.sorveteria SorveteriaStore.with_sorveteria].
  intros [= <- <-]. split; [reflexivity|]. split; [exact Hv|]. split.
  - exists e. split; reflexivity.
  - rewrite <- Hs. unfold sorveteriaGet, SorveteriaStore.get.
    rewrite updateStatusFuncionamento_twice. rewrite Hs. reflexivity.
Qed.

(** ** Times: the pattern and the comparison *)

Lemma in_range_iff (lo hi c : ascii) :
  Re.in_range lo hi c = true <->
  Z.of_N (N_of_ascii lo) - 48 <= digit_value c <= Z.of_N (N_of_ascii hi) - 48.
Proof.
  unfold Re.in_range, digit_value. rewrite andb_true_iff, !N.leb_le. lia.
Qed.

Lemma in_range_colon (c : ascii) : Re.in_range ":" ":" c = true <-> c = ":"%char.
Proof.
  split.
  - unfold Re.in_range. rewrite andb_true_iff, !N.leb_le.
    change (N_of_ascii ":") with 58%N. intros H.
    rewrite <- (ascii_N_embedding c). replace (N_of_ascii c) with 58%N by lia. reflexivity.
  - intros ->. reflexivity.
Qed.

Lemma test_hora_eq (s : string) :
  Re.test Re.hora s =
  match s with
  | String h (String c (String m1 (String m2 EmptyString))) =>
      Re.in_range "0" "9" h && Re.in_range ":" ":" c &&
      Re.in_range "0" "5" m1 && Re.in_range "0" "9" m2
  | String h1 (String h2 (String c (String m1 (String m2 EmptyString)))) =>
      (Re.in_range "0" "1" h1 && Re.in_range "0" "9" h2 ||
       Re.in_range "2" "2" h1 && Re.in_range "0" "3" h2) &&
      Re.in_range ":" ":" c && Re.in_range "0" "5" m1 && Re.in_range "0" "9" m2
  | _ => false
  end.
Proof.
  unfold Re.hora, Re.Opt, Re.Chr, Re.digit.
  rewrite test_Seq_Alt, !test_Seq_assoc, test_Seq_Alt, test_Seq_Eps.
  destruct s as [|c1 [|c2 [|c3 [|c4 [|c5 [|c6 s]]]]]];
    repeat (progress (rewrite ?test_Seq_Range, ?test_Range; cbv beta iota));
    repeat match goal with
           | |- context [Re.in_range ?a ?b ?c] => destruct (Re.in_range a b c)
           end;
    reflexivity.
Qed.

(** X14: the time pattern of the schemas accepts exactly the strings [H:MM]
    and [HH:MM] made of digits with the hour from 0 to 23 (one or two
    digits, so both [9:00] and [09:00]) and the minute from 00 to 59. *)
Theorem hora_pattern_shape (s : string) :
  Re.test Re.hora s = true <-> hora_shape s.
Proof.
  rewrite test_hora_eq. unfold hora_shape, is_digit. split.
  - intros H.
    destruct s as [|c1 [|c2 [|c3 [|c4 [|c5 [|c6 s]]]]]]; try discriminate.
    + left. repeat rewrite andb_true_iff in H. destruct H as [[[H1 H2] H3] H4].
      apply in_range_colon in H2. subst c2.
      apply in_range_iff in H1, H3, H4. simpl in H1, H3, H4.
      exists c1, c3, c4. repeat split; lia.
    + right. repeat rewrite andb_true_iff in H. destruct H as [[[H1 H2] H3] H4].
      apply in_range_colon in H2. subst c3.
      apply in_range_iff in H3, H4. simpl in H3, H4.
      exists c1, c2, c4, c5. split; [reflexivity|]. split; [|lia].
      apply orb_true_iff in H1. rewrite !andb_true_iff, !in_range_iff in H1.
      simpl in H1. lia.
  - intros [(h & m1 & m2 & -> & Hh & Hm1 & Hm2)|(h1 & h2 & m1 & m2 & -> & Hh & Hm1 & Hm2)].
    + repeat rewrite andb_true_iff. rewrite in_range_colon, !in_range_iff. simpl.
      repeat split; lia.
    + repeat rewrite andb_true_iff. rewrite orb_true_iff, !andb_true_iff.
      rewrite in_range_colon, !in_range_iff. simpl.
      repeat split; try lia; try reflexivity.
Qed.

Lemma horaAtual_padded (agora : Date.t) :
  (Date.getHours agora < 24)%nat -> (Date.getMinutes agora < 60)%nat ->
  Re.test Re.hora (SorveteriaStore.horaAtual agora) = true /\
  String.length (SorveteriaStore.horaAtual agora) = 5%nat /\
  minutes_of (SorveteriaStore.horaAtual agora)
    = 60 * Z.of_nat (Date.getHours agora) + Z.of_nat (Date.getMinutes agora).
Proof.
  intros Hh Hm.
  set (ok := fun h m : nat =>
         let s := SorveteriaStore.horaAtual (Date.mk Domingo h m "") in
         Re.test Re.hora s && (String.length s =? 5)%nat &&
         (minutes_of s =? 60 * Z.of_nat h + Z.of_nat m)).
  assert (Hall : forallb (fun h => forallb (ok h) (seq 0 60)) (seq 0 24) = true)
    by (vm_compute; reflexivity).
  rewrite forallb_forall in Hall.
  specialize (Hall (Date.getHours agora)).
  rewrite in_seq, forallb_forall in Hall.
  specialize (Hall ltac:(lia) (Date.getMinutes agora)).
  rewrite in_seq in Hall. specialize (Hall ltac:(lia)).
  unfold ok in Hall. cbv zeta in Hall.
  change (SorveteriaStore.horaAtual
            (Date.mk Domingo (Date.getHours agora) (Date.getMinutes agora) ""))
    with (SorveteriaStore.horaAtual agora) in Hall.
  rewrite !andb_true_iff, Nat.eqb_eq, Z.eqb_eq in Hall. tauto.
Qed.

(** X15: when no special-hours entry is dated today and the weekly entry of
    the day holds two five-character times accepted by the schema, the
    recompute sets the status to the one of the clock: closed if the day is
    flagged closed, else open exactly when the minute of the day
    [60 * hours + minutes] is at least the opening minute and before the
    closing minute. *)
Theorem updateStatusFuncionamento_weekly_padded
    (agora : Date.t) (st : SorveteriaStore.t) (e : SorveteriaEntity.t) :
  let h := HorarioSemana.get (SorveteriaEntity.horariosSemana e) (Date.getDay agora) in
  let minuto := 60 * Z.of_nat (Date.getHours agora) + Z.of_nat (Date.getMinutes agora) in
  SorveteriaStore.sorveteria st = Some e ->
  special_today agora e = None ->
  (Date.getHours agora < 24)%nat -> (Date.getMinutes agora < 60)%nat ->
  horarioDiaSchema h = true ->
  String.length (HorarioDia.abertura h) = 5%nat ->
  String.length (HorarioDia.fechamento h) = 5%nat ->
  SorveteriaStore.updateStatusFuncionamento agora st =
  SorveteriaStore.with_sorveteria
    (SorveteriaEntity.set_statusFuncionamento
       (if HorarioDia.fechado h then fechado
        else if (minutes_of (HorarioDia.abertura h) <=? minuto) &&
                (minuto <? minutes_of (HorarioDia.fechamento h))
             then aberto else fechado) e) st.
Proof.
  intros h minuto He Hsp Hh Hm Hv Ha Hf.
  unfold horarioDiaSchema in Hv. apply andb_true_iff in Hv. destruct Hv as [Hva Hvf].
  destruct (horaAtual_padded agora Hh Hm) as (Hn & Hl & Hmin). fold minuto in Hmin.
  destruct (Js_lt_hora_padded (SorveteriaStore.horaAtual agora) (HorarioDia.abertura h)
              Hn Hva Hl Ha) as [_ Hge].
  destruct (Js_lt_hora_padded (SorveteriaStore.horaAtual agora) (HorarioDia.fechamento h)
              Hn Hvf Hl Hf) as [Hlt _].
  rewrite Hmin in Hge, Hlt.
  unfold SorveteriaStore.updateStatusFuncionamento. rewrite He. cbv zeta.
  unfold special_today in Hsp. rewrite Hsp. fold h.
  destruct (HorarioDia.fechado h); [reflexivity|].
  replace (Js.ge (SorveteriaStore.horaAtual agora) (HorarioDia.abertura h))
    with (minutes_of (HorarioDia.abertura h) <=? minuto).
  2:{ apply eq_true_iff_eq. rewrite Hge. apply Z.leb_le. }
  replace (Js.lt (SorveteriaStore.horaAtual agora) (HorarioDia.fechamento h))
    with (minuto <? minutes_of (HorarioDia.fechamento h)).
  2:{ apply eq_true_iff_eq. rewrite Hlt. apply Z.ltb_lt. }
  destruct (_ && _); reflexivity.
Qed.

(** ** The expiry sweep, again *)

Lemma filter_idempotent {A : Type} (p : A -> bool) (l : list A) :
  filter p (filter p l) = filter p l.
Proof.
  induction l as [|x l IH]; simpl; [reflexivity|].
  destruct (p x) eqn:Hx; simpl; [rewrite Hx; f_equal|]; exact IH.
Qed.

(** X16: after an expiry sweep, another sweep on the same day removes
    nothing, answers 0 and leaves the store (modification date included) as
    the first one left it. *)
Theorem sorveteriaRemovePromocoesVencidas_again (t1 t2 t1' t2' : Date.t)
    (st : SorveteriaStore.t) :
  Js.split_first (Date.toISOString t1') "T" = Js.split_first (Date.toISOString t1) "T" ->
  let st1 := snd (sorveteriaRemovePromocoesVencidas t1 t2 st) in
  sorveteriaRemovePromocoesVencidas t1' t2' st1 = (0, st1).
Proof.
  intros Hday st1. subst st1.
  unfold sorveteriaRemovePromocoesVencidas, SorveteriaStore.removePromocoesVencidas.
  destruct (SorveteriaStore.sorveteria st) as [e|] eqn:He.
  - cbv zeta. rewrite Hday.
    set (hoje := Js.split_first (Date.toISOString t1) "T").
    set (l := SorveteriaEntity.promocoesAtivas e).
    destruct (_ >? 0); cbn [snd SorveteriaStore.sorveteria SorveteriaStore.with_sorveteria];
      cbn [SorveteriaEntity.promocoesAtivas SorveteriaEntity.set_promocoesAtivas
           SorveteriaEntity.set_dateModified];
      rewrite filter_idempotent, Z.sub_diag; cbn [Z.gtb Z.compare];
      reflexivity.
  - cbn [snd]. rewrite He. reflexivity.
Qed.

Lemma count_prioridade1_unique (l : list Promocao.t) (q x : Promocao.t) :
  (count_prioridade1 l <= 1)%nat ->
  In q l -> Promocao.prioridade q = 1 ->
  In x l -> Promocao.prioridade x = 1 -> x = q.
Proof.
  unfold count_prioridade1.
  induction l as [|a l IH]; simpl; intros Hc Hq Hq1 Hx Hx1; [contradiction|].
  destruct (Promocao.prioridade a =? 1) eqn:Ha.
  - simpl in Hc.
    assert (Hnone : forall y, In y l -> Promocao.prioridade y = 1 -> False).
    { intros y Hy Hy1.
      assert (In y (filter (fun p => Promocao.prioridade p =? 1) l))
        by (apply filter_In; split; [assumption|now apply Z.eqb_eq]).
      destruct (filter (fun p => Promocao.prioridade p =? 1) l); [contradiction|].
      simpl in Hc. lia. }
    destruct Hq as [<-|Hq]; [|exfalso; eauto].
    destruct Hx as [<-|Hx]; [reflexivity|exfalso; eauto].
  - apply Z.eqb_neq in Ha.
    destruct Hq as [<-|Hq]; [contradiction|].
    destruct Hx as [<-|Hx]; [contradiction|].
    now apply IH.
Qed.

Lemma length_filter_lt {A : Type} (p : A -> bool) (l : list A) (x : A) :
  In x l -> p x = false -> (List.length (filter p l) < List.length l)%nat.
Proof.
  induction l as [|a l IH]; simpl; intros Hin Hx; [contradiction|].
  pose proof (length_filter_le p l) as Hle.
  destruct Hin as [->|Hin].
  - rewrite Hx. lia.
  - specialize (IH Hin Hx). destruct (p a); simpl; lia.
Qed.

Section Sweep.

Variable isUrl : string -> bool.
Variable anoAtual : Z.

(** X17: in a reachable state holding an expired promotion, a valid add
    right after the expiry sweep succeeds when it does not ask for priority
    1, or when the expired promotion was the one with priority 1: the new
    promotion is stored with the next identifier and the expired one is
    gone. *)
Theorem sweep_makes_room (t1 t2 agora : Date.t) (body : PromocaoBody.t)
    (data : PromocaoInput.t) (st : SorveteriaStore.t) (e : SorveteriaEntity.t)
    (q : Promocao.t) :
  reachable isUrl anoAtual st ->
  SorveteriaStore.sorveteria st = Some e ->
  In q (SorveteriaEntity.promocoesAtivas e) ->
  Js.lt (Promocao.dataValidade q) (Js.split_first (Date.toISOString t1) "T") = true ->
  promocaoCreateSchema body = Some data ->
  PromocaoInput.prioridade data <> 1 \/ Promocao.prioridade q = 1 ->
  let st1 := snd (sorveteriaRemovePromocoesVencidas t1 t2 st) in
  exists p st2 e2,
    sorveteriaAddPromocao agora body st1 = (Ok p, st2) /\
    SorveteriaStore.sorveteria st2 = Some e2 /\
    In p (SorveteriaEntity.promocoesAtivas e2) /\
    ~ In q (SorveteriaEntity.promocoesAtivas e2) /\
    Promocao.prioridade p = PromocaoInput.prioridade data /\
    Promocao.id p = SorveteriaStore.promocoesCounter st + 1.
Proof.
  intros Hr He Hq Hexp Hv Hprio st1. subst st1.
  pose proof (reachable_store_invariant isUrl anoAtual st Hr) as Hinv.
  unfold store_invariant in Hinv. rewrite He in Hinv.
  destruct Hinv as (H3 & H1 & _).
  unfold SORVETERIA_LIMITS.MAX_PROMOCOES in H3.
  set (hoje := Js.split_first (Date.toISOString t1) "T") in *.
  set (keep := fun p : Promocao.t => Js.ge (Promocao.dataValidade p) hoje).
  set (l := SorveteriaEntity.promocoesAtivas e) in *.
  assert (Hkq : keep q = false) by (unfold keep, Js.ge; unfold Js.lt in Hexp; now rewrite Hexp).
  assert (Hlen : (List.length (filter keep l) < 3)%nat).
  { pose proof (length_filter_lt keep l q Hq Hkq). lia. }
  assert (Hnq : ~ In q (filter keep l)).
  { intros Hin. apply filter_In in Hin. destruct Hin as [_ Hin]. congruence. }
  assert (Hsome : (PromocaoInput.prioridade data =? 1) &&
                  some (fun p => Promocao.prioridade p =? 1) (filter keep l) = false).
  { destruct Hprio as [Hp|Hp].
    - apply Z.eqb_neq in Hp. now rewrite Hp.
    - apply andb_false_iff. right. unfold some.
      destruct (existsb _ _) eqn:Hex; [|reflexivity]. exfalso.
      apply existsb_exists in Hex. destruct Hex as (x & Hx & Hx1).
      apply Z.eqb_eq in Hx1. apply filter_In in Hx. destruct Hx as [Hx Hkx].
      rewrite (count_prioridade1_unique l q x H1 Hq Hp Hx Hx1) in Hkx. congruence. }
  assert (Hst1 : exists e1,
            SorveteriaStore.sorveteria (snd (sorveteriaRemovePromocoesVencidas t1 t2 st))
              = Some e1 /\
            SorveteriaEntity.promocoesAtivas e1 = filter keep l /\
            SorveteriaStore.promocoesCounter (snd (sorveteriaRemovePromocoesVencidas t1 t2 st))
              = SorveteriaStore.promocoesCounter st).
  { unfold sorveteriaRemovePromocoesVencidas, SorveteriaStore.removePromocoesVencidas.
    rewrite He. cbv zeta. fold hoje. fold l. fold keep.
    destruct (_ >? 0); eexists; (split; [reflexivity|split; reflexivity]). }
  destruct Hst1 as (e1 & He1 & Hl1 & Hc1).
  unfold sorveteriaAddPromocao, SorveteriaStore.get, SorveteriaStore.addPromocao.
  rewrite Hv, He1, Hl1.
  destruct (Nat.leb_spec SORVETERIA_LIMITS.MAX_PROMOCOES (List.length (filter keep l)))
    as [Hge|_]; [unfold SORVETERIA_LIMITS.MAX_PROMOCOES in Hge; lia|].
  rewrite Hsome. cbv zeta.
  eexists _, _, _. split; [reflexivity|]. split; [reflexivity|].
  cbn [SorveteriaEntity.promocoesAtivas SorveteriaEntity.set_promocoesAtivas
       SorveteriaEntity.set_dateModified Promocao.prioridade Promocao.id].
  rewrite ?Hl1, ?Hc1. split; [apply in_or_app; right; now left|]. split.
  - intros Hin. apply in_app_or in Hin. destruct Hin as [Hin|[Heq|[]]]; [contradiction|].
    pose proof (reachable_id_invariant isUrl anoAtual st Hr) as Hid.
    unfold id_invariant in Hid. rewrite He in Hid.
    destruct Hid as (_ & _ & _ & _ & _ & _ & Hp & _).
    pose proof (keys_between_In Promocao.id _ _ _ q Hp Hq) as Hb.
    rewrite <- Heq in Hb. simpl in Hb. lia.
  - split; reflexivity.
Qed.

End Sweep.

(** ** The pages *)

(** X18: in the photo gallery, from a valid index the two buttons stay
    within the photos and wrap around (next is [p + 1] modulo the number of
    photos, previous is [p - 1] modulo it), each undoes the other, and the
    position shown is between 1 and the number of photos. *)
Theorem galeria_navigation (length p : Z) :
  0 <= p < length ->
  (exists q, GaleriaFotos.proxima length (Some p) = Some q /\ 0 <= q < length /\
             q = (p + 1) mod length) /\
  (exists q, GaleriaFotos.anterior length (Some p) = Some q /\ 0 <= q < length /\
             q = (p - 1) mod length) /\
  GaleriaFotos.anterior length (GaleriaFotos.proxima length (Some p)) = Some p /\
  GaleriaFotos.proxima length (GaleriaFotos.anterior length (Some p)) = Some p /\
  1 <= GaleriaFotos.posicao (Some p) <= length.
Proof.
  intros Hp. unfold GaleriaFotos.proxima, GaleriaFotos.anterior, GaleriaFotos.posicao.
  repeat split; try lia.
  - destruct (Z.ltb_spec p (length - 1)).
    + exists (p + 1). repeat split; try lia. symmetry. apply Z.mod_small. lia.
    + exists 0. repeat split; try lia.
      replace (p + 1) with length by lia. symmetry. apply Z.mod_same. lia.
  - destruct (Z.ltb_spec 0 p).
    + exists (p - 1). repeat split; try lia. symmetry. apply Z.mod_small. lia.
    + exists (length - 1). repeat split; try lia.
      replace (p - 1) with (-1) by lia.
      apply (Z.mod_unique_pos _ _ (-1)); lia.
  - destruct (Z.ltb_spec p (length - 1)).
    + destruct (Z.ltb_spec 0 (p + 1)); f_equal; lia.
    + simpl. f_equal. lia.
  - destruct (Z.ltb_spec 0 p).
    + destruct (Z.ltb_spec (p - 1) (length - 1)); f_equal; lia.
    + destruct (Z.ltb_spec (length - 1) (length - 1)); f_equal; lia.
Qed.

Lemma preenchidas_clamp (rating : Z) :
  DepoimentosSection.preenchidas rating = Z.max 0 (Z.min 5 rating).
Proof.
  unfold DepoimentosSection.preenchidas, DepoimentosSection.renderStars.
  cbn [map filter].
  destruct (Z.leb_spec 1 rating), (Z.leb_spec 2 rating), (Z.leb_spec 3 rating),
    (Z.leb_spec 4 rating), (Z.leb_spec 5 rating); cbn [filter List.length]; lia.
Qed.

Section Stars.

Variable isUrl : string -> bool.
Variable anoAtual : Z.

(** X19: for a record in a reachable state, every card of the testimonials
    section belongs to a stored testimonial and shows five stars, the filled
    ones first, as many filled as the rating. *)
Theorem renderStars_shows_rating (st : SorveteriaStore.t) (e : SorveteriaEntity.t)
    (d : Depoimento.t) (stars : list bool) :
  reachable isUrl anoAtual st ->
  SorveteriaStore.sorveteria st = Some e ->
  In (d, stars) (DepoimentosSection.cards e) ->
  In d (SorveteriaEntity.depoimentos e) /\
  List.length stars = 5%nat /\
  Z.of_nat (List.length (filter (fun b : bool => b) stars)) = Depoimento.avaliacao d /\
  stars = (repeat true (Z.to_nat (Depoimento.avaliacao d)) ++
           repeat false (5 - Z.to_nat (Depoimento.avaliacao d)))%list.
Proof.
  intros Hr He Hin.
  pose proof (reachable_store_invariant isUrl anoAtual st Hr) as Hinv.
  unfold store_invariant, invariant in Hinv. rewrite He in Hinv.
  destruct Hinv as (_ & _ & _ & _ & Hav).
  unfold DepoimentosSection.cards in Hin. apply in_map_iff in Hin.
  destruct Hin as (d0 & [= -> <-] & Hd).
  rewrite Forall_forall in Hav. specialize (Hav d Hd).
  split; [exact Hd|]. split; [reflexivity|]. split.
  - fold (DepoimentosSection.preenchidas (Depoimento.avaliacao d)).
    rewrite preenchidas_clamp. lia.
  - assert (Hcase : Depoimento.avaliacao d = 1 \/ Depoimento.avaliacao d = 2 \/
                    Depoimento.avaliacao d = 3 \/ Depoimento.avaliacao d = 4 \/
                    Depoimento.avaliacao d = 5) by lia.
    destruct Hcase as [H|[H|[H|[H|H]]]]; rewrite H; reflexivity.
Qed.

End Stars.

(** ** Worked instances of the further properties *)

Lemma reachable_ids_issued_in_order_witness :
  let st := Sample2.duas_fotos in
  reachable Sample.isUrl Sample.anoAtual st /\
  SorveteriaStore.sorveteria st = Some (Sample.registro st) /\
  map FotoAmbiente.id (SorveteriaEntity.fotosAmbiente (Sample.registro st)) = [2; 3] /\
  issued_in_order FotoAmbiente.id (SorveteriaEntity.fotosAmbiente (Sample.registro st))
    (SorveteriaStore.fotosCounter st).
Proof.
  intros st.
  assert (H1 : reachable Sample.isUrl Sample.anoAtual st) by apply reachable_sample_run.
  assert (H2 : SorveteriaStore.sorveteria st = Some (Sample.registro st))
    by (vm_compute; reflexivity).
  split; [exact H1|]. split; [exact H2|]. split; [vm_compute; reflexivity|].
  exact (proj1 (proj2 (reachable_ids_issued_in_order _ _ st _ H1 H2))).
Defined.

Lemma ids_never_reissued_witness :
  let f1 := FotoAmbiente.mk 1 "https://tommasi.example/balcao.jpg" None BALCAO 1 in
  let f2 := FotoAmbiente.mk 2 "https://tommasi.example/balcao.jpg" None BALCAO 1 in
  let rs := [Sample.criar (Sample.semana "10:00" "22:00") None] in
  let st1 := snd (sorveteriaAddFoto Sample.isUrl (Sample.segunda_as 9 0) Sample.foto
                    Sample.criada) in
  let st2 := snd (sorveteriaAddFoto Sample.isUrl (Sample.segunda_as 9 2) Sample.foto
                    (run Sample.isUrl Sample.anoAtual rs st1)) in
  sorveteriaAddFoto Sample.isUrl (Sample.segunda_as 9 0) Sample.foto Sample.criada
    = (Ok f1, st1) /\
  sorveteriaAddFoto Sample.isUrl (Sample.segunda_as 9 2) Sample.foto
    (run Sample.isUrl Sample.anoAtual rs st1) = (Ok f2, st2) /\
  FotoAmbiente.id f1 < FotoAmbiente.id f2.
Proof.
  intros f1 f2 rs st1 st2.
  assert (H1 : sorveteriaAddFoto Sample.isUrl (Sample.segunda_as 9 0) Sample.foto Sample.criada
               = (Ok f1, st1)) by (vm_compute; reflexivity).
  assert (H2 : sorveteriaAddFoto Sample.isUrl (Sample.segunda_as 9 2) Sample.foto
                 (run Sample.isUrl Sample.anoAtual rs st1) = (Ok f2, st2))
    by (vm_compute; reflexivity).
  split; [exact H1|]. split; [exact H2|].
  exact (proj1 (ids_never_reissued Sample.isUrl Sample.anoAtual rs) _ _ _ _ _ _ _ _ _ H1 H2).
Defined.

Lemma reachable_rating_fields_witness :
  let st := Sample.dois_aprovados in
  reachable Sample.isUrl Sample.anoAtual st /\
  SorveteriaStore.sorveteria st = Some (Sample.registro st) /\
  Z.of_nat (List.length (SorveteriaEntity.depoimentos (Sample.registro st))) < 2 ^ 32 /\
  0 < SorveteriaEntity.totalAvaliacoes (Sample.registro st) /\
  exists n, SorveteriaEntity.avaliacaoMedia (Sample.registro st) = Some (Number.Tenths n) /\
            10 <= n <= 50.
Proof.
  intros st.
  assert (H1 : reachable Sample.isUrl Sample.anoAtual st) by apply reachable_sample_run.
  assert (H2 : SorveteriaStore.sorveteria st = Some (Sample.registro st))
    by (vm_compute; reflexivity).
  assert (H3 : Z.of_nat (List.length (SorveteriaEntity.depoimentos (Sample.registro st)))
               < 2 ^ 32) by (vm_compute; reflexivity).
  assert (H4 : 0 < SorveteriaEntity.totalAvaliacoes (Sample.registro st))
    by (vm_compute; reflexivity).
  split; [exact H1|]. split; [exact H2|]. split; [exact H3|]. split; [exact H4|].
  exact (proj2 (proj2 (reachable_rating_fields _ _ st _ H1 H2 H3)) H4).
Defined.

Lemma sorveteriaAddDepoimento_pendente_witness :
  let st := Sample.dois_aprovados in
  let d := Depoimento.mk 3 "Ana" "Muito bom" 1 PENDENTE "2024-05-06T12:05:00.000Z" in
  let st' := snd (sorveteriaAddDepoimento (Sample.segunda_as 9 5) (Sample.depoimento 1) st) in
  reachable Sample.isUrl Sample.anoAtual st /\
  SorveteriaStore.sorveteria st = Some (Sample.registro st) /\
  sorveteriaAddDepoimento (Sample.segunda_as 9 5) (Sample.depoimento 1) st = (Ok d, st') /\
  exists e',
    SorveteriaStore.sorveteria st' = Some e' /\
    SorveteriaEntity.avaliacaoMedia e' = Some (Number.Tenths 40) /\
    SorveteriaEntity.totalAvaliacoes e' = 2.
Proof.
  intros st d st'.
  assert (H1 : reachable Sample.isUrl Sample.anoAtual st) by apply reachable_sample_run.
  assert (H2 : SorveteriaStore.sorveteria st = Some (Sample.registro st))
    by (vm_compute; reflexivity).
  assert (H3 : sorveteriaAddDepoimento (Sample.segunda_as 9 5) (Sample.depoimento 1) st
               = (Ok d, st')) by (vm_compute; reflexivity).
  split; [exact H1|]. split; [exact H2|]. split; [exact H3|].
  destruct (sorveteriaAddDepoimento_pendente _ _ _ _ st st' _ d H1 H2 H3)
    as (_ & _ & _ & e' & He' & _ & _ & Hm & Ht).
  exists e'. split; [exact He'|]. split.
  - rewrite Hm. vm_compute. reflexivity.
  - rewrite Ht. vm_compute. reflexivity.
Defined.

Lemma sorveteriaRemoveFoto_exact_witness :
  let st := Sample.doze_fotos in
  let st' := snd (sorveteriaRemoveFoto (Sample.segunda_as 9 4) 5 st) in
  reachable Sample.isUrl Sample.anoAtual st /\
  SorveteriaStore.sorveteria st = Some (Sample.registro st) /\
  sorveteriaRemoveFoto (Sample.segunda_as 9 4) 5 st = (Ok "Photo removed successfully", st') /\
  exists e',
    SorveteriaStore.sorveteria st' = Some e' /\
    List.length (SorveteriaEntity.fotosAmbiente e') = 11%nat /\
    forall f, In f (SorveteriaEntity.fotosAmbiente e') -> FotoAmbiente.id f <> 5.
Proof.
  intros st st'.
  assert (H1 : reachable Sample.isUrl Sample.anoAtual st) by apply reachable_sample_run.
  assert (H2 : SorveteriaStore.sorveteria st = Some (Sample.registro st))
    by (vm_compute; reflexivity).
  assert (H3 : sorveteriaRemoveFoto (Sample.segunda_as 9 4) 5 st
               = (Ok "Photo removed successfully", st')) by (vm_compute; reflexivity).
  split; [exact H1|]. split; [exact H2|]. split; [exact H3|].
  destruct (sorveteriaRemoveFoto_exact _ _ _ _ st st' _ _ H1 H2 H3)
    as (e' & He' & _ & Hin & Hlen).
  exists e'. split; [exact He'|]. split.
  - apply eq_add_S. rewrite Hlen. vm_compute. reflexivity.
  - intros f Hf. apply Hin in Hf. tauto.
Defined.

Lemma sorveteriaUpdateDepoimentoStatus_exact_witness :
  let st := Sample.dois_aprovados in
  let d := Depoimento.mk 1 "Ana" "Muito bom" 5 APROVADO "2024-05-06T12:00:00.000Z" in
  reachable Sample.isUrl Sample.anoAtual st /\
  SorveteriaStore.sorveteria st = Some (Sample.registro st) /\
  0 < 1 /\
  parse_StatusModeracao "rejeitado" = Some REJEITADO /\
  In d (SorveteriaEntity.depoimentos (Sample.registro st)) /\
  fst (sorveteriaUpdateDepoimentoStatus 1 "rejeitado" st)
    = Ok (Depoimento.set_statusModeracao REJEITADO d).
Proof.
  intros st d.
  assert (H1 : reachable Sample.isUrl Sample.anoAtual st) by apply reachable_sample_run.
  assert (H2 : SorveteriaStore.sorveteria st = Some (Sample.registro st))
    by (vm_compute; reflexivity).
  assert (H3 : 0 < 1) by lia.
  assert (H4 : parse_StatusModeracao "rejeitado" = Some REJEITADO) by reflexivity.
  assert (H5 : In d (SorveteriaEntity.depoimentos (Sample.registro st)))
    by (vm_compute; left; reflexivity).
  split; [exact H1|]. split; [exact H2|]. split; [exact H3|]. split; [exact H4|].
  split; [exact H5|].
  exact (proj1 (proj2 (sorveteriaUpdateDepoimentoStatus_exact _ _ 1 "rejeitado" REJEITADO
                         st _ H1 H2 H3 H4) d H5 eq_refl)).
Defined.

Lemma falha_store_unchanged_witness :
  let r := AddFoto (Sample.segunda_as 9 5) Sample.foto in
  let err := ServiceError.mk LIMIT_EXCEEDED "Maximum of 12 photos allowed" 400 in
  falha Sample.isUrl Sample.anoAtual r Sample.doze_fotos = Some err /\
  handle Sample.isUrl Sample.anoAtual r Sample.doze_fotos = Sample.doze_fotos /\
  http_status Sample.isUrl Sample.anoAtual r Sample.doze_fotos = 400.
Proof.
  intros r err.
  assert (H : falha Sample.isUrl Sample.anoAtual r Sample.doze_fotos = Some err)
    by (vm_compute; reflexivity).
  split; [exact H|].
  destruct (falha_store_unchanged _ _ r Sample.doze_fotos err H) as (Hs & Hc & _).
  split; [exact Hs|exact Hc].
Defined.

Lemma record_persists_witness :
  let st := Sample.criada in
  let rs := [RemovePromocoesVencidas (Sample.segunda_as 10 0) (Sample.segunda_as 10 0);
             CreateOrUpdate (Sample.segunda_as 11 0) (Sample.segunda_as 11 0)
               (Sample.body (Sample.semana "09:00" "18:00") None);
             AddFoto (Sample.segunda_as 11 5) Sample.foto] in
  SorveteriaStore.sorveteria st = Some (Sample.registro st) /\
  exists e',
    SorveteriaStore.sorveteria (run Sample.isUrl Sample.anoAtual rs st) = Some e' /\
    SorveteriaEntity.dateCreated e' = "2024-05-06T11:00:00.000Z".
Proof.
  intros st rs.
  assert (H : SorveteriaStore.sorveteria st = Some (Sample.registro st))
    by (vm_compute; reflexivity).
  split; [exact H|].
  destruct (record_persists Sample.isUrl Sample.anoAtual rs st _ H) as (e' & He' & _ & Hd).
  exists e'. split; [exact He'|]. rewrite Hd. vm_compute. reflexivity.
Defined.

Lemma sorveteriaCreateOrUpdate_resets_witness :
  let st := Sample.doze_fotos in
  let r := sorveteriaCreateOrUpdate Sample.isUrl Sample.anoAtual (Sample.segunda_as 11 0)
             (Sample.segunda_as 11 0) (Sample.body (Sample.semana "09:00" "18:00") None) st in
  r = (Ok (Sample.registro (snd r)), snd r) /\
  List.length (SorveteriaEntity.fotosAmbiente (Sample.registro st)) = 12%nat /\
  SorveteriaEntity.fotosAmbiente (Sample.registro (snd r)) = [] /\
  SorveteriaStore.fotosCounter (snd r) = 12.
Proof.
  intros st r.
  assert (H : r = (Ok (Sample.registro (snd r)), snd r)) by (vm_compute; reflexivity).
  split; [exact H|]. split; [vm_compute; reflexivity|].
  destruct (sorveteriaCreateOrUpdate_resets _ _ _ _ _ st _ _ H)
    as (_ & Hf & _ & _ & _ & _ & Hc & _).
  split; [exact Hf|]. rewrite Hc. vm_compute. reflexivity.
Defined.

Lemma sorveteriaUpdate_merges_witness :
  let st := Sample.criada in
  updateSchema Sample.isUrl Sample.anoAtual Sample2.so_slogan = true /\
  SorveteriaStore.sorveteria st = Some (Sample.registro st) /\
  exists e',
    sorveteriaUpdate Sample.isUrl Sample.anoAtual (Sample.segunda_as 9 0)
      (Sample.segunda_as 9 0) Sample2.so_slogan st
      = (Ok e', SorveteriaStore.with_sorveteria e' st) /\
    SorveteriaEntity.slogan e' = Some "O melhor sorvete" /\
    SorveteriaEntity.nomeSorveteria e' = "Tommasi Sorvetes".
Proof.
  intros st.
  assert (H1 : updateSchema Sample.isUrl Sample.anoAtual Sample2.so_slogan = true)
    by (vm_compute; reflexivity).
  assert (H2 : SorveteriaStore.sorveteria st = Some (Sample.registro st))
    by (vm_compute; reflexivity).
  split; [exact H1|]. split; [exact H2|].
  destruct (sorveteriaUpdate_merges Sample.isUrl Sample.anoAtual (Sample.segunda_as 9 0)
              (Sample.segunda_as 9 0) Sample2.so_slogan st _ H1 H2)
    as (e' & He' & Hn & _ & Hs & _).
  exists e'. split; [exact He'|]. split.
  - rewrite Hs. reflexivity.
  - rewrite Hn. vm_compute. reflexivity.
Defined.

Lemma sorveteriaUpdate_without_keywords_witness :
  let st := Sample.criada in
  let b := Sample.body_sem_origem in
  createSchema Sample.isUrl Sample.anoAtual b = true /\
  SorveteriaStore.sorveteria st = Some (Sample.registro st) /\
  (exists err,
     fst (sorveteriaCreateOrUpdate Sample.isUrl Sample.anoAtual (Sample.segunda_as 9 0)
            (Sample.segunda_as 9 0) b st) = Err err) /\
  exists e',
    sorveteriaUpdate Sample.isUrl Sample.anoAtual (Sample.segunda_as 9 0)
      (Sample.segunda_as 9 0) (as_update b) st
      = (Ok e', SorveteriaStore.with_sorveteria e' st) /\
    SorveteriaEntity.historiaSorveteria e' = Sample.historia_sem_origem.
Proof.
  intros st b.
  assert (H1 : createSchema Sample.isUrl Sample.anoAtual b = true)
    by (vm_compute; reflexivity).
  assert (H2 : SorveteriaStore.sorveteria st = Some (Sample.registro st))
    by (vm_compute; reflexivity).
  split; [exact H1|]. split; [exact H2|]. split.
  - vm_compute. eexists. reflexivity.
  - destruct (sorveteriaUpdate_without_keywords Sample.isUrl Sample.anoAtual
                (Sample.segunda_as 9 0) (Sample.segunda_as 9 0) b st _ H1 H2)
      as (_ & e' & He' & Hh & _).
    exists e'. split; [exact He'|]. rewrite Hh. reflexivity.
Defined.

Lemma sorveteriaGet_repeatable_witness :
  let st := Sample.criada in
  let agora := Sample.segunda_as 15 0 in
  let r := sorveteriaGet agora st in
  r = (Ok (Sample.registro (snd r)), snd r) /\
  SorveteriaEntity.statusFuncionamento (Sample.registro st) = fechado /\
  SorveteriaEntity.statusFuncionamento (Sample.registro (snd r)) = aberto /\
  sorveteriaGet agora (snd r) = r.
Proof.
  intros st agora r.
  assert (H : r = (Ok (Sample.registro (snd r)), snd r)) by (vm_compute; reflexivity).
  split; [exact H|]. split; [vm_compute; reflexivity|]. split; [vm_compute; reflexivity|].
  destruct (sorveteriaGet_repeatable agora st _ _ H) as (_ & _ & _ & Hr).
  rewrite Hr. symmetry. exact H.
Defined.

Lemma updateStatusFuncionamento_weekly_padded_witness :
  let st := Sample.criada in
  let e := Sample.registro st in
  let agora := Sample.segunda_as 15 0 in
  let h := HorarioSemana.get (SorveteriaEntity.horariosSemana e) (Date.getDay agora) in
  SorveteriaStore.sorveteria st = Some e /\
  special_today agora e = None /\
  (Date.getHours agora < 24)%nat /\ (Date.getMinutes agora < 60)%nat /\
  horarioDiaSchema h = true /\
  String.length (HorarioDia.abertura h) = 5%nat /\
  String.length (HorarioDia.fechamento h) = 5%nat /\
  SorveteriaStore.updateStatusFuncionamento agora st =
  SorveteriaStore.with_sorveteria (SorveteriaEntity.set_statusFuncionamento aberto e) st.
Proof.
  intros st e agora h.
  assert (H1 : SorveteriaStore.sorveteria st = Some e) by (vm_compute; reflexivity).
  assert (H2 : special_today agora e = None) by (vm_compute; reflexivity).
  assert (H3 : (Date.getHours agora < 24)%nat) by (cbn; lia).
  assert (H4 : (Date.getMinutes agora < 60)%nat) by (cbn; lia).
  assert (H5 : horarioDiaSchema h = true) by (vm_compute; reflexivity).
  assert (H6 : String.length (HorarioDia.abertura h) = 5%nat) by (vm_compute; reflexivity).
  assert (H7 : String.length (HorarioDia.fechamento h) = 5%nat) by (vm_compute; reflexivity).
  split; [exact H1|]. split; [exact H2|]. split; [exact H3|]. split; [exact H4|].
  split; [exact H5|]. split; [exact H6|]. split; [exact H7|].
  refine (eq_trans (updateStatusFuncionamento_weekly_padded agora st e H1 H2 H3 H4 H5 H6 H7) _).
  vm_compute. reflexivity.
Defined.

Lemma sorveteriaRemovePromocoesVencidas_again_witness :
  let st := Sample2.promocao_vencida in
  let t1 := Sample.segunda_as 10 0 in
  let t1' := Sample.segunda_as 11 30 in
  let st1 := snd (sorveteriaRemovePromocoesVencidas t1 t1 st) in
  Js.split_first (Date.toISOString t1') "T" = Js.split_first (Date.toISOString t1) "T" /\
  fst (sorveteriaRemovePromocoesVencidas t1 t1 st) = 1 /\
  sorveteriaRemovePromocoesVencidas t1' t1' st1 = (0, st1).
Proof.
  intros st t1 t1' st1.
  assert (H : Js.split_first (Date.toISOString t1') "T"
              = Js.split_first (Date.toISOString t1) "T") by (vm_compute; reflexivity).
  split; [exact H|]. split; [vm_compute; reflexivity|].
  exact (sorveteriaRemovePromocoesVencidas_again t1 t1 t1' t1' st H).
Defined.

Lemma sweep_makes_room_witness :
  let st := Sample2.promocao_vencida in
  let t1 := Sample.segunda_as 10 0 in
  let agora := Sample.segunda_as 10 5 in
  let body := Sample.promocao "2024-12-31" 1 in
  let data := PromocaoInput.mk "Casquinha em dobro" "Na compra de uma, leve duas"
                "2024-12-31" 1 COMBO in
  let q := Promocao.mk 1 "Casquinha em dobro" "Na compra de uma, leve duas"
             "2024-05-05" 1 COMBO true in
  reachable Sample.isUrl Sample.anoAtual st /\
  SorveteriaStore.sorveteria st = Some (Sample.registro st) /\
  In q (SorveteriaEntity.promocoesAtivas (Sample.registro st)) /\
  Js.lt (Promocao.dataValidade q) (Js.split_first (Date.toISOString t1) "T") = true /\
  promocaoCreateSchema body = Some data /\
  (exists err, fst (sorveteriaAddPromocao agora body st) = Err err /\
               ServiceError.code err = PRIORITY_CONFLICT) /\
  exists p st2,
    sorveteriaAddPromocao agora body (snd (sorveteriaRemovePromocoesVencidas t1 t1 st))
      = (Ok p, st2) /\
    Promocao.prioridade p = 1 /\ Promocao.id p = 3.
Proof.
  intros st t1 agora body data q.
  assert (H1 : reachable Sample.isUrl Sample.anoAtual st) by apply reachable_sample_run.
  assert (H2 : SorveteriaStore.sorveteria st = Some (Sample.registro st))
    by (vm_compute; reflexivity).
  assert (H3 : In q (SorveteriaEntity.promocoesAtivas (Sample.registro st)))
    by (vm_compute; left; reflexivity).
  assert (H4 : Js.lt (Promocao.dataValidade q) (Js.split_first (Date.toISOString t1) "T")
               = true) by (vm_compute; reflexivity).
  assert (H5 : promocaoCreateSchema body = Some data) by (vm_compute; reflexivity).
  split; [exact H1|]. split; [exact H2|]. split; [exact H3|]. split; [exact H4|].
  split; [exact H5|]. split.
  - vm_compute. eexists. split; reflexivity.
  - destruct (sweep_makes_room Sample.isUrl Sample.anoAtual t1 t1 agora body data st _ q
                H1 H2 H3 H4 H5 (or_intror eq_refl))
      as (p & st2 & e2 & Hadd & _ & _ & _ & Hp & Hid).
    exists p, st2. split; [exact Hadd|]. split; [exact Hp|].
    rewrite Hid. vm_compute. reflexivity.
Defined.

Lemma galeria_navigation_witness :
  0 <= 2 < 3 /\
  GaleriaFotos.proxima 3 (Some 2) = Some 0 /\
  GaleriaFotos.anterior 3 (GaleriaFotos.proxima 3 (Some 2)) = Some 2.
Proof.
  assert (H : 0 <= 2 < 3) by lia.
  split; [exact H|]. split; [reflexivity|].
  exact (proj1 (proj2 (proj2 (galeria_navigation 3 2 H)))).
Defined.

Lemma renderStars_shows_rating_witness :
  let st := Sample.dois_aprovados in
  let d := Depoimento.mk 2 "Ana" "Muito bom" 3 APROVADO "2024-05-06T12:01:00.000Z" in
  let stars := [true; true; true; false; false] in
  reachable Sample.isUrl Sample.anoAtual st /\
  SorveteriaStore.sorveteria st = Some (Sample.registro st) /\
  In (d, stars) (DepoimentosSection.cards (Sample.registro st)) /\
  Z.of_nat (List.length (filter (fun b : bool => b) stars)) = Depoimento.avaliacao d.
Proof.
  intros st d stars.
  assert (H1 : reachable Sample.isUrl Sample.anoAtual st) by apply reachable_sample_run.
  assert (H2 : SorveteriaStore.sorveteria st = Some (Sample.registro st))
    by (vm_compute; reflexivity).
  assert (H3 : In (d, stars) (DepoimentosSection.cards (Sample.registro st)))
    by (vm_compute; right; left; reflexivity).
  split; [exact H1|]. split; [exact H2|]. split; [exact H3|].
  exact (proj1 (proj2 (proj2 (renderStars_shows_rating _ _ st _ d stars H1 H2 H3)))).
Defined.
